(** * Load-test saturation analysis and efficiency report

  A shallow embedding of [scripts/find-saturation.py] and
  [scripts/analyze-results.py].

  Python [int] is [Z].  Python [float] is idealised as an exact number:
  the rationals [Q] in [FindSaturation] (only [+], [*], [/], comparison and
  truncation are used there, so every definition runs), the reals [R] in
  [AnalyzeResults] (which needs a square root).  Rounding is outside the
  model, and so is arithmetic on NaN and infinities; the reader of the k6
  file keeps them apart ([pyfloat]), since [int] raises on them.
  Exceptions are explicit results. *)

From Stdlib Require Import ZArith QArith Qround List Bool Lia.
From Stdlib Require Import Sorting.Sorted Sorting.Permutation Sorting.Mergesort Orders.
From Stdlib Require Import Strings.String Strings.Ascii.
From stdpp Require Import base option gmap strings.
From Stdlib Require Import Reals Lra.
From Stdlib Require Import Qabs.
From Stdlib Require Lqa.

Import ListNotations.

(** ** Python helpers shared by both scripts *)

Module Py.

(** Outcome of a Python computation: a value or an uncaught exception. *)
Inductive exn : Type :=
| ZeroDivisionError
| IndexError
| ValueError
| OverflowError
| AttributeError
| FileNotFoundError
| StatisticsError.

Inductive result (A : Type) : Type :=
| Ok (a : A)
| Raise (e : exn).
Arguments Ok {A} a.
Arguments Raise {A} e.

Definition bind {A B} (r : result A) (k : A -> result B) : result B :=
  match r with
  | Ok a => k a
  | Raise e => Raise e
  end.

End Py.

(** ** find-saturation.py *)

Module FindSaturation.

Local Open Scope Q_scope.

(** One entry of the list returned by [aggregate_by_step]. *)
Record StepStats : Type := mkStepStats {
  target_rps : Z;
  rps_real   : Q;
  p50_ms     : Q;
  p95_ms     : Q;
  p99_ms     : Q;
  err_pct    : Q;
  req_count  : Z;
  n_samples  : nat
}.

(** *** find_saturation_point *)

(** [s['err_pct'] >= err_thr or s['p99_ms'] >= p99_thr] *)
Definition saturated (err_thr p99_thr : Q) (s : StepStats) : bool :=
  Qle_bool err_thr (err_pct s) || Qle_bool p99_thr (p99_ms s).

(** The loop state is the pair [(last_ok, first_saturated)]. *)
Definition verdict : Type := (option StepStats * option StepStats)%type.

(** One iteration of [for s in steps]. *)
Definition detector_step (err_thr p99_thr : Q) (st : verdict) (s : StepStats)
  : verdict :=
  let '(last_ok, first_saturated) := st in
  if saturated err_thr p99_thr s then
    match first_saturated with
    | None => (last_ok, Some s)
    | Some _ => (last_ok, first_saturated)
    end
  else (Some s, first_saturated).

Definition find_saturation_point (steps : list StepStats) (err_thr p99_thr : Q)
  : verdict :=
  fold_left (detector_step err_thr p99_thr) steps (None, None).

(** *** Python list and number primitives *)

(** [int(x)] on a float: truncation toward zero. *)
Definition py_int (x : Q) : Z := Z.quot (Qnum x) (Zpos (Qden x)).

(** [l[i]]: a negative index counts from the end, an index out of range
  raises [IndexError]. *)
Definition py_index {A} (l : list A) (i : Z) : Py.result A :=
  let n := Z.of_nat (length l) in
  let j := if (i <? 0)%Z then (n + i)%Z else i in
  if (j <? 0)%Z then Py.Raise Py.IndexError
  else match nth_error l (Z.to_nat j) with
       | Some x => Py.Ok x
       | None => Py.Raise Py.IndexError
       end.

(** [range(a, b)] *)
Definition py_range (a b : Z) : list Z :=
  map (fun i => (a + Z.of_nat i)%Z) (seq 0 (Z.to_nat (b - a))).

(** [sum(l)] on floats, starting from 0. *)
Definition py_sum (l : list Q) : Q := fold_left Qplus l 0.

(** [min(l)] and [max(l)] on integers; [None] stands for the [ValueError]
  raised on an empty sequence. *)
Definition py_min (l : list Z) : option Z :=
  match l with
  | [] => None
  | x :: l' => Some (fold_left Z.min l' x)
  end.

Definition py_max (l : list Z) : option Z :=
  match l with
  | [] => None
  | x :: l' => Some (fold_left Z.max l' x)
  end.

(** [sorted(l)] on floats: a stable merge sort by [<=]. *)
Module QOrder <: TotalLeBool.
Definition t : Type := Q.
Definition leb : t -> t -> bool := Qle_bool.
Lemma leb_total : forall x y : t, leb x y = true \/ leb y x = true.
Proof.
  intros x y. unfold leb. rewrite !Qle_bool_iff.
  destruct (Qlt_le_dec x y) as [H|H]; [left; apply Qlt_le_weak|right]; exact H.
Qed.
End QOrder.

Module QSort := Sort QOrder.

Definition sorted (l : list Q) : list Q := QSort.sort l.

(** *** The percentile of aggregate_by_step

  The nested function [pct], with the variables it closes over
  ([durations_sorted] and [n]) as arguments. *)
Definition pct_of (durations_sorted : list Q) (n : Z) (p : Q) : Py.result Q :=
  let idx := py_int (p / 100 * inject_Z n) in
  py_index durations_sorted (Z.min idx (n - 1)).

(** [pct(p)] for the pooled [durations] of one step. *)
Definition pct (durations : list Q) (p : Q) : Py.result Q :=
  let durations_sorted := sorted durations in
  let n := Z.of_nat (length durations_sorted) in
  pct_of durations_sorted n p.

(** *** Per-second buckets, arguments, planned steps *)

(** What [float] returns on a string it accepts: a finite number, [nan],
  or an infinity ([inf] or [-inf]). *)
Inductive pyfloat : Type :=
| Finite (q : Q)
| NaN
| Inf.

(** The value type of [by_second]: the default of the [defaultdict].  The
  reader stores the samples as [float] returned them ([bucket pyfloat]);
  the statistics are computed on exact numbers ([Bucket]). *)
Record bucket (A : Type) : Type := mkBucket {
  durations : list A;
  failed    : list A;
  reqs      : Z
}.
Arguments mkBucket {A} durations failed reqs.
Arguments durations {A} b.
Arguments failed {A} b.
Arguments reqs {A} b.

Definition Bucket : Type := bucket Q.

Definition new_bucket {A} : bucket A := mkBucket [] [] 0.

(** The parsed command line ([argparse] types: int, int, int, int, int,
  float, float). *)
Record Args : Type := mkArgs {
  start_rps     : Z;
  step_rps      : Z;
  step_duration : Z;
  ramp_duration : Z;
  warmup        : Z;
  err_threshold : Q;
  p99_threshold : Q
}.

(** One entry of the local list [steps] of [aggregate_by_step]. *)
Record StepProfile : Type := mkStep {
  step_target_rps : Z;
  t_start         : Z;
  t_end           : Z
}.

(** *** aggregate_by_step: the step generator

  The [while] loop, one unit of fuel per test of its condition; [None]
  means the fuel ran out. *)
Fixpoint step_loop (fuel : nat) (a : Args) (t_min t_max : Z)
  (steps : list StepProfile) (target_rps t_offset : Z)
  : option (Py.result (list StepProfile)) :=
  match fuel with
  | O => None
  | S fuel' =>
      if (target_rps <=? start_rps a + 100 * step_rps a)%Z then
        let t_offset := (t_offset + ramp_duration a)%Z in
        let steps :=
          steps ++ [mkStep target_rps (t_min + t_offset)
                      (t_min + t_offset + step_duration a)] in
        let t_offset := (t_offset + step_duration a)%Z in
        if (step_duration a + ramp_duration a =? 0)%Z then
          Some (Py.Raise Py.ZeroDivisionError)
        else if (target_rps >=?
                 (t_max - t_min) / (step_duration a + ramp_duration a)
                 * step_rps a + start_rps a)%Z then
          Some (Py.Ok steps)
        else
          let target_rps := (target_rps + step_rps a)%Z in
          if (target_rps >? 100000)%Z then Some (Py.Ok steps)
          else step_loop fuel' a t_min t_max steps target_rps t_offset
      else Some (Py.Ok steps)
  end.

(** The loop condition is tested at most 101 times (see
  [step_loop_enough_fuel]). *)
Definition step_fuel : nat := 101.

(** Lines 132-157: the planned steps for a trace spanning [t_min..t_max]. *)
Definition step_profiles (a : Args) (t_min t_max : Z)
  : Py.result (list StepProfile) :=
  let target_rps := start_rps a in
  let t_offset := warmup a in
  let steps :=
    [mkStep target_rps (t_min + t_offset)%Z
       (t_min + t_offset + step_duration a)%Z] in
  let t_offset := (t_offset + step_duration a)%Z in
  let target_rps := (target_rps + step_rps a)%Z in
  match step_loop step_fuel a t_min t_max steps target_rps t_offset with
  | Some r => r
  | None => Py.Ok steps
  end.

(** *** aggregate_by_step: pooling and statistics *)

(** The body of [for t in range(...)]. *)
Definition pool_second (by_second : gmap Z Bucket)
  (acc : list Q * list Q * Z) (t : Z) : list Q * list Q * Z :=
  let '(ds, fs, req_count) := acc in
  match by_second !! t with
  | Some s => (ds ++ durations s, fs ++ failed s, (req_count + reqs s)%Z)
  | None => acc
  end.

Definition pool (by_second : gmap Z Bucket) (step : StepProfile)
  : list Q * list Q * Z :=
  fold_left (pool_second by_second)
    (py_range (t_start step) (t_end step + 1)) ([], [], 0%Z).

(** The rest of the body of [for step in steps]: [None] is [continue]. *)
Definition step_stats (a : Args) (step : StepProfile)
  (pooled : list Q * list Q * Z) : Py.result (option StepStats) :=
  let '(ds, fs, req_count) := pooled in
  match ds with
  | [] => Py.Ok None
  | _ :: _ =>
      let durations_sorted := sorted ds in
      let n := Z.of_nat (length durations_sorted) in
      let err_rate :=
        match fs with
        | [] => 0
        | _ :: _ => py_sum fs / inject_Z (Z.of_nat (length fs)) * 100
        end in
      let rps_real :=
        if (step_duration a >? 0)%Z
        then inject_Z req_count / inject_Z (step_duration a) else 0 in
      Py.bind (pct_of durations_sorted n 50) (fun p50 =>
      Py.bind (pct_of durations_sorted n 95) (fun p95 =>
      Py.bind (pct_of durations_sorted n 99) (fun p99 =>
      Py.Ok (Some (mkStepStats (step_target_rps step) rps_real p50 p95 p99
                     err_rate req_count (length durations_sorted))))))
  end.

(** [for step in steps: ...; results.append(...)] *)
Fixpoint aggregate_steps (by_second : gmap Z Bucket) (a : Args)
  (steps : list StepProfile) : Py.result (list StepStats) :=
  match steps with
  | [] => Py.Ok []
  | step :: rest =>
      Py.bind (step_stats a step (pool by_second step)) (fun r =>
      Py.bind (aggregate_steps by_second a rest) (fun results =>
      Py.Ok match r with
            | Some s => s :: results
            | None => results
            end))
  end.

(** [(min(by_second.keys()), max(by_second.keys()))], [None] on an empty
  dictionary. *)
Definition trace_span (by_second : gmap Z Bucket) : option (Z * Z) :=
  let keys := (map_to_list by_second).*1 in
  match py_min keys, py_max keys with
  | Some t_min, Some t_max => Some (t_min, t_max)
  | _, _ => None
  end.

Definition aggregate_by_step (by_second : gmap Z Bucket) (a : Args)
  : Py.result (list StepStats) :=
  match trace_span by_second with
  | None => Py.Ok []
  | Some (t_min, t_max) =>
      Py.bind (step_profiles a t_min t_max) (aggregate_steps by_second a)
  end.

(** *** load_k6_csv *)

(** What [row.get(key, default)] can return here: a field of the CSV line,
  [None] (a line shorter than the header: [csv.DictReader] fills the
  missing fields with [None]) or the integer default. *)
Inductive pyval : Type :=
| VStr (s : string)
| VNone
| VInt (z : Z).

(** [row.get(key, default)]; a row maps each column of the header to its
  field. *)
Definition row_get (row : gmap string (option string)) (key : string)
  (default : pyval) : pyval :=
  match row !! key with
  | Some (Some s) => VStr s
  | Some None => VNone
  | None => default
  end.

Definition WANTED : list string :=
  ["http_req_duration"; "http_req_failed"; "http_reqs"]%string.

(** [by_second[ts]] on the [defaultdict]. *)
Definition bucket_at {A} (by_second : gmap Z (bucket A)) (ts : Z)
  : bucket A :=
  default new_bucket (by_second !! ts).

(** [int(x)] on what [float] returned: truncation toward zero; [nan] raises
  [ValueError] and an infinity [OverflowError]. *)
Definition py_int_float (x : pyfloat) : Py.result Z :=
  match x with
  | Finite q => Py.Ok (py_int q)
  | NaN => Py.Raise Py.ValueError
  | Inf => Py.Raise Py.OverflowError
  end.

Section Builtins.

(** The two string built-ins the reader calls: [str.strip] and [float] on a
  string ([None]: [ValueError]). *)
Variable str_strip : string -> string.
Variable float_of_str : string -> option pyfloat.

(** [float(v)]; [None] stands for the [ValueError] or [TypeError] that the
  reader catches. *)
Definition py_float (v : pyval) : option pyfloat :=
  match v with
  | VStr s => float_of_str s
  | VNone => None
  | VInt z => Some (Finite (inject_Z z))
  end.

(** The body of [for row in reader]; [int(ts_raw)] comes after the [try]
  and its exception is not caught. *)
Definition load_row (by_second : gmap Z (bucket pyfloat))
  (row : gmap string (option string))
  : Py.result (gmap Z (bucket pyfloat)) :=
  match row_get row "metric_name" (VStr "") with
  | VStr s =>
      let metric := str_strip s in
      if negb (existsb (String.eqb metric) WANTED) then Py.Ok by_second
      else
        match py_float (row_get row "timestamp" (VInt 0)),
              py_float (row_get row "metric_value" (VInt 0)) with
        | Some ts_raw, Some val =>
            Py.bind (py_int_float ts_raw) (fun ts_sec =>
            let b := bucket_at by_second ts_sec in
            if String.eqb metric "http_req_duration" then
              Py.Ok (<[ts_sec := mkBucket (durations b ++ [val]) (failed b)
                                   (reqs b)]> by_second)
            else if String.eqb metric "http_req_failed" then
              Py.Ok (<[ts_sec := mkBucket (durations b) (failed b ++ [val])
                                   (reqs b)]> by_second)
            else if String.eqb metric "http_reqs" then
              Py.Ok (<[ts_sec := mkBucket (durations b) (failed b)
                                   (reqs b + 1)%Z]> by_second)
            else Py.Ok by_second)
        | _, _ => Py.Ok by_second
        end
  | VNone | VInt _ => Py.Raise Py.AttributeError
  end.

Fixpoint load_rows (by_second : gmap Z (bucket pyfloat))
  (rows : list (gmap string (option string)))
  : Py.result (gmap Z (bucket pyfloat)) :=
  match rows with
  | [] => Py.Ok by_second
  | row :: rest =>
      Py.bind (load_row by_second row) (fun b => load_rows b rest)
  end.

(** The file is [None] when the path does not exist ([open] raises), else
  the rows [csv.DictReader] yields. *)
Definition load_k6_csv (file : option (list (gmap string (option string))))
  : Py.result (gmap Z (bucket pyfloat)) :=
  match file with
  | None => Py.Raise Py.FileNotFoundError
  | Some rows => load_rows ∅ rows
  end.

(** *** main *)

(** How the process ends: [sys.exit(status)] or an uncaught exception. *)
Inductive outcome : Type :=
| Exit (status : Z)
| Uncaught (e : Py.exn).

(** The exit status the caller sees; the interpreter exits with 1 on an
  uncaught exception. *)
Definition exit_status (o : outcome) : Z :=
  match o with
  | Exit status => status
  | Uncaught _ => 1%Z
  end.

(** [not by_second] *)
Definition is_empty {A} (by_second : gmap Z (bucket A)) : bool :=
  match map_to_list by_second with
  | [] => true
  | _ :: _ => false
  end.

(** The samples read, as the exact numbers the statistics are computed on;
  [None] when one of them is [nan] or an infinity, which is outside this
  model of the arithmetic. *)
Definition exact (x : pyfloat) : option Q :=
  match x with
  | Finite q => Some q
  | NaN | Inf => None
  end.

Fixpoint exact_list (l : list pyfloat) : option (list Q) :=
  match l with
  | [] => Some []
  | x :: l' =>
      match exact x, exact_list l' with
      | Some q, Some qs => Some (q :: qs)
      | _, _ => None
      end
  end.

Definition exact_bucket (b : bucket pyfloat) : option Bucket :=
  match exact_list (durations b), exact_list (failed b) with
  | Some ds, Some fs => Some (mkBucket ds fs (reqs b))
  | _, _ => None
  end.

Definition exact_buckets (raw : gmap Z (bucket pyfloat))
  : option (gmap Z Bucket) :=
  if forallb (fun p => match exact_bucket (snd p) with
                       | Some _ => true
                       | None => false
                       end) (map_to_list raw)
  then Some (omap exact_bucket raw)
  else None.

(** What [parse_args()] does with the command line: [argparse] returns the
  arguments, or ends the process itself, with status 0 after printing the
  help and with status 2 after reporting a usage error.  Of the arguments
  that are not in [Args], [main] tests [args.framework] and [args.plot]. *)
Inductive parsed : Type :=
| Parsed (a : Args) (framework : option string) (plot : bool)
| Help
| UsageError.

(** What the run finds on the file system: the exception of
  [output_dir.mkdir], if it raises; the rows of the CSV file, [None] when
  the path does not exist; the exceptions of [write_step_csv] and of
  [plot_saturation], if they raise when called. *)
Record Env : Type := mkEnv {
  mkdir_raises           : option Py.exn;
  csv_file               : option (list (gmap string (option string)));
  write_step_csv_raises  : option Py.exn;
  plot_saturation_raises : option Py.exn
}.

(** [if args.framework]: neither [None] nor the empty string. *)
Definition truthy (framework : option string) : bool :=
  match framework with
  | Some s => negb (String.eqb s "")
  | None => false
  end.

(** [main], printing left out.  The result is [None] when a sample read
  from the file is [nan] or an infinity. *)
Definition main (cmd : parsed) (env : Env) : option outcome :=
  match cmd with
  | Help => Some (Exit 0)
  | UsageError => Some (Exit 2)
  | Parsed a framework plot =>
      match mkdir_raises env with
      | Some e => Some (Uncaught e)
      | None =>
          match load_k6_csv (csv_file env) with
          | Py.Raise e => Some (Uncaught e)
          | Py.Ok raw =>
              if is_empty raw then Some (Exit 1)
              else
                match exact_buckets raw with
                | None => None
                | Some by_second =>
                    match aggregate_by_step by_second a with
                    | Py.Raise e => Some (Uncaught e)
                    | Py.Ok [] => Some (Exit 1)
                    | Py.Ok ((_ :: _) as steps) =>
                        let '(last_ok, first_sat) :=
                          find_saturation_point steps (err_threshold a)
                            (p99_threshold a) in
                        match (if truthy framework
                               then write_step_csv_raises env else None) with
                        | Some e => Some (Uncaught e)
                        | None =>
                            match (if plot then plot_saturation_raises env
                                   else None) with
                            | Some e => Some (Uncaught e)
                            | None =>
                                match last_ok with
                                | Some _ => Some (Exit 0)
                                | None => Some (Exit 2)
                                end
                            end
                        end
                    end
                end
          end
      end
  end.

End Builtins.

End FindSaturation.

(** ** analyze-results.py *)

Module AnalyzeResults.

Local Open Scope R_scope.

Definition AWS_T3_MEDIUM_USD_PER_HOUR : R := 0.0416.

(** One repetition of the benchmark: an element of [data[fw]]. *)
Module Run.
Record t : Type := mk {
  run         : Z;
  rps         : R;
  p50_ms      : R;
  p95_ms      : R;
  p99_ms      : R;
  error_rate  : R;
  energy_uj   : R;
  elapsed_ms  : R;
  power_watts : R;
  cpu_pct     : R;
  mem_mb      : R
}.
End Run.

(** The value stored in [metrics[fw]]. *)
Record VariantMetrics : Type := mkVariantMetrics {
  rps_median     : R;
  rps_std        : R;
  p50_ms         : R;
  p95_ms         : R;
  p99_ms         : R;
  power_watts    : R;
  power_std      : R;
  net_power_w    : R;
  cpu_pct        : R;
  mem_mb         : R;
  error_rate_pct : R;
  rps_extrap     : R;
  rps_per_watt   : R;
  rps_per_usd    : R;
  rapl_available : bool;
  n_runs         : nat;
  raw_rps        : list R;
  raw_power      : list R;
  raw_cpu        : list R
}.

(** *** Dictionaries keyed by framework name, in insertion order *)

Fixpoint dict_get {V} (d : list (string * V)) (k : string) : option V :=
  match d with
  | [] => None
  | (k', v) :: d' => if String.eqb k k' then Some v else dict_get d' k
  end.

(** [d[k] = v]: an existing key keeps its position. *)
Fixpoint dict_set {V} (d : list (string * V)) (k : string) (v : V)
  : list (string * V) :=
  match d with
  | [] => [(k, v)]
  | (k', v') :: d' =>
      if String.eqb k k' then (k', v) :: d' else (k', v') :: dict_set d' k v
  end.

(** *** The statistics module *)

(** [sum(l)] *)
Definition rsum (l : list R) : R := fold_left Rplus l 0.

(** [sorted(l)]: stable, ascending. *)
Fixpoint insert_asc (x : R) (l : list R) : list R :=
  match l with
  | [] => [x]
  | y :: l' => if Rle_dec x y then x :: l else y :: insert_asc x l'
  end.

Fixpoint sort_asc (l : list R) : list R :=
  match l with
  | [] => []
  | x :: l' => insert_asc x (sort_asc l')
  end.

(** [statistics.median]: the middle value of the sorted data, the mean of
  the two middle values for an even count; no data raises. *)
Definition median (l : list R) : Py.result R :=
  let data := sort_asc l in
  let n := length data in
  match n with
  | O => Py.Raise Py.StatisticsError
  | S _ =>
      if Nat.odd n then Py.Ok (nth (n / 2) data 0)
      else Py.Ok ((nth (n / 2 - 1) data 0 + nth (n / 2) data 0) / 2)
  end.

(** [statistics.mean] *)
Definition mean (l : list R) : R := rsum l / INR (length l).

(** The sum of squared deviations from the mean. *)
Definition sum_sq_dev (l : list R) : R :=
  rsum (map (fun x => (x - mean l) * (x - mean l)) l).

(** [statistics.stdev]: the square root of the sample variance (divisor
  [n - 1]); fewer than two values raise. *)
Definition stdev (l : list R) : Py.result R :=
  if (length l <? 2)%nat then Py.Raise Py.StatisticsError
  else Py.Ok (sqrt (sum_sq_dev l / (INR (length l) - 1))).

(** *** compute_metrics *)

(** [statistics.stdev(l) if len(l) > 1 else 0.0] *)
Definition stdev_or_zero (l : list R) : Py.result R :=
  if (1 <? length l)%nat then stdev l else Py.Ok 0.

(** The body of [for fw, runs in data.items()], up to the value assigned to
  [metrics[fw]]. *)
Definition variant_metrics (runs : list Run.t) (baseline_power_w : R)
  : Py.result VariantMetrics :=
  let rps_list   := map Run.rps runs in
  let p50_list   := map Run.p50_ms runs in
  let p95_list   := map Run.p95_ms runs in
  let p99_list   := map Run.p99_ms runs in
  let power_list := map Run.power_watts runs in
  let cpu_list   := map Run.cpu_pct runs in
  let mem_list   := map Run.mem_mb runs in
  let err_list   := map Run.error_rate runs in
  Py.bind (median rps_list) (fun rps_med =>
  Py.bind (median p50_list) (fun p50_med =>
  Py.bind (median p95_list) (fun p95_med =>
  Py.bind (median p99_list) (fun p99_med =>
  Py.bind (median power_list) (fun power_med =>
  Py.bind (median cpu_list) (fun cpu_med =>
  Py.bind (median mem_list) (fun mem_med =>
  Py.bind (median err_list) (fun err_med =>
  Py.bind (stdev_or_zero rps_list) (fun rps_std =>
  Py.bind (stdev_or_zero power_list) (fun power_std =>
  let net_power_w := Rmax (power_med - baseline_power_w) 0.001 in
  let branch :=
    if Req_dec_T power_med 0
    then (Rmax (cpu_med * 0.01 * 1.0) 0.001, false)
    else (net_power_w, true) in
  let net_power_w := fst branch in
  let rapl_available := snd branch in
  let rps_per_watt := rps_med / net_power_w in
  let rps_extrap :=
    if Rlt_dec 0 cpu_med then rps_med * (100.0 / cpu_med) else rps_med in
  let rps_per_usd := rps_extrap / AWS_T3_MEDIUM_USD_PER_HOUR in
  Py.Ok (mkVariantMetrics rps_med rps_std p50_med p95_med p99_med power_med
           power_std net_power_w cpu_med mem_med err_med rps_extrap
           rps_per_watt rps_per_usd rapl_available (length runs)
           rps_list power_list cpu_list))))))))))).

Fixpoint compute_loop (items : list (string * list Run.t))
  (baseline_power_w : R) (metrics : list (string * VariantMetrics))
  : Py.result (list (string * VariantMetrics)) :=
  match items with
  | [] => Py.Ok metrics
  | (fw, runs) :: rest =>
      Py.bind (variant_metrics runs baseline_power_w) (fun m =>
      compute_loop rest baseline_power_w (dict_set metrics fw m))
  end.

Definition compute_metrics (data : list (string * list Run.t))
  (baseline_power_w : R) : Py.result (list (string * VariantMetrics)) :=
  compute_loop data baseline_power_w [].

(** *** Rankings *)

(** [sorted(l, key=key, reverse=True)]: descending, equal keys keep their
  original order. *)
Fixpoint insert_desc {A} (key : A -> R) (x : A) (l : list A) : list A :=
  match l with
  | [] => [x]
  | y :: l' =>
      if Rle_dec (key y) (key x) then x :: l else y :: insert_desc key x l'
  end.

Fixpoint sort_desc {A} (key : A -> R) (l : list A) : list A :=
  match l with
  | [] => []
  | x :: l' => insert_desc key x (sort_desc key l')
  end.

(** [metrics[fw][key]], for [fw] among the keys of [metrics]. *)
Definition metric_of (metrics : list (string * VariantMetrics))
  (key : VariantMetrics -> R) (fw : string) : R :=
  match dict_get metrics fw with
  | Some m => key m
  | None => 0
  end.

(** [rank(metrics, key)] with the default [reverse=True], the only way the
  script calls it. *)
Definition rank (metrics : list (string * VariantMetrics))
  (key : VariantMetrics -> R) : list string :=
  sort_desc (metric_of metrics key) (map fst metrics).

(** The flag [hypothesis_confirmed] of [format_table]. *)
Definition hypothesis_confirmed (metrics : list (string * VariantMetrics))
  : bool :=
  let rank_rps    := rank metrics rps_median in
  let rank_rpsw   := rank metrics rps_per_watt in
  let rank_rpsusd := rank metrics rps_per_usd in
  bool_decide (rank_rps <> rank_rpsw) || bool_decide (rank_rps <> rank_rpsusd).

End AnalyzeResults.

(** ** Specification vocabulary and sample inputs for find-saturation.py *)

Module FindSaturationSpec.

Import FindSaturation.

Local Open Scope Q_scope.

(** The specification's wording of the two outputs: a step breaches when
  either figure reaches its threshold, complies when both stay below. *)
Definition Breaches (err_thr p99_thr : Q) (s : StepStats) : Prop :=
  err_thr <= err_pct s \/ p99_thr <= p99_ms s.

Definition Complies (err_thr p99_thr : Q) (s : StepStats) : Prop :=
  err_pct s < err_thr /\ p99_ms s < p99_thr.

(** [o] is the first element of [l], in sequence order, that satisfies [P];
  [None] when no element does. *)
Definition is_first {A} (P : A -> Prop) (l : list A) (o : option A) : Prop :=
  match o with
  | Some x => exists pre post,
      l = pre ++ x :: post /\ P x /\ Forall (fun y => ~ P y) pre
  | None => Forall (fun y => ~ P y) l
  end.


(** What the loop leaves in [first_saturated] when it starts from [fs]. *)
Definition first_from (e p : Q) (l : list StepStats)
  (fs fs' : option StepStats) : Prop :=
  match fs with
  | Some _ => fs' = fs
  | None => is_first (Breaches e p) l fs'
  end.

(** What the loop leaves in [last_ok] when it starts from [lo]. *)
Definition last_from (e p : Q) (l : list StepStats)
  (lo lo' : option StepStats) : Prop :=
  (exists pre x post,
      l = pre ++ x :: post /\ Complies e p x /\
      Forall (fun y => ~ Complies e p y) post /\ lo' = Some x)
  \/ (Forall (fun y => ~ Complies e p y) l /\ lo' = lo).

(** The rank the estimator selects: [floor(p/100 * n)] clamped to [n - 1]. *)
Definition nearest_rank (n : nat) (p : Q) : nat :=
  Z.to_nat (Z.min (Qfloor (p / 100 * inject_Z (Z.of_nat n))) (Z.of_nat n - 1)).

Section Steps.

Local Open Scope Z_scope.

(** The [k]-th planned step in closed form. *)
Definition planned_step (a : Args) (t_min : Z) (k : nat) : StepProfile :=
  let t0 :=
    t_min + warmup a + Z.of_nat k * (step_duration a + ramp_duration a) in
  mkStep (start_rps a + Z.of_nat k * step_rps a) t0 (t0 + step_duration a).

(** Consecutive elements differ by [d]. *)
Fixpoint arithmetic (d : Z) (l : list Z) : Prop :=
  match l with
  | [] => True
  | x :: l' =>
      match l' with
      | [] => True
      | y :: _ => y = x + d /\ arithmetic d l'
      end
  end.

(** Step [s1] is over before step [s2] begins. *)
Definition before (s1 s2 : StepProfile) : Prop := t_end s1 < t_start s2.

(** The invariant of the specification: rates in strictly increasing
  arithmetic progression of difference [step_rps]; every interval
  [[t_start, t_end]] well formed, and every earlier interval entirely
  before every later one. *)
Definition step_invariant (a : Args) (steps : list StepProfile) : Prop :=
  arithmetic (step_rps a) (map step_target_rps steps) /\
  StronglySorted Z.lt (map step_target_rps steps) /\
  Forall (fun s => t_start s <= t_end s) steps /\
  StronglySorted before steps.

End Steps.

(** The step's window holds at least one duration sample. *)
Definition has_samples (by_second : gmap Z Bucket) (step : StepProfile)
  : bool :=
  match fst (fst (pool by_second step)) with
  | [] => false
  | _ :: _ => true
  end.

(** The error percentage the aggregator reports for the pooled flags. *)
Definition err_rate_of (fs : list Q) : Q :=
  match fs with
  | [] => 0
  | _ :: _ => py_sum fs / inject_Z (Z.of_nat (length fs)) * 100
  end.

(** The scenario of the specification: warm-up 10, step duration 30, ramp 2,
  starting rate 200, increment 200, thresholds 1.0 and 1000. *)
Definition scenario_args : Args := mkArgs 200 200 30 2 10 1 1000.

(** A trace with one request in every second from 100 to 179. *)
Definition dense_trace : gmap Z Bucket :=
  list_to_map (map (fun t => (t, mkBucket [5] [0] 1)) (py_range 100 180)).

(** A trace with data at both ends and in the first window only. *)
Definition sparse_trace : gmap Z Bucket :=
  <[100%Z := mkBucket [1] [] 1]>
    (<[120%Z := mkBucket [5; 3] [0] 2]>
       (<[179%Z := mkBucket [] [0] 1]> ∅)).

(** Two consecutive seconds whose samples pool to the scenario's lists. *)
Definition two_seconds : gmap Z Bucket :=
  <[110%Z := mkBucket [10; 20] [0; 0] 2]>
    (<[111%Z := mkBucket [30; 900] [1; 0] 2]> ∅).

(** What one accepted sample does to its bucket. *)
Definition record_sample {A} (metric : string) (val : A) (b : bucket A)
  : bucket A :=
  if String.eqb metric "http_req_duration" then
    mkBucket (durations b ++ [val]) (failed b) (reqs b)
  else if String.eqb metric "http_req_failed" then
    mkBucket (durations b) (failed b ++ [val]) (reqs b)
  else mkBucket (durations b) (failed b) (reqs b + 1)%Z.

(** A reading of [float] that agrees with Python on strings of ASCII
  digits, enough for the examples below. *)
Fixpoint digits_value (s : string) (acc : Z) : option Z :=
  match s with
  | EmptyString => Some acc
  | String c s' =>
      let d := Z.of_nat (nat_of_ascii c) in
      if ((48 <=? d) && (d <=? 57))%Z
      then digits_value s' (10 * acc + (d - 48))%Z
      else None
  end.

Definition float_of_digits (s : string) : option pyfloat :=
  match s with
  | EmptyString => None
  | String _ _ =>
      option_map (fun z => Finite (inject_Z z)) (digits_value s 0)
  end.

(** A reading of [str.strip] that agrees with Python on strings without
  leading or trailing white space. *)
Definition strip_nothing (s : string) : string := s.

Section Cases.

Variable str_strip : string -> string.
Variable float_of_str : string -> option pyfloat.

(** The run read the file and aggregated [steps] from its samples. *)
Definition analysed (env : Env) (a : Args) (steps : list StepStats) : Prop :=
  exists raw by_second,
    load_k6_csv str_strip float_of_str (csv_file env) = Py.Ok raw /\
    exact_buckets raw = Some by_second /\
    aggregate_by_step by_second a = Py.Ok steps.

End Cases.


(** A file system on which nothing but the reading of the CSV file can go
  wrong. *)
Definition env_of (file : option (list (gmap string (option string))))
  : Env :=
  mkEnv None file None None.

(** A row of a CSV file whose header has no [timestamp] column. *)
Definition row_without_timestamp : gmap string (option string) :=
  <["metric_name"%string := Some "http_req_duration"%string]>
    (<["metric_value"%string := Some "12"%string]> ∅).

(** A duration sample of [value] ms in second 115, inside the first step
  of the scenario when the trace starts in second 100. *)
Definition duration_row (value : string) : gmap string (option string) :=
  <["metric_name"%string := Some "http_req_duration"%string]>
    (<["timestamp"%string := Some "115"%string]>
       (<["metric_value"%string := Some value]> ∅)).

(** A file whose only row is a request counter: it fills a bucket but
  brings no duration sample. *)
Definition reqs_row : gmap string (option string) :=
  <["metric_name"%string := Some "http_reqs"%string]>
    (<["timestamp"%string := Some "100"%string]>
       (<["metric_value"%string := Some "1"%string]> ∅)).

End FindSaturationSpec.

(** ** Specification vocabulary and sample inputs for analyze-results.py *)

Module AnalyzeResultsSpec.

Import AnalyzeResults.

Local Open Scope R_scope.

(** [statistics.pstdev]: the population standard deviation (divisor [n]),
  which the script does not call; the specification names it. *)
Definition pstdev (l : list R) : R := sqrt (sum_sq_dev l / INR (length l)).

(** One variant, one run: 100 req/s at 10 W and 50 % CPU. *)
Definition one_variant : list (string * list Run.t) :=
  [("express"%string, [Run.mk 1 100 5 8 9 0 0 0 10 50 120])].

(** One variant with two runs, at 1 and 3 req/s. *)
Definition two_runs : list (string * list Run.t) :=
  [("express"%string,
    [Run.mk 1 1 5 8 9 0 0 0 10 50 120; Run.mk 2 3 5 8 9 0 0 0 10 50 120])].

(** The scenario: three variants, one run each, at 100, 200 and 300 req/s,
  each drawing 10 W over a baseline of 0 W at 50 % CPU. *)
Definition three_variants : list (string * list Run.t) :=
  [("express"%string, [Run.mk 1 100 5 8 9 0 0 0 10 50 120]);
   ("fastify"%string, [Run.mk 1 200 5 8 9 0 0 0 10 50 120]);
   ("gin"%string,     [Run.mk 1 300 5 8 9 0 0 0 10 50 120])].

End AnalyzeResultsSpec.

(** ** More of find-saturation.py: the step count, the pooling window, the
  terminal table and the step CSV *)

Module FindSaturationExt.

Import FindSaturation FindSaturationSpec.

Local Open Scope Q_scope.

Section StepCount.
Local Open Scope Z_scope.

(** The number of loop iterations that append a step, for a positive
  increment: the whole periods in the trace span, capped by the rate
  ceiling 100000 and by the safety limit of 100 iterations, and at least
  one. *)
Definition planned_iterations (a : Args) (t_min t_max : Z) : Z :=
  Z.max 1
    (Z.min (Z.min ((t_max - t_min) / (step_duration a + ramp_duration a))
                  ((100000 - start_rps a) / step_rps a))
           100).
End StepCount.

(** The seconds of a step's window: [range(t_start, t_end + 1)]. *)
Definition window (step : StepProfile) : list Z :=
  py_range (t_start step) (t_end step + 1).

(** The samples a second contributes, none when it has no bucket. *)
Definition durations_at (by_second : gmap Z Bucket) (t : Z) : list Q :=
  match by_second !! t with Some s => durations s | None => [] end.

Definition failed_at (by_second : gmap Z Bucket) (t : Z) : list Q :=
  match by_second !! t with Some s => failed s | None => [] end.

Definition reqs_at (by_second : gmap Z Bucket) (t : Z) : Z :=
  match by_second !! t with Some s => reqs s | None => 0%Z end.

(** Bucket [b'] holds everything bucket [b] holds, in the same order, and
  possibly more. *)
Definition grows {A} (b b' : bucket A) : Prop :=
  (exists l, durations b' = durations b ++ l) /\
  (exists l, failed b' = failed b ++ l) /\
  (reqs b <= reqs b')%Z.

(** *** color_row and print_table *)






(** *** write_step_csv *)

(** [round(x)] to the nearest integer, ties to the even one. *)
Definition round_half_even (x : Q) : Z :=
  let f := Qfloor x in
  match Qcompare (x - inject_Z f) (1 # 2) with
  | Lt => f
  | Gt => (f + 1)%Z
  | Eq => if Z.even f then f else (f + 1)%Z
  end.

(** [10 ** ndigits] *)
Definition pow10 (ndigits : nat) : Q := inject_Z (10 ^ Z.of_nat ndigits).

(** [round(x, ndigits)] *)
Definition py_round (x : Q) (ndigits : nat) : Q :=
  inject_Z (round_half_even (x * pow10 ndigits)) / pow10 ndigits.

(** One line of the analysis file. *)
Record CsvRow : Type := mkCsvRow {
  csv_framework       : string;
  csv_target_rps      : Z;
  csv_rps_real        : Q;
  csv_p50_ms          : Q;
  csv_p95_ms          : Q;
  csv_p99_ms          : Q;
  csv_err_pct         : Q;
  csv_req_count       : Z;
  csv_saturated       : Z;
  csv_max_sustainable : Z
}.

(** The row written for step [s]. *)
Definition csv_row (last_ok : option StepStats) (framework : string)
  (err_threshold p99_threshold : Q) (s : StepStats) : CsvRow :=
  let sat :=
    Qle_bool err_threshold (err_pct s) || Qle_bool p99_threshold (p99_ms s) in
  let max_sus :=
    match last_ok with
    | Some lo => if Z.eqb (target_rps s) (target_rps lo) then 1%Z else 0%Z
    | None => 0%Z
    end in
  mkCsvRow
    (if String.eqb framework "" then "unknown" else framework)
    (target_rps s)
    (py_round (rps_real s) 1)
    (py_round (p50_ms s) 2)
    (py_round (p95_ms s) 2)
    (py_round (p99_ms s) 2)
    (py_round (err_pct s) 4)
    (req_count s)
    (if sat then 1%Z else 0%Z)
    max_sus.

(** The rows [write_step_csv] writes after the header. *)
Definition write_step_csv (steps : list StepStats)
  (last_ok : option StepStats) (framework : string)
  (err_threshold p99_threshold : Q) : list CsvRow :=
  map (csv_row last_ok framework err_threshold p99_threshold) steps.

End FindSaturationExt.

(** ** More of analyze-results.py: reading the summary, the report and the
  final CSV *)

Module AnalyzeResultsExt.

Import AnalyzeResults AnalyzeResultsSpec.

Local Open Scope R_scope.

(** Two entries of [metrics] that agree on every figure; the raw sample
  lists may differ in order. *)
Definition same_figures (m m' : VariantMetrics) : Prop :=
  rps_median m' = rps_median m /\ rps_std m' = rps_std m /\
  p50_ms m' = p50_ms m /\ p95_ms m' = p95_ms m /\ p99_ms m' = p99_ms m /\
  power_watts m' = power_watts m /\ power_std m' = power_std m /\
  net_power_w m' = net_power_w m /\ cpu_pct m' = cpu_pct m /\
  mem_mb m' = mem_mb m /\ error_rate_pct m' = error_rate_pct m /\
  rps_extrap m' = rps_extrap m /\ rps_per_watt m' = rps_per_watt m /\
  rps_per_usd m' = rps_per_usd m /\
  rapl_available m' = rapl_available m /\ n_runs m' = n_runs m /\
  Permutation (raw_rps m) (raw_rps m') /\
  Permutation (raw_power m) (raw_power m') /\
  Permutation (raw_cpu m) (raw_cpu m').

(** The names whose key equals [v]. *)
Definition tied {A} (key : A -> R) (v : R) (x : A) : bool :=
  if Req_dec_T (key x) v then true else false.

(** Two variants with the same power and CPU load and different
  throughput. *)
Definition same_load : list (string * list Run.t) :=
  [("express"%string, [Run.mk 1 100 5 8 9 0 0 0 10 50 120]);
   ("gin"%string,     [Run.mk 1 300 5 8 9 0 0 0 10 50 120])].

(** *** load_summary *)

(** The exceptions a line of [summary.csv] can raise, and the two ways
  [load_summary] ends without a result. *)
Inductive load_exn : Type :=
| KeyError
| ValueError
| TypeError.

Inductive loaded (A : Type) : Type :=
| Loaded (a : A)
| Fails (e : load_exn)
| SysExit (status : Z).
Arguments Loaded {A} a.
Arguments Fails {A} e.
Arguments SysExit {A} status.

Definition loaded_bind {A B} (r : loaded A) (k : A -> loaded B) : loaded B :=
  match r with
  | Loaded a => k a
  | Fails e => Fails e
  | SysExit status => SysExit status
  end.

(** [data[fw].append(run)] on the [defaultdict(list)]: a new name goes to
  the end with a one-element list, a known name keeps its place. *)
Fixpoint append_run (data : list (option string * list Run.t))
  (fw : option string) (run : Run.t) : list (option string * list Run.t) :=
  match data with
  | [] => [(fw, [run])]
  | (k, runs) :: d =>
      if bool_decide (fw = k) then (k, runs ++ [run]) :: d
      else (k, runs) :: append_run d fw run
  end.

Section Summary.

(** [int] and [float] on a string ([None]: [ValueError]). *)
Variable int_of_str : string -> option Z.
Variable float_of_str : string -> option R.

(** [row[k]]: the field, [None] for a line shorter than the header, or
  [KeyError] for a column the header does not have. *)
Definition item (row : gmap string (option string)) (k : string)
  : loaded (option string) :=
  match row !! k with
  | Some v => Loaded v
  | None => Fails KeyError
  end.

(** [int(v)] and [float(v)] on a field. *)
Definition convert {A} (of_str : string -> option A) (v : option string)
  : loaded A :=
  match v with
  | None => Fails TypeError
  | Some s =>
      match of_str s with
      | Some a => Loaded a
      | None => Fails ValueError
      end
  end.

Definition int_item (row : gmap string (option string)) (k : string)
  : loaded Z :=
  loaded_bind (item row k) (convert int_of_str).

Definition float_item (row : gmap string (option string)) (k : string)
  : loaded R :=
  loaded_bind (item row k) (convert float_of_str).

(** The name and the run read from one line, in the order the script
  evaluates the fields. *)
Definition load_run (row : gmap string (option string))
  : loaded (option string * Run.t) :=
  loaded_bind (item row "framework") (fun fw =>
  loaded_bind (int_item row "run") (fun run =>
  loaded_bind (float_item row "rps") (fun rps =>
  loaded_bind (float_item row "p50_ms") (fun p50 =>
  loaded_bind (float_item row "p95_ms") (fun p95 =>
  loaded_bind (float_item row "p99_ms") (fun p99 =>
  loaded_bind (float_item row "error_rate") (fun err =>
  loaded_bind (float_item row "energy_uj") (fun energy =>
  loaded_bind (float_item row "elapsed_ms") (fun elapsed =>
  loaded_bind (float_item row "power_watts") (fun power =>
  loaded_bind (float_item row "cpu_pct") (fun cpu =>
  loaded_bind (float_item row "mem_mb") (fun mem =>
  Loaded (fw, Run.mk run rps p50 p95 p99 err energy elapsed power cpu mem)
  )))))))))))).

(** [for row in reader] *)
Fixpoint summary_rows (data : list (option string * list Run.t))
  (rows : list (gmap string (option string)))
  : loaded (list (option string * list Run.t)) :=
  match rows with
  | [] => Loaded data
  | row :: rest =>
      loaded_bind (load_run row) (fun p =>
      summary_rows (append_run data (fst p) (snd p)) rest)
  end.

(** The file is [None] when [summary.csv] does not exist, else the rows
  [csv.DictReader] yields. *)
Definition load_summary (file : option (list (gmap string (option string))))
  : loaded (list (option string * list Run.t)) :=
  match file with
  | None => SysExit 1
  | Some rows => summary_rows [] rows
  end.

End Summary.

(** The names of a list in the order of their first appearance. *)
Definition first_seen (names : list (option string)) : list (option string) :=
  fold_left (fun seen k =>
               if existsb (fun k' => bool_decide (k = k')) seen then seen
               else seen ++ [k]) names [].

(** The runs recorded under a name. *)
Definition runs_of (fw : option string) (parsed : list (option string * Run.t))
  : list Run.t :=
  map snd (List.filter (fun p => bool_decide (fst p = fw)) parsed).

(** What the loop has built after the lines parsed so far. *)
Definition grouped (data : list (option string * list Run.t))
  (parsed : list (option string * Run.t)) : Prop :=
  map fst data = first_seen (map fst parsed) /\
  forall fw runs, In (fw, runs) data ->
    runs <> [] /\ runs = runs_of fw parsed.

Definition FRAMEWORKS : list string :=
  ["express"; "fastify"; "elysia"; "actix"; "gin"]%string.

(** *** format_table *)

(** A line of the table body: the figures of a variant, or the remark that
  it has no data. *)
Inductive table_line : Type :=
| NoData (fw : string)
| Figures (fw : string) (m : VariantMetrics).

(** What the text of the report is built from; the layout is left out. *)
Record Table : Type := mkTable {
  table_lines       : list table_line;
  table_rank_rps    : list string;
  table_rank_rpsw   : list string;
  table_rank_rpsusd : list string;
  table_confirmed   : bool;
  table_rapl_note   : bool
}.

(** The line of one name of [FRAMEWORKS]. *)
Definition line_of (metrics : list (string * VariantMetrics)) (fw : string)
  : table_line :=
  match dict_get metrics fw with
  | Some m => Figures fw m
  | None => NoData fw
  end.

(** [format_table]; the last test reads [metrics[list(metrics.keys())[0]]],
  the entry of the first name, which an empty dictionary does not have. *)
Definition format_table (metrics : list (string * VariantMetrics))
  : Py.result Table :=
  let lines := map (line_of metrics) FRAMEWORKS in
  let rank_rps    := rank metrics rps_median in
  let rank_rpsw   := rank metrics rps_per_watt in
  let rank_rpsusd := rank metrics rps_per_usd in
  let confirmed := hypothesis_confirmed metrics in
  match metrics with
  | [] => Py.Raise Py.IndexError
  | (_, m) :: _ =>
      Py.Ok (mkTable lines rank_rps rank_rpsw rank_rpsusd confirmed
               (negb (rapl_available m)))
  end.

(** *** write_final_csv *)

(** [l.index(x)] *)
Fixpoint list_index (l : list string) (x : string) : Py.result nat :=
  match l with
  | [] => Py.Raise Py.ValueError
  | y :: l' =>
      if String.eqb x y then Py.Ok O
      else Py.bind (list_index l' x) (fun i => Py.Ok (S i))
  end.

(** Rounding to the nearest integer, a tie to the even one. *)
Definition round_half_even_real (x : R) : Z :=
  let f := Int_part x in
  let d := x - IZR f in
  if Rlt_dec d (1 / 2) then f
  else if Rlt_dec (1 / 2) d then (f + 1)%Z
  else if Z.even f then f else (f + 1)%Z.

(** [round(x, ndigits)] *)
Definition py_round_real (x : R) (ndigits : nat) : R :=
  IZR (round_half_even_real (x * 10 ^ ndigits)) / 10 ^ ndigits.

(** A row handed to the CSV writer. *)
Record FinalRow : Type := mkFinalRow {
  out_framework         : string;
  out_n_runs            : nat;
  out_rps_median        : R;
  out_rps_std           : R;
  out_p50_ms            : R;
  out_p95_ms            : R;
  out_p99_ms            : R;
  out_power_watts       : R;
  out_net_power_w       : R;
  out_cpu_pct           : R;
  out_mem_mb            : R;
  out_rps_extrap        : R;
  out_rps_per_watt      : R;
  out_rps_per_usd       : R;
  out_error_rate_pct    : R;
  out_rank_rps          : nat;
  out_rank_rps_per_watt : nat;
  out_rank_rps_per_usd  : nat
}.

(** The argument of [writer.writerow]. *)
Definition final_row (rank_rps rank_rpsw rank_rpsusd : list string)
  (fw : string) (m : VariantMetrics) : Py.result FinalRow :=
  Py.bind (list_index rank_rps fw) (fun i_rps =>
  Py.bind (list_index rank_rpsw fw) (fun i_rpsw =>
  Py.bind (list_index rank_rpsusd fw) (fun i_rpsusd =>
  Py.Ok (mkFinalRow fw (n_runs m)
           (py_round_real (rps_median m) 2)
           (py_round_real (rps_std m) 2)
           (py_round_real (p50_ms m) 2)
           (py_round_real (p95_ms m) 2)
           (py_round_real (p99_ms m) 2)
           (py_round_real (power_watts m) 3)
           (py_round_real (net_power_w m) 3)
           (py_round_real (cpu_pct m) 2)
           (py_round_real (mem_mb m) 1)
           (py_round_real (rps_extrap m) 1)
           (py_round_real (rps_per_watt m) 2)
           (py_round_real (rps_per_usd m) 0)
           (py_round_real (error_rate_pct m) 4)
           (i_rps + 1) (i_rpsw + 1) (i_rpsusd + 1))))).

(** [for fw in FRAMEWORKS], on the names still to visit. *)
Fixpoint final_rows (metrics : list (string * VariantMetrics))
  (rank_rps rank_rpsw rank_rpsusd : list string) (fws : list string)
  : Py.result (list FinalRow) :=
  match fws with
  | [] => Py.Ok []
  | fw :: rest =>
      match dict_get metrics fw with
      | None => final_rows metrics rank_rps rank_rpsw rank_rpsusd rest
      | Some m =>
          Py.bind (final_row rank_rps rank_rpsw rank_rpsusd fw m) (fun row =>
          Py.bind (final_rows metrics rank_rps rank_rpsw rank_rpsusd rest)
            (fun rows => Py.Ok (row :: rows)))
      end
  end.

(** [write_final_csv]: the rows written under the header. *)
Definition write_final_csv (metrics : list (string * VariantMetrics))
  : Py.result (list FinalRow) :=
  final_rows metrics (rank metrics rps_median) (rank metrics rps_per_watt)
    (rank metrics rps_per_usd) FRAMEWORKS.

(** The written figure is within half a unit of the last digit kept. *)
Definition rounded_to (ndigits : nat) (x y : R) : Prop :=
  Rabs (y - x) <= / 2 * / 10 ^ ndigits.

(** [fw in metrics] *)
Definition has_data (metrics : list (string * VariantMetrics)) (fw : string)
  : bool :=
  match dict_get metrics fw with
  | Some _ => true
  | None => false
  end.

(** The figures of a row are those of the variant, rounded. *)
Definition row_figures (m : VariantMetrics) (row : FinalRow) : Prop :=
  out_n_runs row = n_runs m /\
  rounded_to 2 (rps_median m) (out_rps_median row) /\
  rounded_to 2 (rps_std m) (out_rps_std row) /\
  rounded_to 2 (p50_ms m) (out_p50_ms row) /\
  rounded_to 2 (p95_ms m) (out_p95_ms row) /\
  rounded_to 2 (p99_ms m) (out_p99_ms row) /\
  rounded_to 3 (power_watts m) (out_power_watts row) /\
  rounded_to 3 (net_power_w m) (out_net_power_w row) /\
  rounded_to 2 (cpu_pct m) (out_cpu_pct row) /\
  rounded_to 1 (mem_mb m) (out_mem_mb row) /\
  rounded_to 1 (rps_extrap m) (out_rps_extrap row) /\
  rounded_to 2 (rps_per_watt m) (out_rps_per_watt row) /\
  rounded_to 0 (rps_per_usd m) (out_rps_per_usd row) /\
  rounded_to 4 (error_rate_pct m) (out_error_rate_pct row).

(** The rank columns of a row are the positions of its name, from 1. *)
Definition row_ranks (metrics : list (string * VariantMetrics))
  (row : FinalRow) : Prop :=
  nth_error (rank metrics rps_median) (out_rank_rps row - 1)
    = Some (out_framework row) /\
  nth_error (rank metrics rps_per_watt) (out_rank_rps_per_watt row - 1)
    = Some (out_framework row) /\
  nth_error (rank metrics rps_per_usd) (out_rank_rps_per_usd row - 1)
    = Some (out_framework row) /\
  (1 <= out_rank_rps row <= length metrics)%nat /\
  (1 <= out_rank_rps_per_watt row <= length metrics)%nat /\
  (1 <= out_rank_rps_per_usd row <= length metrics)%nat.

End AnalyzeResultsExt.

(** ** Facts about find-saturation.py *)

Module FindSaturationFacts.

Import FindSaturation FindSaturationSpec.

Local Open Scope Q_scope.

(** *** The saturation detector *)

Lemma saturated_true (e p : Q) (s : StepStats) :
  saturated e p s = true <-> Breaches e p s.
Proof.
  unfold saturated, Breaches.
  rewrite orb_true_iff, !Qle_bool_iff. tauto.
Qed.

Lemma saturated_false (e p : Q) (s : StepStats) :
  saturated e p s = false <-> Complies e p s.
Proof.
  unfold saturated, Complies.
  rewrite orb_false_iff, <- !not_true_iff_false, !Qle_bool_iff.
  split; intros [H1 H2]; split;
    try (apply Qnot_le_lt; assumption); apply Qlt_not_le; assumption.
Qed.

Lemma breach_not_comply (e p : Q) (s : StepStats) :
  saturated e p s = true -> ~ Complies e p s.
Proof.
  intros H C. apply saturated_false in C. congruence.
Qed.

Lemma comply_not_breach (e p : Q) (s : StepStats) :
  saturated e p s = false -> ~ Breaches e p s.
Proof.
  intros H B. apply saturated_true in B. congruence.
Qed.

Lemma detector_loop (e p : Q) (l : list StepStats) :
  forall lo fs,
    first_from e p l fs (snd (fold_left (detector_step e p) l (lo, fs))) /\
    last_from e p l lo (fst (fold_left (detector_step e p) l (lo, fs))).
Proof.
  induction l as [|x l IH]; intros lo fs.
  - simpl. split.
    + unfold first_from. destruct fs; [reflexivity | constructor].
    + right. split; [constructor | reflexivity].
  - cbn [fold_left].
    assert (Hstep : detector_step e p (lo, fs) x =
      if saturated e p x
      then (lo, match fs with Some _ => fs | None => Some x end)
      else (Some x, fs)).
    { unfold detector_step.
      destruct (saturated e p x); destruct fs; reflexivity. }
    rewrite Hstep. clear Hstep.
    destruct (saturated e p x) eqn:Hx.
    +
      destruct (IH lo (match fs with Some _ => fs | None => Some x end))
        as [IHf IHl].
      split.
      * unfold first_from in *. destruct fs as [f|]; [exact IHf|].
        simpl in IHf. rewrite IHf. exists [], l.
        split; [reflexivity | split; [apply saturated_true; exact Hx | constructor]].
      * destruct IHl as [(pre & y & post & -> & Hy & Hpost & Hlo) | [Hall Hlo]].
        -- left. exists (x :: pre), y, post. auto.
        -- right. split; [|exact Hlo].
           constructor; [apply breach_not_comply; exact Hx | exact Hall].
    + destruct (IH (Some x) fs) as [IHf IHl]. split.
      * unfold first_from in *. destruct fs as [f|]; [exact IHf|].
        unfold is_first in *.
        destruct (snd (fold_left (detector_step e p) l (Some x, None)))
          as [y|].
        -- destruct IHf as (pre & post & -> & Hy & Hpre).
           exists (x :: pre), post.
           split; [reflexivity | split; [exact Hy|]].
           constructor; [apply comply_not_breach; exact Hx | exact Hpre].
        -- constructor; [apply comply_not_breach; exact Hx | exact IHf].
      * left.
        destruct IHl as [(pre & y & post & -> & Hy & Hpost & Hlo) | [Hall Hlo]].
        -- exists (x :: pre), y, post. auto.
        -- exists [], x, l.
           split; [reflexivity|].
           split; [apply saturated_false; exact Hx | auto].
Qed.


(** *** The nearest-rank percentile *)

Lemma sorted_perm (l : list Q) : Permutation l (sorted l).
Proof. apply QSort.Permuted_sort. Qed.

Lemma sorted_length (l : list Q) : length (sorted l) = length l.
Proof. symmetry. apply Permutation_length, sorted_perm. Qed.

Lemma sorted_In (l : list Q) (x : Q) : In x (sorted l) <-> In x l.
Proof.
  split; apply Permutation_in;
    [apply Permutation_sym|]; apply sorted_perm.
Qed.

Lemma Qle_bool_trans : Transitive (fun x y : Q => is_true (Qle_bool x y)).
Proof.
  intros x y z Hxy Hyz. unfold is_true in *.
  rewrite Qle_bool_iff in *. eapply Qle_trans; eassumption.
Qed.

(** In a sorted list, a later position holds a value at least as large. *)
Lemma strongly_sorted_nth (s : list Q) :
  StronglySorted (fun x y : Q => is_true (Qle_bool x y)) s ->
  forall i j a b, (i <= j)%nat ->
    nth_error s i = Some a -> nth_error s j = Some b -> a <= b.
Proof.
  induction 1 as [|x s Hs IH Hx]; intros i j a b Hij Ha Hb.
  - destruct i; discriminate.
  - destruct i as [|i], j as [|j]; simpl in *.
    + injection Ha as <-. injection Hb as <-. apply Qle_refl.
    + injection Ha as <-. apply nth_error_In in Hb.
      rewrite List.Forall_forall in Hx. apply Qle_bool_iff, Hx, Hb.
    + lia.
    + eapply IH; [|eassumption|eassumption]. lia.
Qed.

Lemma sorted_nth (l : list Q) (i j : nat) (a b : Q) :
  (i <= j)%nat ->
  nth_error (sorted l) i = Some a -> nth_error (sorted l) j = Some b ->
  a <= b.
Proof.
  apply strongly_sorted_nth, QSort.StronglySorted_sort, Qle_bool_trans.
Qed.

Lemma py_int_nonneg (x : Q) : 0 <= x -> py_int x = Qfloor x.
Proof.
  destruct x as [n d]. unfold Qle, py_int, Qfloor. simpl. intros H.
  apply Z.quot_div_nonneg; lia.
Qed.

Lemma py_index_nth {A} (l : list A) (i : Z) (x : A) :
  (0 <= i)%Z -> nth_error l (Z.to_nat i) = Some x -> py_index l i = Py.Ok x.
Proof.
  intros Hi Hx. unfold py_index.
  destruct (i <? 0)%Z eqn:E; [apply Z.ltb_lt in E; lia|].
  rewrite E, Hx. reflexivity.
Qed.

Lemma scaled_nonneg (n : nat) (p : Q) :
  0 <= p -> 0 <= p / 100 * inject_Z (Z.of_nat n).
Proof.
  intros Hp. apply Qmult_le_0_compat.
  - apply Qmult_le_0_compat; [exact Hp | discriminate].
  - unfold Qle. simpl. lia.
Qed.

Lemma scaled_mono (n : nat) (p q : Q) :
  p <= q -> p / 100 * inject_Z (Z.of_nat n) <= q / 100 * inject_Z (Z.of_nat n).
Proof.
  intros Hpq. apply Qmult_le_compat_r.
  - apply Qmult_le_compat_r; [exact Hpq | discriminate].
  - unfold Qle. simpl. lia.
Qed.

Lemma floor_scaled_nonneg (n : nat) (p : Q) :
  0 <= p -> (0 <= Qfloor (p / 100 * inject_Z (Z.of_nat n)))%Z.
Proof.
  intros Hp. change 0%Z with (Qfloor 0).
  apply Qfloor_resp_le, scaled_nonneg, Hp.
Qed.

Lemma nearest_rank_lt (n : nat) (p : Q) :
  (0 < n)%nat -> 0 <= p -> (nearest_rank n p < n)%nat.
Proof.
  intros Hn Hp. unfold nearest_rank.
  pose proof (floor_scaled_nonneg n p Hp). lia.
Qed.

Lemma nearest_rank_mono (n : nat) (p q : Q) :
  0 <= p -> p <= q -> (nearest_rank n p <= nearest_rank n q)%nat.
Proof.
  intros Hp Hpq. unfold nearest_rank.
  pose proof (floor_scaled_nonneg n p Hp).
  pose proof (Qfloor_resp_le _ _ (scaled_mono n p q Hpq)). lia.
Qed.

(** For [p >= 0] and at least one sample, [pct] returns the element of the
  sorted samples at the nearest rank. *)
Lemma pct_nearest_rank (l : list Q) (p : Q) :
  l <> [] -> 0 <= p ->
  exists x, pct l p = Py.Ok x /\
            nth_error (sorted l) (nearest_rank (length l) p) = Some x.
Proof.
  intros Hl Hp.
  assert (Hn : (0 < length l)%nat) by (destruct l; [congruence | simpl; lia]).
  destruct (nth_error (sorted l) (nearest_rank (length l) p)) as [x|] eqn:Hx.
  - exists x. split; [|reflexivity].
    unfold pct, pct_of. rewrite sorted_length.
    rewrite (py_int_nonneg _ (scaled_nonneg (length l) p Hp)).
    apply py_index_nth; [|exact Hx].
    pose proof (floor_scaled_nonneg (length l) p Hp). lia.
  - apply nth_error_None in Hx. rewrite sorted_length in Hx.
    pose proof (nearest_rank_lt (length l) p Hn Hp). lia.
Qed.

Lemma nearest_rank_100 (n : nat) : nearest_rank n 100 = (n - 1)%nat.
Proof.
  unfold nearest_rank.
  assert (E : 100 / 100 * inject_Z (Z.of_nat n) == inject_Z (Z.of_nat n))
    by field.
  rewrite (Qfloor_comp _ _ E), Qfloor_Z. lia.
Qed.

Lemma nearest_rank_0 (n : nat) : nearest_rank n 0 = 0%nat.
Proof.
  unfold nearest_rank.
  assert (E : 0 / 100 * inject_Z (Z.of_nat n) == inject_Z 0) by field.
  rewrite (Qfloor_comp _ _ E), Qfloor_Z. lia.
Qed.

Lemma sorted_last_max (l : list Q) (m : Q) :
  nth_error (sorted l) (length l - 1) = Some m ->
  forall x, In x l -> x <= m.
Proof.
  intros Hm x Hx. apply sorted_In in Hx.
  destruct (In_nth_error _ _ Hx) as [i Hi].
  assert (i < length (sorted l))%nat
    by (apply nth_error_Some; congruence).
  rewrite sorted_length in *.
  apply (sorted_nth l i (length l - 1)); [lia | exact Hi | exact Hm].
Qed.

Lemma sorted_first_min (l : list Q) (m : Q) :
  nth_error (sorted l) 0 = Some m ->
  forall x, In x l -> m <= x.
Proof.
  intros Hm x Hx. apply sorted_In in Hx.
  destruct (In_nth_error _ _ Hx) as [i Hi].
  apply (sorted_nth l 0 i); [lia | exact Hm | exact Hi].
Qed.

(** C2.  For every non-empty list of pooled durations, [pct(100)] is the
  maximum sample, [pct(0)] is the minimum sample, and for
  [0 <= p <= q <= 100] the two percentiles are the sorted samples at ranks
  [min(floor(p/100*n), n-1)] and [min(floor(q/100*n), n-1)], with
  [pct(p) <= pct(q)]. *)
Theorem pct_max_min_monotone (ds : list Q) :
  ds <> [] ->
  (exists m, pct ds 100 = Py.Ok m /\ In m ds /\ forall x, In x ds -> x <= m) /\
  (exists m, pct ds 0 = Py.Ok m /\ In m ds /\ forall x, In x ds -> m <= x) /\
  (forall p q, 0 <= p -> p <= q -> q <= 100 ->
     exists a b,
       pct ds p = Py.Ok a /\ pct ds q = Py.Ok b /\
       nth_error (sorted ds) (nearest_rank (length ds) p) = Some a /\
       nth_error (sorted ds) (nearest_rank (length ds) q) = Some b /\
       a <= b).
Proof.
  intros Hne. split; [|split].
  - destruct (pct_nearest_rank ds 100 Hne) as (m & Hpct & Hm); [discriminate|].
    rewrite nearest_rank_100 in Hm.
    exists m. split; [exact Hpct | split].
    + apply sorted_In. eapply nth_error_In. exact Hm.
    + apply sorted_last_max. exact Hm.
  - destruct (pct_nearest_rank ds 0 Hne) as (m & Hpct & Hm); [discriminate|].
    rewrite nearest_rank_0 in Hm.
    exists m. split; [exact Hpct | split].
    + apply sorted_In. eapply nth_error_In. exact Hm.
    + apply sorted_first_min. exact Hm.
  - intros p q Hp Hpq Hq.
    assert (Hq0 : 0 <= q) by (eapply Qle_trans; eassumption).
    destruct (pct_nearest_rank ds p Hne Hp) as (a & Ha & Hna).
    destruct (pct_nearest_rank ds q Hne Hq0) as (b & Hb & Hnb).
    exists a, b. repeat split; try assumption.
    eapply sorted_nth; [|exact Hna|exact Hnb].
    apply nearest_rank_mono; assumption.
Qed.

Lemma pct_max_min_monotone_witness :
  [30; 10; 900; 20] <> [] /\
  (exists m, pct [30; 10; 900; 20] 100 = Py.Ok m /\ In m [30; 10; 900; 20] /\
             forall x, In x [30; 10; 900; 20] -> x <= m) /\
  (exists m, pct [30; 10; 900; 20] 0 = Py.Ok m /\ In m [30; 10; 900; 20] /\
             forall x, In x [30; 10; 900; 20] -> m <= x) /\
  (forall p q, 0 <= p -> p <= q -> q <= 100 ->
     exists a b,
       pct [30; 10; 900; 20] p = Py.Ok a /\ pct [30; 10; 900; 20] q = Py.Ok b /\
       nth_error (sorted [30; 10; 900; 20]) (nearest_rank 4 p) = Some a /\
       nth_error (sorted [30; 10; 900; 20]) (nearest_rank 4 q) = Some b /\
       a <= b).
Proof.
  split; [discriminate|].
  apply (pct_max_min_monotone [30; 10; 900; 20]). discriminate.
Defined.

(** *** The step generator *)

Section StepGenerator.

Local Open Scope Z_scope.

(** One unfolding of the loop. *)
Lemma step_loop_S (fuel : nat) (a : Args) (t_min t_max : Z)
  (steps : list StepProfile) (target t_offset : Z) :
  step_loop (S fuel) a t_min t_max steps target t_offset =
  if target <=? start_rps a + 100 * step_rps a then
    if step_duration a + ramp_duration a =? 0 then
      Some (Py.Raise Py.ZeroDivisionError)
    else if target >=?
            (t_max - t_min) / (step_duration a + ramp_duration a)
            * step_rps a + start_rps a then
      Some (Py.Ok
        (steps ++ [mkStep target (t_min + (t_offset + ramp_duration a))
                     (t_min + (t_offset + ramp_duration a)
                      + step_duration a)]))
    else if target + step_rps a >? 100000 then
      Some (Py.Ok
        (steps ++ [mkStep target (t_min + (t_offset + ramp_duration a))
                     (t_min + (t_offset + ramp_duration a)
                      + step_duration a)]))
    else
      step_loop fuel a t_min t_max
        (steps ++ [mkStep target (t_min + (t_offset + ramp_duration a))
                     (t_min + (t_offset + ramp_duration a)
                      + step_duration a)])
        (target + step_rps a) (t_offset + ramp_duration a + step_duration a)
  else Some (Py.Ok steps).
Proof. reflexivity. Qed.

(** More fuel does not change a result. *)
Lemma step_loop_more_fuel (a : Args) (t_min t_max : Z) (fuel : nat) :
  forall steps target t_offset r,
    step_loop fuel a t_min t_max steps target t_offset = Some r ->
    step_loop (S fuel) a t_min t_max steps target t_offset = Some r.
Proof.
  induction fuel as [|fuel IH]; intros steps target t_offset r H.
  - discriminate.
  - rewrite step_loop_S in H. rewrite step_loop_S.
    destruct (target <=? start_rps a + 100 * step_rps a); [|exact H].
    destruct (step_duration a + ramp_duration a =? 0); [exact H|].
    destruct (target >=? _); [exact H|].
    destruct (target + step_rps a >? 100000); [exact H|].
    apply IH, H.
Qed.

(** With a positive increment, the loop stops within the iterations left
  below the ceiling [start_rps + 100 * step_rps]. *)
Lemma step_loop_fuel_pos (a : Args) (t_min t_max : Z) (fuel : nat) :
  0 < step_rps a ->
  forall steps target t_offset,
    (0 < fuel)%nat ->
    start_rps a + 100 * step_rps a - target
      < step_rps a * (Z.of_nat fuel - 1) ->
    step_loop fuel a t_min t_max steps target t_offset <> None.
Proof.
  intros Hd. induction fuel as [|fuel IH]; intros steps target t_offset Hf Hm.
  - lia.
  - rewrite step_loop_S.
    destruct (target <=? start_rps a + 100 * step_rps a) eqn:Hc;
      [|discriminate].
    apply Z.leb_le in Hc.
    destruct (step_duration a + ramp_duration a =? 0); [discriminate|].
    destruct (target >=? _); [discriminate|].
    destruct (target + step_rps a >? 100000); [discriminate|].
    apply IH; nia.
Qed.

(** The loop always ends within [step_fuel] tests of its condition, whatever
  the arguments. *)
Lemma step_loop_enough_fuel (a : Args) (t_min t_max : Z)
  (steps : list StepProfile) (t_offset : Z) :
  step_loop step_fuel a t_min t_max steps (start_rps a + step_rps a) t_offset
    <> None.
Proof.
  destruct (Z.lt_trichotomy (step_rps a) 0) as [Hd | [Hd | Hd]].
  - unfold step_fuel. rewrite step_loop_S.
    destruct (_ <=? _) eqn:Hc; [apply Z.leb_le in Hc; lia | discriminate].
  - unfold step_fuel. rewrite step_loop_S, Hd.
    destruct (_ <=? _); [|discriminate].
    destruct (_ =? 0); [discriminate|].
    destruct (_ >=? _) eqn:Hc; [discriminate|].
    rewrite Z.geb_leb in Hc. apply Z.leb_gt in Hc. lia.
  - apply step_loop_fuel_pos; unfold step_fuel; lia.
Qed.

(** Whatever the arguments, a run of the loop that starts after [k] planned
  steps either divides by zero or returns the first [n] planned steps, for
  some [n >= k]. *)
Lemma step_loop_planned (a : Args) (t_min t_max : Z) (fuel : nat) :
  forall (k : nat) steps target t_offset r,
    (1 <= k)%nat ->
    steps = map (planned_step a t_min) (seq 0 k) ->
    target = start_rps a + Z.of_nat k * step_rps a ->
    t_offset =
      warmup a + Z.of_nat k * (step_duration a + ramp_duration a)
      - ramp_duration a ->
    step_loop fuel a t_min t_max steps target t_offset = Some r ->
    (r = Py.Raise Py.ZeroDivisionError /\
     step_duration a + ramp_duration a = 0) \/
    exists n, (k <= n)%nat /\
      r = Py.Ok (map (planned_step a t_min) (seq 0 n)).
Proof.
  induction fuel as [|fuel IH];
    intros k steps target t_offset r Hk Hsteps Htarget Hoff H.
  - discriminate.
  - rewrite step_loop_S in H.
    assert (Hnext :
      steps ++ [mkStep target (t_min + (t_offset + ramp_duration a))
                  (t_min + (t_offset + ramp_duration a) + step_duration a)]
      = map (planned_step a t_min) (seq 0 (S k))).
    { rewrite seq_S, map_app, <- Hsteps. simpl. f_equal. f_equal.
      unfold planned_step. subst target t_offset. f_equal; lia. }
    rewrite Hnext in H.
    destruct (target <=? start_rps a + 100 * step_rps a).
    + destruct (step_duration a + ramp_duration a =? 0) eqn:Hz.
      * left. apply Z.eqb_eq in Hz. split; congruence.
      * destruct (target >=? _).
        -- right. exists (S k). split; [lia | congruence].
        -- destruct (target + step_rps a >? 100000).
           ++ right. exists (S k). split; [lia | congruence].
           ++ destruct (IH (S k)
                          (map (planned_step a t_min) (seq 0 (S k)))
                          (target + step_rps a)
                          (t_offset + ramp_duration a + step_duration a) r)
                as [Hr | (n & Hn & Hr)];
                [lia | reflexivity | subst; lia | subst; lia | exact H | |].
              ** left. exact Hr.
              ** right. exists n. split; [lia | exact Hr].
    + right. exists k. split; [lia | congruence].
Qed.

(** Whatever the arguments, [step_profiles] either divides by zero or
  returns the first [n >= 1] planned steps. *)
Lemma step_profiles_planned (a : Args) (t_min t_max : Z) :
  (step_profiles a t_min t_max = Py.Raise Py.ZeroDivisionError /\
   step_duration a + ramp_duration a = 0) \/
  exists n, (1 <= n)%nat /\
    step_profiles a t_min t_max =
    Py.Ok (map (planned_step a t_min) (seq 0 n)).
Proof.
  unfold step_profiles.
  assert (H0 : [mkStep (start_rps a) (t_min + warmup a)
                  (t_min + warmup a + step_duration a)]
               = map (planned_step a t_min) (seq 0 1)).
  { simpl. unfold planned_step. f_equal. f_equal; lia. }
  rewrite H0.
  destruct (step_loop step_fuel a t_min t_max _ _ _) as [r|] eqn:Hloop.
  - apply (step_loop_planned a t_min t_max step_fuel 1) in Hloop;
      [| lia | reflexivity | lia | lia].
    destruct Hloop as [[-> Hz] | (n & Hn & ->)].
    + left. split; [reflexivity | exact Hz].
    + right. exists n. split; [exact Hn | reflexivity].
  - exfalso. eapply step_loop_enough_fuel. exact Hloop.
Qed.

Lemma map_seq_strongly_sorted {A} (R : A -> A -> Prop) (f : nat -> A) :
  (forall i j, (i < j)%nat -> R (f i) (f j)) ->
  forall n s, StronglySorted R (map f (seq s n)).
Proof.
  intros HR. induction n as [|n IH]; intros s; simpl.
  - constructor.
  - constructor; [apply IH|].
    apply List.Forall_forall. intros y Hy.
    apply in_map_iff in Hy. destruct Hy as (j & <- & Hj).
    apply in_seq in Hj. apply HR. lia.
Qed.

Lemma planned_arithmetic (a : Args) (t_min : Z) (n : nat) :
  forall s,
    arithmetic (step_rps a)
      (map step_target_rps (map (planned_step a t_min) (seq s n))).
Proof.
  induction n as [|n IH]; intros s.
  - exact I.
  - specialize (IH (S s)). destruct n as [|n]; [exact I|].
    simpl in *. split; [lia | exact IH].
Qed.

(** The planned steps satisfy the invariant as soon as the increment and
  the ramp are positive and the step duration is not negative. *)
Lemma planned_invariant (a : Args) (t_min : Z) (n : nat) :
  0 < step_rps a -> 0 < ramp_duration a -> 0 <= step_duration a ->
  step_invariant a (map (planned_step a t_min) (seq 0 n)).
Proof.
  intros Hd Hr Hs. unfold step_invariant. split; [|split; [|split]].
  - apply planned_arithmetic.
  - rewrite map_map. apply map_seq_strongly_sorted.
    intros i j Hij. simpl. nia.
  - apply List.Forall_forall. intros x Hx.
    apply in_map_iff in Hx. destruct Hx as (k & <- & _). simpl. lia.
  - apply map_seq_strongly_sorted.
    intros i j Hij. unfold before. simpl. nia.
Qed.

(** C3, as stated, fails.  With a zero increment the two generated rates are
  equal; with a zero ramp consecutive inclusive intervals share their end
  point; with a negative step duration an interval ends before it starts. *)
Lemma step_invariant_fails :
  (step_profiles (mkArgs 200 0 30 2 10 1 1000) 100 179
   = Py.Ok [mkStep 200 110 140; mkStep 200 142 172] /\
   ~ step_invariant (mkArgs 200 0 30 2 10 1 1000)
       [mkStep 200 110 140; mkStep 200 142 172]) /\
  (step_profiles (mkArgs 200 200 30 0 10 1 1000) 100 179
   = Py.Ok [mkStep 200 110 140; mkStep 400 140 170; mkStep 600 170 200] /\
   ~ step_invariant (mkArgs 200 200 30 0 10 1 1000)
       [mkStep 200 110 140; mkStep 400 140 170; mkStep 600 170 200]) /\
  (step_profiles (mkArgs 200 200 (-5) 7 10 1 1000) 100 101
   = Py.Ok [mkStep 200 110 105; mkStep 400 112 107] /\
   ~ step_invariant (mkArgs 200 200 (-5) 7 10 1 1000)
       [mkStep 200 110 105; mkStep 400 112 107]).
Proof.
  split; [|split]; (split; [vm_compute; reflexivity|]);
    intros (_ & Hrates & Hwf & Hbefore).
  - inversion Hrates as [|? ? _ Hlt]; subst.
    inversion Hlt as [|? ? Hlt' _]; subst. simpl in Hlt'. lia.
  - inversion Hbefore as [|? ? _ Hlt]; subst.
    inversion Hlt as [|? ? Hlt' _]; subst. unfold before in Hlt'.
    simpl in Hlt'. lia.
  - inversion Hwf as [|? ? Hle _]; subst. simpl in Hle. lia.
Qed.

(** C3, amended.  For every input with a positive rate increment, a positive
  ramp duration and a non-negative step duration, and every trace span, the
  generator returns a non-empty sequence of steps whose target rates form a
  strictly increasing arithmetic sequence of common difference [step_rps],
  and whose inclusive intervals are well formed, pairwise disjoint and in
  increasing time order. *)
Theorem step_profiles_invariant (a : Args) (t_min t_max : Z) :
  0 < step_rps a -> 0 < ramp_duration a -> 0 <= step_duration a ->
  exists steps,
    step_profiles a t_min t_max = Py.Ok steps /\
    steps <> [] /\
    step_invariant a steps.
Proof.
  intros Hd Hr Hs.
  destruct (step_profiles_planned a t_min t_max)
    as [[_ Hz] | (n & Hn & Hsteps)]; [lia|].
  exists (map (planned_step a t_min) (seq 0 n)).
  split; [exact Hsteps | split].
  - destruct n; [lia | discriminate].
  - apply planned_invariant; assumption.
Qed.

Lemma step_profiles_invariant_witness :
  0 < step_rps (mkArgs 200 200 30 2 10 1 1000) /\
  0 < ramp_duration (mkArgs 200 200 30 2 10 1 1000) /\
  0 <= step_duration (mkArgs 200 200 30 2 10 1 1000) /\
  exists steps,
    step_profiles (mkArgs 200 200 30 2 10 1 1000) 100 179 = Py.Ok steps /\
    steps <> [] /\
    step_invariant (mkArgs 200 200 30 2 10 1 1000) steps.
Proof.
  assert (H1 : 0 < step_rps (mkArgs 200 200 30 2 10 1 1000))
    by (simpl; lia).
  assert (H2 : 0 < ramp_duration (mkArgs 200 200 30 2 10 1 1000))
    by (simpl; lia).
  assert (H3 : 0 <= step_duration (mkArgs 200 200 30 2 10 1 1000))
    by (simpl; lia).
  repeat (split; [assumption|]).
  exact (step_profiles_invariant _ 100 179 H1 H2 H3).
Defined.

End StepGenerator.

(** *** The step aggregator *)

Lemma step_stats_some (a : Args) (step : StepProfile)
  (ds fs : list Q) (rc : Z) :
  ds <> [] ->
  exists s,
    step_stats a step (ds, fs, rc) = Py.Ok (Some s) /\
    target_rps s = step_target_rps step /\
    n_samples s = length ds /\
    req_count s = rc /\
    err_pct s = err_rate_of fs /\
    pct ds 50 = Py.Ok (p50_ms s) /\
    pct ds 95 = Py.Ok (p95_ms s) /\
    pct ds 99 = Py.Ok (p99_ms s).
Proof.
  intros Hne.
  destruct (pct_nearest_rank ds 50 Hne) as (x50 & H50 & _); [discriminate|].
  destruct (pct_nearest_rank ds 95 Hne) as (x95 & H95 & _); [discriminate|].
  destruct (pct_nearest_rank ds 99 Hne) as (x99 & H99 & _); [discriminate|].
  unfold step_stats. destruct ds as [|d ds]; [congruence|].
  change (pct_of (sorted (d :: ds)) (Z.of_nat (length (sorted (d :: ds)))))
    with (pct (d :: ds)).
  rewrite H50, H95, H99. cbn [Py.bind].
  eexists. split; [reflexivity|]. cbn.
  repeat split; try assumption.
  exact (sorted_length (d :: ds)).
Qed.

(** The aggregator never raises, reports exactly the steps whose window
  holds a duration sample, in order, and every reported step has samples. *)
Lemma aggregate_steps_drops (by_second : gmap Z Bucket) (a : Args)
  (steps : list StepProfile) :
  exists results,
    aggregate_steps by_second a steps = Py.Ok results /\
    map target_rps results =
      map step_target_rps (List.filter (has_samples by_second) steps) /\
    Forall (fun r => (0 < n_samples r)%nat) results.
Proof.
  induction steps as [|step steps (results & IH & Hmap & Hall)].
  - exists []. repeat split. constructor.
  - cbn [aggregate_steps List.filter].
    destruct (pool by_second step) as [[ds fs] rc] eqn:Hpool.
    assert (Hhas : has_samples by_second step
                   = match ds with [] => false | _ :: _ => true end)
      by (unfold has_samples; rewrite Hpool; reflexivity).
    rewrite Hhas, IH. clear Hhas.
    destruct ds as [|d ds].
    + exists results. repeat split; assumption.
    + destruct (step_stats_some a step (d :: ds) fs rc)
        as (s & Hs & Ht & Hn & _); [discriminate|].
      rewrite Hs. exists (s :: results). cbn [Py.bind map].
      split; [reflexivity | split].
      * rewrite Ht, Hmap. reflexivity.
      * constructor; [rewrite Hn; simpl; lia | exact Hall].
Qed.

Lemma aggregate_by_step_drops (by_second : gmap Z Bucket) (a : Args)
  (t_min t_max : Z) (steps : list StepProfile) :
  trace_span by_second = Some (t_min, t_max) ->
  step_profiles a t_min t_max = Py.Ok steps ->
  exists results,
    aggregate_by_step by_second a = Py.Ok results /\
    map target_rps results =
      map step_target_rps (List.filter (has_samples by_second) steps) /\
    Forall (fun r => (0 < n_samples r)%nat) results.
Proof.
  intros Hspan Hsteps. unfold aggregate_by_step.
  rewrite Hspan, Hsteps. apply aggregate_steps_drops.
Qed.

(** C4, as stated, fails: for seconds 100 to 179 the generator plans three
  steps, not two, and a trace with data in every second yields three
  aggregated steps. *)
Lemma scenario_not_two_steps :
  trace_span dense_trace = Some (100%Z, 179%Z) /\
  step_profiles scenario_args 100 179
    <> Py.Ok [mkStep 200 110 140; mkStep 400 142 172] /\
  exists results,
    aggregate_by_step dense_trace scenario_args = Py.Ok results /\
    map target_rps results = [200; 400; 600]%Z.
Proof.
  split; [vm_compute; reflexivity | split].
  - vm_compute. discriminate.
  - eexists. split; [vm_compute; reflexivity | reflexivity].
Qed.

(** C4, amended.  For a trace whose buckets span seconds 100 to 179 and the
  scenario's arguments, the generator plans exactly three steps: 200 on
  [[110,140]], 400 on [[142,172]] and 600 on [[174,204]]; the aggregated
  output holds exactly the planned steps whose window contains a duration
  sample, in order, every other planned step being dropped.  The last part
  holds for every trace and every argument list. *)
Theorem scenario_steps_and_drop (by_second : gmap Z Bucket) :
  trace_span by_second = Some (100%Z, 179%Z) ->
  step_profiles scenario_args 100 179
    = Py.Ok [mkStep 200 110 140; mkStep 400 142 172; mkStep 600 174 204] /\
  (exists results,
     aggregate_by_step by_second scenario_args = Py.Ok results /\
     map target_rps results =
       map step_target_rps
         (List.filter (has_samples by_second)
            [mkStep 200 110 140; mkStep 400 142 172; mkStep 600 174 204]) /\
     Forall (fun r => (0 < n_samples r)%nat) results) /\
  (forall (trace : gmap Z Bucket) (a : Args) (steps : list StepProfile),
     exists results,
       aggregate_steps trace a steps = Py.Ok results /\
       map target_rps results =
         map step_target_rps (List.filter (has_samples trace) steps) /\
       Forall (fun r => (0 < n_samples r)%nat) results).
Proof.
  intros Hspan.
  assert (Hsteps : step_profiles scenario_args 100 179
    = Py.Ok [mkStep 200 110 140; mkStep 400 142 172; mkStep 600 174 204])
    by (vm_compute; reflexivity).
  split; [exact Hsteps | split].
  - exact (aggregate_by_step_drops by_second scenario_args 100 179 _
             Hspan Hsteps).
  - apply aggregate_steps_drops.
Qed.

Lemma scenario_steps_and_drop_witness :
  trace_span sparse_trace = Some (100%Z, 179%Z) /\
  step_profiles scenario_args 100 179
    = Py.Ok [mkStep 200 110 140; mkStep 400 142 172; mkStep 600 174 204] /\
  exists results,
    aggregate_by_step sparse_trace scenario_args = Py.Ok results /\
    map target_rps results =
      map step_target_rps
        (List.filter (has_samples sparse_trace)
           [mkStep 200 110 140; mkStep 400 142 172; mkStep 600 174 204]) /\
    Forall (fun r => (0 < n_samples r)%nat) results.
Proof.
  assert (Hspan : trace_span sparse_trace = Some (100%Z, 179%Z))
    by (vm_compute; reflexivity).
  split; [exact Hspan|].
  destruct (scenario_steps_and_drop sparse_trace Hspan) as (H1 & H2 & _).
  split; [exact H1 | exact H2].
Defined.

(** C5, as stated, fails: on durations [[10,20,30,900]] the rank
  [floor(0.5 * 4) = 2] selects 30, so [p50] is 30 and not 20. *)
Lemma scenario_p50_is_not_20 :
  exists s,
    step_stats scenario_args (mkStep 200 110 140)
      ([10; 20; 30; 900], [0; 0; 1; 0], 4%Z) = Py.Ok (Some s) /\
    p50_ms s = 30 /\
    ~ p50_ms s == 20.
Proof.
  eexists. split; [vm_compute; reflexivity|].
  split; [reflexivity | discriminate].
Qed.

(** C5, amended.  For a step whose pooled failure flags are [[0,0,1,0]] and
  whose pooled durations are [[10,20,30,900]], the aggregator yields
  [err_pct = 25], [p50 = 30] (the sorted sample at rank
  [floor(0.5 * 4) = 2]) and [p99 = 900] (the maximum). *)
Theorem scenario_step_stats (by_second : gmap Z Bucket) (a : Args)
  (step : StepProfile) (rc : Z) :
  pool by_second step = ([10; 20; 30; 900], [0; 0; 1; 0], rc) ->
  exists s,
    step_stats a step (pool by_second step) = Py.Ok (Some s) /\
    err_pct s == 25 /\
    p50_ms s = 30 /\
    p99_ms s = 900 /\
    nearest_rank 4 50 = 2%nat.
Proof.
  intros ->.
  destruct (step_stats_some a step [10; 20; 30; 900] [0; 0; 1; 0] rc)
    as (s & Hs & _ & _ & _ & Herr & H50 & _ & H99); [discriminate|].
  exists s. split; [exact Hs|].
  assert (E50 : pct [10; 20; 30; 900] 50 = Py.Ok 30) by reflexivity.
  assert (E99 : pct [10; 20; 30; 900] 99 = Py.Ok 900) by reflexivity.
  rewrite Herr. repeat split; try reflexivity; congruence.
Qed.

Lemma scenario_step_stats_witness :
  pool two_seconds (mkStep 200 110 140)
    = ([10; 20; 30; 900], [0; 0; 1; 0], 4%Z) /\
  exists s,
    step_stats scenario_args (mkStep 200 110 140)
      (pool two_seconds (mkStep 200 110 140)) = Py.Ok (Some s) /\
    err_pct s == 25 /\
    p50_ms s = 30 /\
    p99_ms s = 900 /\
    nearest_rank 4 50 = 2%nat.
Proof.
  assert (Hpool : pool two_seconds (mkStep 200 110 140)
                  = ([10; 20; 30; 900], [0; 0; 1; 0], 4%Z))
    by (vm_compute; reflexivity).
  split; [exact Hpool|].
  exact (scenario_step_stats two_seconds scenario_args _ 4%Z Hpool).
Defined.

(** *** The CSV reader *)

Section Reader.

Variable str_strip : string -> string.
Variable float_of_str : string -> option pyfloat.

Lemma wanted_cases (metric : string) :
  In metric WANTED ->
  existsb (String.eqb metric) WANTED = true /\
  (metric = "http_req_duration" \/ metric = "http_req_failed" \/
   metric = "http_reqs")%string.
Proof.
  intros H. split.
  - apply existsb_exists. exists metric. split; [exact H|].
    apply String.eqb_refl.
  - simpl in H. intuition auto.
Qed.

(** A row of a wanted metric whose two numbers parse, the timestamp to a
  finite number, is recorded in the bucket of the truncated timestamp. *)
Lemma load_row_recorded (by_second : gmap Z (bucket pyfloat))
  (row : gmap string (option string)) (name : string) (ts : Q)
  (val : pyfloat) :
  row !! "metric_name"%string = Some (Some name) ->
  In (str_strip name) WANTED ->
  py_float float_of_str (row_get row "timestamp" (VInt 0))
    = Some (Finite ts) ->
  py_float float_of_str (row_get row "metric_value" (VInt 0)) = Some val ->
  load_row str_strip float_of_str by_second row =
  Py.Ok (<[py_int ts :=
             record_sample (str_strip name) val
               (bucket_at by_second (py_int ts))]> by_second).
Proof.
  intros Hname Hwanted Hts Hval.
  destruct (wanted_cases _ Hwanted) as [Hex Hcases].
  unfold load_row, row_get at 1. rewrite Hname, Hex, Hts, Hval.
  cbn [negb py_int_float Py.bind]. unfold record_sample.
  destruct Hcases as [-> | [-> | ->]]; reflexivity.
Qed.

(** C10.  When a row of one of the three recognised metrics has no
  [timestamp] column, the reader does not skip it: the timestamp defaults
  to 0 and the sample goes to the bucket of second 0.  When it has no
  [metric_value] column, the value defaults to 0 and is recorded in the
  bucket of the row's second. *)
Theorem missing_column_defaults_to_zero (by_second : gmap Z (bucket pyfloat))
  (row : gmap string (option string)) (name : string) :
  row !! "metric_name"%string = Some (Some name) ->
  In (str_strip name) WANTED ->
  (forall val,
     row !! "timestamp"%string = None ->
     py_float float_of_str (row_get row "metric_value" (VInt 0)) = Some val ->
     load_row str_strip float_of_str by_second row =
     Py.Ok (<[0%Z := record_sample (str_strip name) val
                       (bucket_at by_second 0)]> by_second)) /\
  (forall ts,
     row !! "metric_value"%string = None ->
     py_float float_of_str (row_get row "timestamp" (VInt 0))
       = Some (Finite ts) ->
     load_row str_strip float_of_str by_second row =
     Py.Ok (<[py_int ts := record_sample (str_strip name) (Finite 0)
                             (bucket_at by_second (py_int ts))]> by_second)).
Proof.
  intros Hname Hwanted. split.
  - intros val Hts Hval.
    apply (load_row_recorded by_second row name (inject_Z 0) val);
      try assumption.
    unfold row_get. rewrite Hts. reflexivity.
  - intros ts Hval Hts.
    apply (load_row_recorded by_second row name ts (Finite (inject_Z 0)));
      try assumption.
    unfold row_get. rewrite Hval. reflexivity.
Qed.

(** *** The exit status *)

Lemma is_empty_iff {A} (by_second : gmap Z (bucket A)) :
  is_empty by_second = true <-> by_second = ∅.
Proof.
  unfold is_empty. rewrite <- map_to_list_empty_iff.
  destruct (map_to_list by_second); split; congruence.
Qed.

Lemma is_empty_aggregate (by_second : gmap Z Bucket) (a : Args) :
  is_empty by_second = true -> aggregate_by_step by_second a = Py.Ok [].
Proof. intros H. apply is_empty_iff in H. subst. reflexivity. Qed.


Lemma last_ok_some (steps : list StepStats) (e p : Q) :
  (exists s, fst (find_saturation_point steps e p) = Some s) <->
  (exists s, In s steps /\ Complies e p s).
Proof.
  unfold find_saturation_point.
  destruct (detector_loop e p steps None None) as [_ Hl].
  destruct Hl as [(pre & x & post & -> & Hx & _ & Hlo) | [Hall Hlo]];
    rewrite Hlo.
  - split; intros _; [exists x | exists x; reflexivity].
    split; [apply in_elt | exact Hx].
  - split; [intros [s Hs]; discriminate|].
    intros (s & Hin & Hs). rewrite List.Forall_forall in Hall.
    destruct (Hall s Hin Hs).
Qed.





(** On a run whose arguments parse, the statuses 0 and 2 are those of the
  verdicts only: no other path of [main] ends with them. *)
Lemma main_status_verdict (a : Args) (framework : option string)
  (plot : bool) (env : Env) (o : outcome) :
  main str_strip float_of_str (Parsed a framework plot) env = Some o ->
  (exit_status o = 0%Z ->
   exists steps s,
     analysed str_strip float_of_str env a steps /\ In s steps /\
     Complies (err_threshold a) (p99_threshold a) s) /\
  (exit_status o = 2%Z ->
   exists steps,
     analysed str_strip float_of_str env a steps /\ steps <> [] /\
     Forall (fun s => ~ Complies (err_threshold a) (p99_threshold a) s)
       steps).
Proof.
  unfold main.
  destruct (mkdir_raises env);
    [intros H; injection H as <-; split; discriminate|].
  destruct (load_k6_csv str_strip float_of_str (csv_file env))
    as [raw|e] eqn:Hload;
    [|intros H; injection H as <-; split; discriminate].
  destruct (is_empty raw);
    [intros H; injection H as <-; split; discriminate|].
  destruct (exact_buckets raw) as [by_second|] eqn:Hexact; [|discriminate].
  destruct (aggregate_by_step by_second a) as [[|s0 steps]|e] eqn:Hagg;
    [intros H; injection H as <-; split; discriminate | |
     intros H; injection H as <-; split; discriminate].
  pose proof (last_ok_some (s0 :: steps) (err_threshold a) (p99_threshold a))
    as Hlast.
  destruct (find_saturation_point (s0 :: steps) (err_threshold a)
              (p99_threshold a)) as [last_ok first_sat].
  cbn [fst] in Hlast.
  assert (Han : analysed str_strip float_of_str env a (s0 :: steps))
    by (exists raw, by_second; auto).
  destruct (if truthy framework then write_step_csv_raises env else None);
    [intros H; injection H as <-; split; discriminate|].
  destruct (if plot then plot_saturation_raises env else None);
    [intros H; injection H as <-; split; discriminate|].
  destruct last_ok as [x|]; intros H; injection H as <-;
    (split; [|]); try discriminate; intros _.
  - destruct (proj1 Hlast (ex_intro _ x eq_refl)) as (s & Hin & Hs).
    exists (s0 :: steps), s. auto.
  - exists (s0 :: steps). split; [exact Han|]. split; [discriminate|].
    apply List.Forall_forall. intros s Hin Hs.
    destruct (proj2 Hlast (ex_intro _ s (conj Hin Hs))) as [x Hx].
    discriminate.
Qed.

(** [argparse] ends the run itself, with the statuses of the verdicts. *)
Lemma main_argparse_exits (env : Env) :
  main str_strip float_of_str Help env = Some (Exit 0) /\
  main str_strip float_of_str UsageError env = Some (Exit 2).
Proof. split; reflexivity. Qed.

End Reader.

Lemma missing_column_defaults_to_zero_witness :
  row_without_timestamp !! "metric_name"%string
    = Some (Some "http_req_duration"%string) /\
  In (strip_nothing "http_req_duration") WANTED /\
  (forall val,
     row_without_timestamp !! "timestamp"%string = None ->
     py_float float_of_digits
       (row_get row_without_timestamp "metric_value" (VInt 0)) = Some val ->
     load_row strip_nothing float_of_digits ∅ row_without_timestamp =
     Py.Ok (<[0%Z := record_sample (strip_nothing "http_req_duration") val
                       (bucket_at ∅ 0)]> ∅)) /\
  (forall ts,
     row_without_timestamp !! "metric_value"%string = None ->
     py_float float_of_digits
       (row_get row_without_timestamp "timestamp" (VInt 0))
       = Some (Finite ts) ->
     load_row strip_nothing float_of_digits ∅ row_without_timestamp =
     Py.Ok (<[py_int ts :=
                record_sample (strip_nothing "http_req_duration") (Finite 0)
                  (bucket_at ∅ (py_int ts))]> ∅)).
Proof.
  assert (Hname : row_without_timestamp !! "metric_name"%string
                  = Some (Some "http_req_duration"%string))
    by (vm_compute; reflexivity).
  assert (Hwanted : In (strip_nothing "http_req_duration") WANTED)
    by (simpl; auto).
  split; [exact Hname | split; [exact Hwanted|]].
  exact (missing_column_defaults_to_zero strip_nothing float_of_digits ∅
           row_without_timestamp "http_req_duration" Hname Hwanted).
Defined.

(** The row above lands in second 0 with its value. *)
Example row_without_timestamp_loaded :
  load_row strip_nothing float_of_digits ∅ row_without_timestamp
  = Py.Ok (<[0%Z := mkBucket [Finite 12] [] 0]> ∅).
Proof. vm_compute. reflexivity. Qed.

(** A run on a trace with one sample of 12 ms ends with status 0; with one
  sample of 5000 ms, above the latency threshold, with status 2. *)
Example main_verdict_statuses :
  main strip_nothing float_of_digits (Parsed scenario_args None false)
    (env_of (Some [reqs_row; duration_row "12"])) = Some (Exit 0) /\
  main strip_nothing float_of_digits (Parsed scenario_args None false)
    (env_of (Some [reqs_row; duration_row "5000"])) = Some (Exit 2).
Proof. split; vm_compute; reflexivity. Qed.


End FindSaturationFacts.

(** ** Facts about analyze-results.py *)

Module AnalyzeResultsFacts.

Import AnalyzeResults AnalyzeResultsSpec.

Local Open Scope R_scope.

(** *** Dictionaries *)

Lemma dict_get_set {V} (d : list (string * V)) (k k' : string) (v : V) :
  dict_get (dict_set d k v) k' =
  if String.eqb k' k then Some v else dict_get d k'.
Proof.
  induction d as [|[k0 v0] d IH]; simpl.
  - reflexivity.
  - destruct (String.eqb k k0) eqn:E; simpl.
    + apply String.eqb_eq in E. subst k0.
      destruct (String.eqb k' k); reflexivity.
    + rewrite IH. destruct (String.eqb k' k0) eqn:E0; [|reflexivity].
      apply String.eqb_eq in E0. subst k0.
      rewrite String.eqb_sym, E. reflexivity.
Qed.

(** *** Medians and deviations *)

Lemma insert_asc_length (x : R) (l : list R) :
  length (insert_asc x l) = S (length l).
Proof.
  induction l as [|y l IH]; simpl; [reflexivity|].
  destruct (Rle_dec x y); simpl; [reflexivity | rewrite IH; reflexivity].
Qed.

Lemma sort_asc_length (l : list R) : length (sort_asc l) = length l.
Proof.
  induction l as [|x l IH]; simpl; [reflexivity|].
  rewrite insert_asc_length, IH. reflexivity.
Qed.

Lemma median_ok (l : list R) : l <> [] -> exists x, median l = Py.Ok x.
Proof.
  intros Hl. unfold median. rewrite sort_asc_length.
  destruct l as [|y l]; [congruence|]. cbn [length].
  destruct (Nat.odd (S (length l))); eexists; reflexivity.
Qed.

Lemma median_single (x : R) : median [x] = Py.Ok x.
Proof. reflexivity. Qed.

Lemma stdev_or_zero_ok (l : list R) : exists x, stdev_or_zero l = Py.Ok x.
Proof.
  unfold stdev_or_zero, stdev.
  destruct (1 <? length l)%nat eqn:E; [|eexists; reflexivity].
  apply Nat.ltb_lt in E.
  destruct (length l <? 2)%nat eqn:E2; [apply Nat.ltb_lt in E2; lia|].
  eexists; reflexivity.
Qed.

(** The value of [stdev_or_zero]: the square root of the sample variance
  from two values on, else 0. *)
Lemma stdev_or_zero_value (l : list R) (x : R) :
  stdev_or_zero l = Py.Ok x ->
  ((2 <= length l)%nat ->
   x = sqrt (sum_sq_dev l / (INR (length l) - 1)) /\ stdev l = Py.Ok x) /\
  ((length l < 2)%nat -> x = 0).
Proof.
  unfold stdev_or_zero, stdev. intros H.
  destruct (1 <? length l)%nat eqn:E.
  - apply Nat.ltb_lt in E.
    destruct (length l <? 2)%nat eqn:E2; [apply Nat.ltb_lt in E2; lia|].
    injection H as <-. split; [auto | lia].
  - apply Nat.ltb_ge in E. injection H as <-. split; [lia | auto].
Qed.

(** *** compute_metrics *)

(** What [variant_metrics] stores in each field. *)
Lemma variant_metrics_inv (runs : list Run.t) (b : R) (m : VariantMetrics) :
  variant_metrics runs b = Py.Ok m ->
  median (map Run.rps runs) = Py.Ok (rps_median m) /\
  median (map Run.power_watts runs) = Py.Ok (power_watts m) /\
  median (map Run.cpu_pct runs) = Py.Ok (cpu_pct m) /\
  stdev_or_zero (map Run.rps runs) = Py.Ok (rps_std m) /\
  stdev_or_zero (map Run.power_watts runs) = Py.Ok (power_std m) /\
  raw_rps m = map Run.rps runs /\
  raw_power m = map Run.power_watts runs /\
  n_runs m = length runs /\
  net_power_w m =
    (if Req_dec_T (power_watts m) 0
     then Rmax (cpu_pct m * 0.01 * 1.0) 0.001
     else Rmax (power_watts m - b) 0.001) /\
  rapl_available m = (if Req_dec_T (power_watts m) 0 then false else true) /\
  rps_per_watt m = rps_median m / net_power_w m /\
  rps_extrap m =
    (if Rlt_dec 0 (cpu_pct m)
     then rps_median m * (100.0 / cpu_pct m) else rps_median m) /\
  rps_per_usd m = rps_extrap m / AWS_T3_MEDIUM_USD_PER_HOUR.
Proof.
  unfold variant_metrics.
  destruct (median (map Run.rps runs)); [|discriminate].
  destruct (median (map Run.p50_ms runs)); [|discriminate].
  destruct (median (map Run.p95_ms runs)); [|discriminate].
  destruct (median (map Run.p99_ms runs)); [|discriminate].
  destruct (median (map Run.power_watts runs)) as [pw|]; [|discriminate].
  destruct (median (map Run.cpu_pct runs)); [|discriminate].
  destruct (median (map Run.mem_mb runs)); [|discriminate].
  destruct (median (map Run.error_rate runs)); [|discriminate].
  destruct (stdev_or_zero (map Run.rps runs)); [|discriminate].
  destruct (stdev_or_zero (map Run.power_watts runs)); [|discriminate].
  cbn [Py.bind]. intros H. injection H as <-. cbn.
  destruct (Req_dec_T pw 0); repeat split; reflexivity.
Qed.

Lemma variant_metrics_ok (runs : list Run.t) (b : R) :
  runs <> [] -> exists m, variant_metrics runs b = Py.Ok m.
Proof.
  intros Hne. unfold variant_metrics.
  assert (Hmap : forall f : Run.t -> R, map f runs <> [])
    by (intros f; destruct runs; [congruence | discriminate]).
  destruct (median_ok _ (Hmap Run.rps)) as [? ->].
  destruct (median_ok _ (Hmap Run.p50_ms)) as [? ->].
  destruct (median_ok _ (Hmap Run.p95_ms)) as [? ->].
  destruct (median_ok _ (Hmap Run.p99_ms)) as [? ->].
  destruct (median_ok _ (Hmap Run.power_watts)) as [pw ->].
  destruct (median_ok _ (Hmap Run.cpu_pct)) as [? ->].
  destruct (median_ok _ (Hmap Run.mem_mb)) as [? ->].
  destruct (median_ok _ (Hmap Run.error_rate)) as [? ->].
  destruct (stdev_or_zero_ok (map Run.rps runs)) as [? ->].
  destruct (stdev_or_zero_ok (map Run.power_watts runs)) as [? ->].
  cbn [Py.bind]. eexists; reflexivity.
Qed.

(** Every entry of the result was computed from the runs of a variant of
  that name, or was there before the loop. *)
Lemma compute_loop_get (items : list (string * list Run.t)) (b : R) :
  forall metrics0 metrics fw m,
    compute_loop items b metrics0 = Py.Ok metrics ->
    dict_get metrics fw = Some m ->
    dict_get metrics0 fw = Some m \/
    exists runs, In (fw, runs) items /\ variant_metrics runs b = Py.Ok m.
Proof.
  induction items as [|[fw0 runs0] items IH];
    intros metrics0 metrics fw m Hloop Hget.
  - injection Hloop as <-. left. exact Hget.
  - cbn [compute_loop] in Hloop.
    destruct (variant_metrics runs0 b) as [m0|] eqn:Hm0; [|discriminate].
    cbn [Py.bind] in Hloop.
    destruct (IH _ _ _ _ Hloop Hget) as [H | (runs & Hin & Hruns)].
    + rewrite dict_get_set in H.
      destruct (String.eqb fw fw0) eqn:E; [|left; exact H].
      apply String.eqb_eq in E. subst fw0. injection H as <-.
      right. exists runs0. split; [left; reflexivity | exact Hm0].
    + right. exists runs. split; [right; exact Hin | exact Hruns].
Qed.

Lemma compute_metrics_get (data : list (string * list Run.t)) (b : R)
  (metrics : list (string * VariantMetrics)) (fw : string)
  (m : VariantMetrics) :
  compute_metrics data b = Py.Ok metrics ->
  dict_get metrics fw = Some m ->
  exists runs, In (fw, runs) data /\ variant_metrics runs b = Py.Ok m.
Proof.
  intros Hc Hget.
  destruct (compute_loop_get data b [] metrics fw m Hc Hget) as [H|H];
    [discriminate | exact H].
Qed.

(** C6.  For every variant in the result of [compute_metrics]: net power is
  [max(median power - baseline, 0.001)], except that a median power of
  exactly zero gives [max(median CPU% * 0.01, 0.001)] and clears the
  instrumentation flag; RPS per watt is median throughput over net power;
  extrapolated throughput is median throughput times [100 / median CPU%]
  when that median is positive and median throughput otherwise; RPS per
  dollar is extrapolated throughput over the hourly cost constant.  The
  medians are those of the runs of a variant of that name. *)
Theorem compute_metrics_formulas (data : list (string * list Run.t)) (b : R)
  (metrics : list (string * VariantMetrics)) (fw : string)
  (m : VariantMetrics) :
  compute_metrics data b = Py.Ok metrics ->
  dict_get metrics fw = Some m ->
  0 < 0.001 /\
  (power_watts m <> 0 ->
   net_power_w m = Rmax (power_watts m - b) 0.001 /\
   rapl_available m = true) /\
  (power_watts m = 0 ->
   net_power_w m = Rmax (cpu_pct m * 0.01) 0.001 /\
   rapl_available m = false) /\
  rps_per_watt m = rps_median m / net_power_w m /\
  (0 < cpu_pct m -> rps_extrap m = rps_median m * (100 / cpu_pct m)) /\
  (~ 0 < cpu_pct m -> rps_extrap m = rps_median m) /\
  rps_per_usd m = rps_extrap m / AWS_T3_MEDIUM_USD_PER_HOUR /\
  exists runs,
    In (fw, runs) data /\
    median (map Run.rps runs) = Py.Ok (rps_median m) /\
    median (map Run.power_watts runs) = Py.Ok (power_watts m) /\
    median (map Run.cpu_pct runs) = Py.Ok (cpu_pct m).
Proof.
  intros Hc Hget.
  destruct (compute_metrics_get data b metrics fw m Hc Hget)
    as (runs & Hin & Hm).
  destruct (variant_metrics_inv runs b m Hm)
    as (Hrps & Hpw & Hcpu & _ & _ & _ & _ & _ & Hnet & Hrapl & Hw & Hex & Hu).
  split; [lra|].
  split; [|split; [|split; [exact Hw | split; [|split; [|split]]]]].
  - intros Hnz. rewrite Hnet, Hrapl.
    destruct (Req_dec_T (power_watts m) 0); [contradiction | auto].
  - intros Hz. rewrite Hnet, Hrapl.
    destruct (Req_dec_T (power_watts m) 0); [|contradiction].
    split; [f_equal; lra | reflexivity].
  - intros Hpos. rewrite Hex.
    destruct (Rlt_dec 0 (cpu_pct m)); [|contradiction].
    f_equal. f_equal. lra.
  - intros Hneg. rewrite Hex.
    destruct (Rlt_dec 0 (cpu_pct m)); [contradiction | reflexivity].
  - exact Hu.
  - exists runs. auto.
Qed.

Lemma compute_metrics_formulas_witness :
  exists metrics m,
    compute_metrics one_variant 0 = Py.Ok metrics /\
    dict_get metrics "express" = Some m /\
    0 < 0.001 /\
    (power_watts m <> 0 ->
     net_power_w m = Rmax (power_watts m - 0) 0.001 /\
     rapl_available m = true) /\
    (power_watts m = 0 ->
     net_power_w m = Rmax (cpu_pct m * 0.01) 0.001 /\
     rapl_available m = false) /\
    rps_per_watt m = rps_median m / net_power_w m /\
    (0 < cpu_pct m -> rps_extrap m = rps_median m * (100 / cpu_pct m)) /\
    (~ 0 < cpu_pct m -> rps_extrap m = rps_median m) /\
    rps_per_usd m = rps_extrap m / AWS_T3_MEDIUM_USD_PER_HOUR /\
    exists runs,
      In ("express"%string, runs) one_variant /\
      median (map Run.rps runs) = Py.Ok (rps_median m) /\
      median (map Run.power_watts runs) = Py.Ok (power_watts m) /\
      median (map Run.cpu_pct runs) = Py.Ok (cpu_pct m).
Proof.
  eexists. eexists. split; [reflexivity|]. split; [reflexivity|].
  apply (compute_metrics_formulas one_variant 0 _ "express" _ eq_refl eq_refl).
Defined.

(** The figures for that variant. *)
Example one_variant_figures :
  exists m,
    compute_metrics one_variant 0 = Py.Ok [("express"%string, m)] /\
    net_power_w m = 10 /\ rapl_available m = true /\
    rps_per_watt m = 10 /\ rps_extrap m = 200 /\
    rps_per_usd m = 200 / 0.0416.
Proof.
  eexists. split; [reflexivity|]. cbn.
  unfold AWS_T3_MEDIUM_USD_PER_HOUR, Rmax.
  destruct (Req_dec_T 10 0); [lra|].
  destruct (Rlt_dec 0 50); [|lra].
  destruct (Rle_dec (10 - 0) 0.001); cbn; repeat split; lra.
Qed.

(** *** Standard deviations *)

(** C9, amended.  For every variant in the result of [compute_metrics], the
  reported standard deviations of throughput and of power are the sample
  standard deviations (divisor [n - 1], as [statistics.stdev] computes them)
  of the variant's run samples when it has at least two runs, and 0
  otherwise. *)
Theorem reported_stdev_is_sample_stdev (data : list (string * list Run.t))
  (b : R) (metrics : list (string * VariantMetrics)) (fw : string)
  (m : VariantMetrics) :
  compute_metrics data b = Py.Ok metrics ->
  dict_get metrics fw = Some m ->
  exists runs,
    In (fw, runs) data /\
    raw_rps m = map Run.rps runs /\
    raw_power m = map Run.power_watts runs /\
    n_runs m = length runs /\
    ((2 <= n_runs m)%nat ->
     stdev (raw_rps m) = Py.Ok (rps_std m) /\
     stdev (raw_power m) = Py.Ok (power_std m) /\
     rps_std m = sqrt (sum_sq_dev (raw_rps m) / (INR (n_runs m) - 1)) /\
     power_std m = sqrt (sum_sq_dev (raw_power m) / (INR (n_runs m) - 1))) /\
    ((n_runs m < 2)%nat -> rps_std m = 0 /\ power_std m = 0).
Proof.
  intros Hc Hget.
  destruct (compute_metrics_get data b metrics fw m Hc Hget)
    as (runs & Hin & Hm).
  destruct (variant_metrics_inv runs b m Hm)
    as (_ & _ & _ & Hrs & Hps & Hrr & Hrp & Hn & _).
  exists runs. split; [exact Hin|].
  split; [exact Hrr | split; [exact Hrp | split; [exact Hn|]]].
  destruct (stdev_or_zero_value _ _ Hrs) as [Hr2 Hr0].
  destruct (stdev_or_zero_value _ _ Hps) as [Hp2 Hp0].
  rewrite !length_map in *. rewrite Hrr, Hrp, Hn.
  split.
  - intros H2. destruct (Hr2 H2) as [-> ->]. destruct (Hp2 H2) as [-> ->].
    repeat split; reflexivity.
  - intros H2. split; [apply Hr0 | apply Hp0]; exact H2.
Qed.

Lemma two_runs_metrics :
  exists m,
    compute_metrics two_runs 0 = Py.Ok [("express"%string, m)].
Proof.
  unfold compute_metrics, two_runs. cbn [compute_loop].
  destruct (variant_metrics_ok
              [Run.mk 1 1 5 8 9 0 0 0 10 50 120;
               Run.mk 2 3 5 8 9 0 0 0 10 50 120] 0) as [m ->];
    [discriminate|].
  exists m. reflexivity.
Qed.

Lemma reported_stdev_is_sample_stdev_witness :
  exists metrics m,
    compute_metrics two_runs 0 = Py.Ok metrics /\
    dict_get metrics "express" = Some m /\
    exists runs,
      In ("express"%string, runs) two_runs /\
      raw_rps m = map Run.rps runs /\
      raw_power m = map Run.power_watts runs /\
      n_runs m = length runs /\
      ((2 <= n_runs m)%nat ->
       stdev (raw_rps m) = Py.Ok (rps_std m) /\
       stdev (raw_power m) = Py.Ok (power_std m) /\
       rps_std m = sqrt (sum_sq_dev (raw_rps m) / (INR (n_runs m) - 1)) /\
       power_std m = sqrt (sum_sq_dev (raw_power m) / (INR (n_runs m) - 1))) /\
      ((n_runs m < 2)%nat -> rps_std m = 0 /\ power_std m = 0).
Proof.
  destruct two_runs_metrics as [m Hm].
  assert (Hget : dict_get [("express"%string, m)] "express" = Some m)
    by reflexivity.
  exists [("express"%string, m)], m.
  split; [exact Hm | split; [exact Hget|]].
  exact (reported_stdev_is_sample_stdev two_runs 0 _ "express" m Hm Hget).
Defined.

Lemma sum_sq_dev_1_3 : sum_sq_dev [1; 3] = 2.
Proof. unfold sum_sq_dev, mean, rsum. simpl. field. Qed.

Lemma sqrt_2_not_1 : sqrt 2 <> 1.
Proof.
  intros H. assert (E : sqrt 2 * sqrt 2 = 2) by (apply sqrt_sqrt; lra).
  rewrite H in E. lra.
Qed.

(** C9, as stated, fails: for two runs at 1 and 3 req/s the script reports
  the sample deviation [sqrt 2], whereas the population deviation is 1. *)
Lemma sample_not_population_stdev :
  exists metrics m,
    compute_metrics two_runs 0 = Py.Ok metrics /\
    dict_get metrics "express" = Some m /\
    n_runs m = 2%nat /\
    raw_rps m = [1; 3] /\
    rps_std m = sqrt 2 /\
    pstdev (raw_rps m) = 1 /\
    rps_std m <> pstdev (raw_rps m).
Proof.
  destruct two_runs_metrics as [m Hm].
  assert (Hget : dict_get [("express"%string, m)] "express" = Some m)
    by reflexivity.
  exists [("express"%string, m)], m.
  split; [exact Hm | split; [exact Hget|]].
  destruct (compute_metrics_get two_runs 0 _ "express" m Hm Hget)
    as (runs & Hin & Hv).
  destruct Hin as [E | []]. injection E as <-.
  destruct (variant_metrics_inv _ 0 m Hv)
    as (_ & _ & _ & Hrs & _ & Hrr & _ & Hn & _).
  simpl in Hrr, Hn, Hrs.
  destruct (stdev_or_zero_value _ _ Hrs) as [Hr2 _].
  destruct (Hr2 ltac:(simpl; lia)) as [Hstd _].
  rewrite sum_sq_dev_1_3 in Hstd. simpl in Hstd.
  replace (2 / (1 + 1 - 1)) with 2 in Hstd by field.
  assert (Hp : pstdev (raw_rps m) = 1).
  { rewrite Hrr. unfold pstdev. rewrite sum_sq_dev_1_3. simpl.
    replace (2 / (1 + 1)) with 1 by field. apply sqrt_1. }
  repeat split; try assumption.
  rewrite Hstd, Hp. apply sqrt_2_not_1.
Qed.

(** *** Rankings *)







End AnalyzeResultsFacts.

(** ** More facts about find-saturation.py *)

Module FindSaturationExtFacts.

Import FindSaturation FindSaturationSpec FindSaturationExt FindSaturationFacts.

Local Open Scope Q_scope.

Section StepGeneratorMore.
Local Open Scope Z_scope.

Lemma step_loop_exact (a : Args) (t_min t_max : Z) (fuel : nat) :
  0 < step_rps a ->
  step_duration a + ramp_duration a <> 0 ->
  forall (k : nat) steps target t_offset r,
    (1 <= k)%nat ->
    Z.of_nat k <= planned_iterations a t_min t_max ->
    steps = map (planned_step a t_min) (seq 0 k) ->
    target = start_rps a + Z.of_nat k * step_rps a ->
    t_offset =
      warmup a + Z.of_nat k * (step_duration a + ramp_duration a)
      - ramp_duration a ->
    step_loop fuel a t_min t_max steps target t_offset = Some r ->
    r = Py.Ok (map (planned_step a t_min)
                 (seq 0 (S (Z.to_nat (planned_iterations a t_min t_max))))).
Proof.
  intros Hd Hp.
  induction fuel as [|fuel IH];
    intros k steps target t_offset r Hk Hkc Hsteps Htarget Hoff H.
  - discriminate.
  - rewrite step_loop_S in H.
    assert (Hnext :
      steps ++ [mkStep target (t_min + (t_offset + ramp_duration a))
                  (t_min + (t_offset + ramp_duration a) + step_duration a)]
      = map (planned_step a t_min) (seq 0 (S k))).
    { rewrite seq_S, map_app, <- Hsteps. simpl. f_equal. f_equal.
      unfold planned_step. subst target t_offset. f_equal; lia. }
    rewrite Hnext in H.
    pose proof (Z.div_lt_upper_bound (100000 - start_rps a) (step_rps a)
                  (Z.of_nat k + 1) Hd) as HM1.
    pose proof (Z.div_le_lower_bound (100000 - start_rps a) (step_rps a)
                  (Z.of_nat k + 1) Hd) as HM2.
    unfold planned_iterations in *.
    set (K := (t_max - t_min) / (step_duration a + ramp_duration a)) in *.
    set (M := (100000 - start_rps a) / step_rps a) in *.
    assert (Hk100' : Z.of_nat k <= 100) by lia.
    destruct (target <=? start_rps a + 100 * step_rps a) eqn:Hc;
      [|exfalso; apply Z.leb_gt in Hc; subst target; nia].
    destruct (step_duration a + ramp_duration a =? 0) eqn:Hz;
      [apply Z.eqb_eq in Hz; contradiction|].
    destruct (target >=? K * step_rps a + start_rps a) eqn:Hb.
    + rewrite Z.geb_leb in Hb. apply Z.leb_le in Hb.
      assert (K <= Z.of_nat k) by (subst target; nia).
      injection H as <-.
      replace (Z.to_nat (Z.max 1 (Z.min (Z.min K M) 100))) with k by lia.
      reflexivity.
    + rewrite Z.geb_leb in Hb. apply Z.leb_gt in Hb.
      destruct (target + step_rps a >? 100000) eqn:Hg.
      * rewrite Z.gtb_ltb in Hg. apply Z.ltb_lt in Hg.
        assert (M < Z.of_nat k + 1) by (apply HM1; subst target; nia).
        injection H as <-.
        replace (Z.to_nat (Z.max 1 (Z.min (Z.min K M) 100))) with k by lia.
        reflexivity.
      * rewrite Z.gtb_ltb in Hg. apply Z.ltb_ge in Hg.
        assert (Z.of_nat k + 1 <= M) by (apply HM2; subst target; nia).
        assert (Z.of_nat k < K) by (subst target; nia).
        destruct (Z_le_gt_dec (Z.of_nat k + 1) (Z.max 1 (Z.min (Z.min K M) 100)))
          as [Hle | Hgt].
        -- apply (IH (S k) (map (planned_step a t_min) (seq 0 (S k)))
                    (target + step_rps a)
                    (t_offset + ramp_duration a + step_duration a) r);
             [lia | lia | reflexivity | subst target; lia
             | subst t_offset; lia | exact H].
        -- assert (Hk100 : Z.of_nat k = 100) by lia.
           destruct fuel as [|fuel]; [discriminate|].
           rewrite step_loop_S in H.
           destruct (target + step_rps a <=? start_rps a + 100 * step_rps a)
             eqn:Hc2; [exfalso; apply Z.leb_le in Hc2; subst target; nia|].
           injection H as <-.
           replace (Z.to_nat (Z.max 1 (Z.min (Z.min K M) 100))) with k by lia.
           reflexivity.
Qed.

Lemma step_profiles_start (a : Args) (t_min : Z) :
  [mkStep (start_rps a) (t_min + warmup a)
     (t_min + warmup a + step_duration a)]
  = map (planned_step a t_min) (seq 0 1).
Proof. simpl. unfold planned_step. f_equal. f_equal; lia. Qed.

Lemma step_profiles_negative (a : Args) (t_min t_max : Z) :
  step_rps a < 0 ->
  step_profiles a t_min t_max = Py.Ok (map (planned_step a t_min) (seq 0 1)).
Proof.
  intros Hd. unfold step_profiles, step_fuel.
  rewrite step_loop_S, step_profiles_start.
  destruct (_ <=? _) eqn:Hc; [apply Z.leb_le in Hc; lia | reflexivity].
Qed.

Lemma step_profiles_zero (a : Args) (t_min t_max : Z) :
  step_rps a = 0 ->
  step_duration a + ramp_duration a <> 0 ->
  step_profiles a t_min t_max = Py.Ok (map (planned_step a t_min) (seq 0 2)).
Proof.
  intros Hd Hp. unfold step_profiles, step_fuel.
  rewrite step_loop_S, Hd.
  destruct (_ <=? _) eqn:Hc; [|apply Z.leb_gt in Hc; lia].
  destruct (_ =? 0) eqn:Hz; [apply Z.eqb_eq in Hz; contradiction|].
  destruct (_ >=? _) eqn:Hb;
    [|rewrite Z.geb_leb in Hb; apply Z.leb_gt in Hb; lia].
  simpl. unfold planned_step. rewrite Hd. do 2 f_equal.
  - f_equal; lia.
  - f_equal. f_equal; lia.
Qed.

Lemma step_profiles_positive (a : Args) (t_min t_max : Z) :
  0 < step_rps a ->
  step_duration a + ramp_duration a <> 0 ->
  step_profiles a t_min t_max =
  Py.Ok (map (planned_step a t_min)
           (seq 0 (S (Z.to_nat (planned_iterations a t_min t_max))))).
Proof.
  intros Hd Hp. unfold step_profiles. rewrite step_profiles_start.
  destruct (step_loop step_fuel a t_min t_max _ _ _) as [r|] eqn:Hloop.
  - apply (step_loop_exact a t_min t_max step_fuel Hd Hp 1) in Hloop;
      [exact Hloop | lia | unfold planned_iterations; lia | reflexivity
      | lia | lia].
  - exfalso. eapply step_loop_enough_fuel. exact Hloop.
Qed.

Lemma step_profiles_zero_division (a : Args) (t_min t_max : Z) :
  0 <= step_rps a ->
  step_duration a + ramp_duration a = 0 ->
  step_profiles a t_min t_max = Py.Raise Py.ZeroDivisionError.
Proof.
  intros Hd Hp. unfold step_profiles, step_fuel. rewrite step_loop_S.
  destruct (_ <=? _) eqn:Hc; [|apply Z.leb_gt in Hc; lia].
  rewrite Hp. reflexivity.
Qed.

(** X1.  With a positive increment and a non-zero period, the generator
  returns exactly [1 + planned_iterations] steps, the planned ones. *)
Theorem step_profiles_count (a : Args) (t_min t_max : Z) :
  0 < step_rps a ->
  step_duration a + ramp_duration a <> 0 ->
  exists steps,
    step_profiles a t_min t_max = Py.Ok steps /\
    Z.of_nat (length steps) = 1 + planned_iterations a t_min t_max /\
    forall k, (k < length steps)%nat ->
              nth_error steps k = Some (planned_step a t_min k).
Proof.
  intros Hd Hp. eexists. split; [apply step_profiles_positive; assumption|].
  rewrite length_map, length_seq. split.
  - unfold planned_iterations. lia.
  - intros k Hk. rewrite nth_error_map, nth_error_seq.
    destruct (Nat.ltb_spec k (S (Z.to_nat (planned_iterations a t_min t_max))));
      [reflexivity | lia].
Qed.

Lemma step_profiles_count_witness :
  0 < step_rps scenario_args /\
  step_duration scenario_args + ramp_duration scenario_args <> 0 /\
  exists steps,
    step_profiles scenario_args 100 179 = Py.Ok steps /\
    Z.of_nat (length steps) = 1 + planned_iterations scenario_args 100 179 /\
    forall k, (k < length steps)%nat ->
              nth_error steps k = Some (planned_step scenario_args 100 k).
Proof.
  assert (H1 : 0 < step_rps scenario_args) by (simpl; lia).
  assert (H2 : step_duration scenario_args + ramp_duration scenario_args <> 0)
    by (simpl; lia).
  split; [exact H1 | split; [exact H2|]].
  exact (step_profiles_count scenario_args 100 179 H1 H2).
Defined.

(** X2.  The generator fails only by dividing by zero, and does so exactly
  when the increment is not negative and step and ramp durations cancel. *)
Theorem step_profiles_error (a : Args) (t_min t_max : Z) :
  (step_profiles a t_min t_max = Py.Raise Py.ZeroDivisionError <->
   0 <= step_rps a /\ step_duration a + ramp_duration a = 0) /\
  (forall e, step_profiles a t_min t_max = Py.Raise e ->
             e = Py.ZeroDivisionError).
Proof.
  assert (Hraise : forall e, step_profiles a t_min t_max = Py.Raise e ->
            e = Py.ZeroDivisionError /\
            0 <= step_rps a /\ step_duration a + ramp_duration a = 0).
  { intros e He.
    destruct (step_profiles_planned a t_min t_max)
      as [[Hr Hz] | (n & _ & Hok)]; [|congruence].
    split; [congruence | split; [|exact Hz]].
    destruct (Z_lt_le_dec (step_rps a) 0) as [Hneg|]; [|assumption].
    rewrite (step_profiles_negative a t_min t_max Hneg) in He. discriminate. }
  split; [split|].
  - intros H. apply (Hraise _ H).
  - intros [Hd Hz]. apply step_profiles_zero_division; assumption.
  - intros e He. apply (Hraise e He).
Qed.

(** X3.  Whatever the arguments, a successful run yields between 1 and 101
  steps, the [k]-th being the planned one; a negative increment yields one
  step and a zero increment two. *)
Theorem step_profiles_shape (a : Args) (t_min t_max : Z)
  (steps : list StepProfile) :
  step_profiles a t_min t_max = Py.Ok steps ->
  (1 <= length steps <= 101)%nat /\
  (forall k, (k < length steps)%nat ->
             nth_error steps k = Some (planned_step a t_min k)) /\
  (step_rps a < 0 -> length steps = 1%nat) /\
  (step_rps a = 0 -> length steps = 2%nat).
Proof.
  intros Hok.
  assert (Hp : step_duration a + ramp_duration a <> 0 \/ step_rps a < 0).
  { destruct (Z.eq_dec (step_duration a + ramp_duration a) 0) as [Hz|]; auto.
    destruct (Z_lt_le_dec (step_rps a) 0) as [|Hd]; auto.
    rewrite (step_profiles_zero_division a t_min t_max Hd Hz) in Hok.
    discriminate. }
  assert (Hn : exists n, (1 <= n <= 101)%nat /\
              steps = map (planned_step a t_min) (seq 0 n) /\
              (step_rps a < 0 -> n = 1%nat) /\ (step_rps a = 0 -> n = 2%nat)).
  { destruct (Z.lt_trichotomy (step_rps a) 0) as [Hd | [Hd | Hd]].
    - rewrite (step_profiles_negative a t_min t_max Hd) in Hok.
      injection Hok as <-. exists 1%nat. repeat split; lia.
    - destruct Hp as [Hp | Hp]; [|lia].
      rewrite (step_profiles_zero a t_min t_max Hd Hp) in Hok.
      injection Hok as <-. exists 2%nat. repeat split; lia.
    - destruct Hp as [Hp | Hp]; [|lia].
      rewrite (step_profiles_positive a t_min t_max Hd Hp) in Hok.
      injection Hok as <-.
      exists (S (Z.to_nat (planned_iterations a t_min t_max))).
      unfold planned_iterations. repeat split; lia. }
  destruct Hn as (n & Hn & -> & Hneg & Hzero).
  rewrite length_map, length_seq. repeat split; try lia; auto.
  intros k Hk. rewrite nth_error_map, nth_error_seq.
  destruct (Nat.ltb_spec k n); [reflexivity | lia].
Qed.

Lemma step_profiles_shape_witness :
  step_profiles scenario_args 100 179
    = Py.Ok [mkStep 200 110 140; mkStep 400 142 172; mkStep 600 174 204] /\
  (1 <= 3 <= 101)%nat /\
  (forall k, (k < 3)%nat ->
     nth_error [mkStep 200 110 140; mkStep 400 142 172; mkStep 600 174 204] k
     = Some (planned_step scenario_args 100 k)) /\
  (step_rps scenario_args < 0 -> 3%nat = 1%nat) /\
  (step_rps scenario_args = 0 -> 3%nat = 2%nat).
Proof.
  assert (H : step_profiles scenario_args 100 179
    = Py.Ok [mkStep 200 110 140; mkStep 400 142 172; mkStep 600 174 204])
    by (vm_compute; reflexivity).
  split; [exact H|].
  exact (step_profiles_shape scenario_args 100 179 _ H).
Defined.

End StepGeneratorMore.

Lemma py_range_In (a b t : Z) : In t (py_range a b) <-> (a <= t < b)%Z.
Proof.
  unfold py_range. rewrite in_map_iff. split.
  - intros (i & <- & Hi). apply in_seq in Hi. lia.
  - intros H. exists (Z.to_nat (t - a)). split; [lia|].
    apply in_seq. lia.
Qed.

Lemma pool_fold (by_second : gmap Z Bucket) (ts : list Z) :
  forall ds fs rc,
    fold_left (pool_second by_second) ts (ds, fs, rc) =
    (ds ++ concat (map (durations_at by_second) ts),
     fs ++ concat (map (failed_at by_second) ts),
     (rc + fold_right Z.add 0 (map (reqs_at by_second) ts))%Z).
Proof.
  induction ts as [|t ts IH]; intros ds fs rc.
  - simpl. rewrite !app_nil_r, Z.add_0_r. reflexivity.
  - assert (Hs : pool_second by_second (ds, fs, rc) t =
             (ds ++ durations_at by_second t, fs ++ failed_at by_second t,
              (rc + reqs_at by_second t)%Z)).
    { unfold pool_second, durations_at, failed_at, reqs_at.
      destruct (by_second !! t); [reflexivity|].
      rewrite !app_nil_r, Z.add_0_r. reflexivity. }
    cbn [fold_left]. rewrite Hs, IH. cbn [map concat fold_right].
    rewrite <- !List.app_assoc. f_equal. lia.
Qed.

Lemma pool_concat (by_second : gmap Z Bucket) (step : StepProfile) :
  pool by_second step =
  (concat (map (durations_at by_second) (window step)),
   concat (map (failed_at by_second) (window step)),
   fold_right Z.add 0%Z (map (reqs_at by_second) (window step))).
Proof. unfold pool, window. rewrite pool_fold. reflexivity. Qed.

Lemma in_concat_at (f : Bucket -> list Q) (by_second : gmap Z Bucket)
  (ts : list Z) (x : Q) :
  In x (concat (map (fun t => match by_second !! t with
                              | Some s => f s
                              | None => []
                              end) ts)) <->
  exists t b, In t ts /\ by_second !! t = Some b /\ In x (f b).
Proof.
  rewrite in_concat. split.
  - intros (l & Hl & Hx). apply in_map_iff in Hl.
    destruct Hl as (t & <- & Ht).
    destruct (by_second !! t) as [b|] eqn:E; [|destruct Hx].
    exists t, b. auto.
  - intros (t & b & Ht & Hb & Hx). exists (f b). split; [|exact Hx].
    apply in_map_iff. exists t. rewrite Hb. auto.
Qed.

(** X4.  The samples pooled for a step are those of the buckets of the
  seconds [t_start .. t_end], both ends included, in chronological order;
  a sample is pooled exactly when its bucket lies in that window. *)
Theorem pool_window (by_second : gmap Z Bucket) (step : StepProfile) :
  pool by_second step =
    (concat (map (durations_at by_second) (window step)),
     concat (map (failed_at by_second) (window step)),
     fold_right Z.add 0%Z (map (reqs_at by_second) (window step))) /\
  (forall x, In x (fst (fst (pool by_second step))) <->
     exists t b, (t_start step <= t <= t_end step)%Z /\
                 by_second !! t = Some b /\ In x (durations b)) /\
  (forall x, In x (snd (fst (pool by_second step))) <->
     exists t b, (t_start step <= t <= t_end step)%Z /\
                 by_second !! t = Some b /\ In x (failed b)).
Proof.
  split; [apply pool_concat|]. rewrite pool_concat. cbn [fst snd].
  split; intros x.
  - unfold durations_at. rewrite (in_concat_at durations).
    split; intros (t & b & Ht & H); exists t, b; split; try exact H;
      unfold window in *; apply py_range_In in Ht || apply py_range_In; lia.
  - unfold failed_at. rewrite (in_concat_at failed).
    split; intros (t & b & Ht & H); exists t, b; split; try exact H;
      unfold window in *; apply py_range_In in Ht || apply py_range_In; lia.
Qed.

(** Every aggregated step comes from a planned step whose statistics were
  computed. *)
Lemma aggregate_steps_In (by_second : gmap Z Bucket) (a : Args)
  (steps : list StepProfile) :
  forall results s,
    aggregate_steps by_second a steps = Py.Ok results ->
    In s results ->
    exists step,
      In step steps /\
      step_stats a step (pool by_second step) = Py.Ok (Some s).
Proof.
  induction steps as [|step steps IH]; intros results s Hagg Hin.
  - injection Hagg as <-. destruct Hin.
  - cbn [aggregate_steps] in Hagg.
    destruct (step_stats a step (pool by_second step)) as [r|] eqn:Hr;
      [|discriminate].
    destruct (aggregate_steps by_second a steps) as [rest|] eqn:Hrest;
      [|discriminate].
    cbn [Py.bind] in Hagg. injection Hagg as <-.
    destruct r as [s0|].
    + destruct Hin as [<- | Hin].
      * exists step. split; [left; reflexivity | exact Hr].
      * destruct (IH rest s eq_refl Hin) as (st & Hst & Hs).
        exists st. split; [right; exact Hst | exact Hs].
    + destruct (IH rest s eq_refl Hin) as (st & Hst & Hs).
      exists st. split; [right; exact Hst | exact Hs].
Qed.

Lemma aggregate_by_step_inv (by_second : gmap Z Bucket) (a : Args)
  (results : list StepStats) :
  aggregate_by_step by_second a = Py.Ok results ->
  results = [] \/
  exists t_min t_max steps,
    trace_span by_second = Some (t_min, t_max) /\
    step_profiles a t_min t_max = Py.Ok steps /\
    aggregate_steps by_second a steps = Py.Ok results.
Proof.
  unfold aggregate_by_step.
  destruct (trace_span by_second) as [[t_min t_max]|];
    [|intros H; injection H as <-; left; reflexivity].
  destruct (step_profiles a t_min t_max) as [steps|] eqn:Hsteps;
    [|discriminate].
  cbn [Py.bind]. intros H. right. exists t_min, t_max, steps. auto.
Qed.

Lemma pct_in_mono (ds : list Q) (p q a b : Q) :
  ds <> [] -> 0 <= p -> p <= q ->
  pct ds p = Py.Ok a -> pct ds q = Py.Ok b ->
  In a ds /\ In b ds /\ a <= b.
Proof.
  intros Hne Hp Hpq Ha Hb.
  assert (Hq : 0 <= q) by (eapply Qle_trans; eassumption).
  destruct (pct_nearest_rank ds p Hne Hp) as (a' & Ha' & Hna).
  destruct (pct_nearest_rank ds q Hne Hq) as (b' & Hb' & Hnb).
  assert (a' = a) by congruence. assert (b' = b) by congruence. subst a' b'.
  repeat split.
  - apply sorted_In. eapply nth_error_In. exact Hna.
  - apply sorted_In. eapply nth_error_In. exact Hnb.
  - eapply sorted_nth; [|exact Hna|exact Hnb].
    apply nearest_rank_mono; assumption.
Qed.

(** What [step_stats] reports when it reports a step. *)
Lemma step_stats_inv (a : Args) (step : StepProfile) (ds fs : list Q)
  (rc : Z) (s : StepStats) :
  step_stats a step (ds, fs, rc) = Py.Ok (Some s) ->
  ds <> [] /\
  target_rps s = step_target_rps step /\
  n_samples s = length ds /\
  req_count s = rc /\
  err_pct s = err_rate_of fs /\
  In (p50_ms s) ds /\ In (p95_ms s) ds /\ In (p99_ms s) ds /\
  p50_ms s <= p95_ms s /\ p95_ms s <= p99_ms s.
Proof.
  intros Hs.
  assert (Hne : ds <> []) by (intros ->; discriminate Hs).
  destruct (step_stats_some a step ds fs rc Hne)
    as (s' & Hs' & Ht & Hn & Hrc & Herr & H50 & H95 & H99).
  assert (s' = s) by congruence. subst s'.
  destruct (pct_in_mono ds 50 95 (p50_ms s) (p95_ms s) Hne)
    as (I50 & I95 & L1);
    [discriminate | discriminate | exact H50 | exact H95 |].
  destruct (pct_in_mono ds 95 99 (p95_ms s) (p99_ms s) Hne)
    as (_ & I99 & L2);
    [discriminate | discriminate | exact H95 | exact H99 |].
  repeat split; assumption.
Qed.

(** X5.  Every step that [aggregate_by_step] reports comes from a planned
  step with at least one pooled duration; its three percentiles are pooled
  samples of that step, ordered [p50 <= p95 <= p99]; its sample and request
  counts are those of the pool. *)
Theorem aggregate_by_step_stats (by_second : gmap Z Bucket) (a : Args)
  (results : list StepStats) (s : StepStats) :
  aggregate_by_step by_second a = Py.Ok results ->
  In s results ->
  exists t_min t_max steps step,
    trace_span by_second = Some (t_min, t_max) /\
    step_profiles a t_min t_max = Py.Ok steps /\
    In step steps /\
    target_rps s = step_target_rps step /\
    (0 < n_samples s)%nat /\
    n_samples s = length (fst (fst (pool by_second step))) /\
    req_count s = snd (pool by_second step) /\
    In (p50_ms s) (fst (fst (pool by_second step))) /\
    In (p95_ms s) (fst (fst (pool by_second step))) /\
    In (p99_ms s) (fst (fst (pool by_second step))) /\
    p50_ms s <= p95_ms s /\ p95_ms s <= p99_ms s.
Proof.
  intros Hagg Hin.
  destruct (aggregate_by_step_inv by_second a results Hagg)
    as [-> | (t_min & t_max & steps & Hspan & Hsteps & Hres)];
    [destruct Hin|].
  destruct (aggregate_steps_In by_second a steps results s Hres Hin)
    as (step & Hstep & Hs).
  exists t_min, t_max, steps, step.
  destruct (pool by_second step) as [[ds fs] rc].
  destruct (step_stats_inv a step ds fs rc s Hs)
    as (Hne & Ht & Hn & Hrc & _ & I50 & I95 & I99 & L1 & L2).
  cbn [fst snd]. repeat split; try assumption.
  rewrite Hn. destruct ds; [congruence | simpl; lia].
Qed.

Lemma aggregate_by_step_stats_witness :
  exists results s,
    aggregate_by_step sparse_trace scenario_args = Py.Ok results /\
    In s results /\
    exists t_min t_max steps step,
      trace_span sparse_trace = Some (t_min, t_max) /\
      step_profiles scenario_args t_min t_max = Py.Ok steps /\
      In step steps /\
      target_rps s = step_target_rps step /\
      (0 < n_samples s)%nat /\
      n_samples s = length (fst (fst (pool sparse_trace step))) /\
      req_count s = snd (pool sparse_trace step) /\
      In (p50_ms s) (fst (fst (pool sparse_trace step))) /\
      In (p95_ms s) (fst (fst (pool sparse_trace step))) /\
      In (p99_ms s) (fst (fst (pool sparse_trace step))) /\
      p50_ms s <= p95_ms s /\ p95_ms s <= p99_ms s.
Proof.
  assert (H : aggregate_by_step sparse_trace scenario_args
              = Py.Ok [mkStepStats 200 (2 # 30) 5 5 5 0 2 2])
    by (vm_compute; reflexivity).
  exists [mkStepStats 200 (2 # 30) 5 5 5 0 2 2], (mkStepStats 200 (2 # 30) 5 5 5 0 2 2).
  split; [exact H | split; [left; reflexivity|]].
  exact (aggregate_by_step_stats sparse_trace scenario_args _ _ H
           (or_introl eq_refl)).
Defined.

(** *** Error percentage *)

Lemma py_sum_bounds (l : list Q) :
  Forall (fun x => 0 <= x <= 1) l ->
  forall acc, acc <= fold_left Qplus l acc /\
              fold_left Qplus l acc <= acc + inject_Z (Z.of_nat (length l)).
Proof.
  induction 1 as [|x l [Hx0 Hx1] Hl IH]; intros acc.
  - cbn [fold_left length Z.of_nat]. change (inject_Z (Z.of_nat 0)) with 0.
    split; Lqa.lra.
  - cbn [fold_left length]. destruct (IH (acc + x)) as [IH1 IH2].
    rewrite Nat2Z.inj_succ, <- Z.add_1_r, inject_Z_plus.
    change (inject_Z 1) with 1. split; Lqa.lra.
Qed.

Lemma err_rate_of_range (fs : list Q) :
  Forall (fun x => 0 <= x <= 1) fs ->
  0 <= err_rate_of fs /\ err_rate_of fs <= 100.
Proof.
  intros Hfs. unfold err_rate_of.
  destruct fs as [|f fs]; [split; discriminate|].
  set (l := f :: fs) in *.
  destruct (py_sum_bounds l Hfs 0) as [H0 H1]. fold (py_sum l) in H0, H1.
  assert (Hn : 0 < inject_Z (Z.of_nat (length l)))
    by (unfold Qlt; simpl; lia).
  split.
  - apply Qmult_le_0_compat; [|discriminate].
    apply Qle_shift_div_l; [exact Hn | Lqa.lra].
  - assert (py_sum l / inject_Z (Z.of_nat (length l)) <= 1)
      by (apply Qle_shift_div_r; [exact Hn | Lqa.lra]).
    Lqa.lra.
Qed.

(** X6.  When every failure flag of the trace lies between 0 and 1, every
  reported error percentage lies between 0 and 100. *)
Theorem err_pct_range (by_second : gmap Z Bucket) (a : Args)
  (results : list StepStats) (s : StepStats) :
  (forall t b, by_second !! t = Some b ->
               Forall (fun x => 0 <= x <= 1) (failed b)) ->
  aggregate_by_step by_second a = Py.Ok results ->
  In s results ->
  0 <= err_pct s /\ err_pct s <= 100.
Proof.
  intros Hflags Hagg Hin.
  destruct (aggregate_by_step_inv by_second a results Hagg)
    as [-> | (t_min & t_max & steps & _ & _ & Hres)]; [destruct Hin|].
  destruct (aggregate_steps_In by_second a steps results s Hres Hin)
    as (step & _ & Hs).
  rewrite pool_concat in Hs.
  destruct (step_stats_inv a step _ _ _ s Hs) as (_ & _ & _ & _ & -> & _).
  apply err_rate_of_range. apply List.Forall_forall. intros x Hx.
  unfold failed_at in Hx. apply (in_concat_at failed) in Hx.
  destruct Hx as (t & b & _ & Hb & Hx).
  specialize (Hflags t b Hb). rewrite List.Forall_forall in Hflags. auto.
Qed.

Lemma err_pct_range_witness :
  (forall t b, two_seconds !! t = Some b ->
               Forall (fun x => 0 <= x <= 1) (failed b)) /\
  aggregate_by_step two_seconds (mkArgs 200 200 30 2 0 1 1000)
    = Py.Ok [mkStepStats 200 (4 # 30) 30 900 900 (100 # 4) 4 4] /\
  0 <= err_pct (mkStepStats 200 (4 # 30) 30 900 900 (100 # 4) 4 4) /\
  err_pct (mkStepStats 200 (4 # 30) 30 900 900 (100 # 4) 4 4) <= 100.
Proof.
  assert (Hflags : forall t b, two_seconds !! t = Some b ->
                     Forall (fun x => 0 <= x <= 1) (failed b)).
  { intros t b. unfold two_seconds.
    rewrite lookup_insert. destruct (decide (110%Z = t)).
    - intros H. injection H as <-. simpl.
      repeat constructor; discriminate.
    - rewrite lookup_insert. destruct (decide (111%Z = t)).
      + intros H. injection H as <-. simpl.
        repeat constructor; discriminate.
      + rewrite lookup_empty. discriminate. }
  assert (Hagg : aggregate_by_step two_seconds (mkArgs 200 200 30 2 0 1 1000)
                 = Py.Ok [mkStepStats 200 (4 # 30) 30 900 900 (100 # 4) 4 4])
    by (vm_compute; reflexivity).
  split; [exact Hflags | split; [exact Hagg|]].
  exact (err_pct_range two_seconds _ _ _ Hflags Hagg (or_introl eq_refl)).
Defined.

(** *** Order of the aggregated steps *)

Lemma strongly_sorted_map_filter {A B} (R : B -> B -> Prop) (f : A -> B)
  (P : A -> bool) (l : list A) :
  StronglySorted R (map f l) -> StronglySorted R (map f (List.filter P l)).
Proof.
  induction l as [|x l IH]; intros H; simpl in *.
  - constructor.
  - inversion H as [|? ? Hs Hall]; subst.
    destruct (P x); [|apply IH; exact Hs].
    simpl. constructor; [apply IH; exact Hs|].
    rewrite List.Forall_forall in *. intros y Hy. apply Hall.
    apply in_map_iff in Hy. destruct Hy as (z & <- & Hz).
    apply filter_In in Hz. apply in_map. tauto.
Qed.

Lemma planned_iterations_range (a : Args) (t_min t_max : Z) :
  (1 <= planned_iterations a t_min t_max <= 100)%Z.
Proof.
  unfold planned_iterations.
  generalize ((t_max - t_min) / (step_duration a + ramp_duration a))%Z.
  generalize ((100000 - start_rps a) / step_rps a)%Z. lia.
Qed.

(** With a positive increment, the aggregated steps carry strictly
  increasing target rates, and there are at most 101 of them. *)
Lemma aggregate_targets_sorted (by_second : gmap Z Bucket) (a : Args)
  (results : list StepStats) :
  (0 < step_rps a)%Z ->
  aggregate_by_step by_second a = Py.Ok results ->
  StronglySorted Z.lt (map target_rps results) /\
  (length results <= 101)%nat.
Proof.
  intros Hd Hagg.
  destruct (aggregate_by_step_inv by_second a results Hagg)
    as [-> | (t_min & t_max & steps & Hspan & Hsteps & _)].
  - split; [constructor | simpl; lia].
  - destruct (aggregate_by_step_drops by_second a t_min t_max steps
                Hspan Hsteps) as (results' & Hagg' & Hmap & _).
    assert (results' = results) by congruence. subst results'.
    destruct (step_profiles_planned a t_min t_max)
      as [[Hr _] | (n & Hn & Hok)]; [congruence|].
    assert (steps = map (planned_step a t_min) (seq 0 n)) by congruence.
    subst steps.
    assert (Hsorted : StronglySorted Z.lt
              (map step_target_rps (map (planned_step a t_min) (seq 0 n)))).
    { rewrite map_map. apply map_seq_strongly_sorted.
      intros i j Hij. simpl. nia. }
    split.
    + rewrite Hmap. apply strongly_sorted_map_filter. exact Hsorted.
    + assert (Hlen : length results = length (map target_rps results))
        by (rewrite length_map; reflexivity).
      rewrite Hlen, Hmap, length_map.
      pose proof (List.filter_length_le (has_samples by_second)
                    (map (planned_step a t_min) (seq 0 n))) as Hle.
      rewrite length_map, length_seq in Hle.
      assert (n <= 101)%nat; [|lia].
      destruct (Z.eq_dec (step_duration a + ramp_duration a)%Z 0%Z) as [Hz|Hz].
      * rewrite (step_profiles_zero_division a t_min t_max) in Hok;
          [discriminate | lia | exact Hz].
      * pose proof (step_profiles_positive a t_min t_max Hd Hz) as Hpos.
        assert (Heq : map (planned_step a t_min) (seq 0 n) =
                      map (planned_step a t_min)
                        (seq 0 (S (Z.to_nat (planned_iterations a t_min t_max)))))
          by congruence.
        apply (f_equal (@length _)) in Heq.
        rewrite !length_map, !length_seq in Heq.
        pose proof (planned_iterations_range a t_min t_max). lia.
Qed.

(** X7.  With a positive increment, [aggregate_by_step] returns its steps in
  strictly increasing order of target rate, at most 101 of them. *)
Theorem aggregate_by_step_increasing (by_second : gmap Z Bucket) (a : Args)
  (results : list StepStats) :
  (0 < step_rps a)%Z ->
  aggregate_by_step by_second a = Py.Ok results ->
  StronglySorted Z.lt (map target_rps results) /\
  (length results <= 101)%nat.
Proof. apply aggregate_targets_sorted. Qed.

Lemma aggregate_by_step_increasing_witness :
  (0 < step_rps scenario_args)%Z /\
  (exists results,
     aggregate_by_step dense_trace scenario_args = Py.Ok results /\
     map target_rps results = [200; 400; 600]%Z /\
     StronglySorted Z.lt (map target_rps results) /\
     (length results <= 101)%nat).
Proof.
  assert (Hd : (0 < step_rps scenario_args)%Z) by (simpl; lia).
  split; [exact Hd|].
  eexists. split; [vm_compute; reflexivity|].
  split; [reflexivity|].
  apply (aggregate_by_step_increasing dense_trace scenario_args _ Hd).
  vm_compute. reflexivity.
Defined.

(** *** The verdict on aggregated steps *)




(** *** Edge cases of the verdict *)

Lemma breaches_or_complies (e p : Q) (s : StepStats) :
  Breaches e p s \/ Complies e p s.
Proof.
  destruct (saturated e p s) eqn:E.
  - left. apply saturated_true. exact E.
  - right. apply saturated_false. exact E.
Qed.

Lemma neither_nil (e p : Q) (steps : list StepStats) :
  Forall (fun s => ~ Breaches e p s) steps ->
  Forall (fun s => ~ Complies e p s) steps ->
  steps = [].
Proof.
  intros Hb Hc. destruct steps as [|s steps]; [reflexivity|].
  inversion Hb; inversion Hc; subst.
  destruct (breaches_or_complies e p s); contradiction.
Qed.

(** X9.  The verdict is [(None, None)] only for an empty list of steps.
  When no step complies, [first_saturated] is the very first step; when no
  step breaches, [last_ok] is the very last one. *)
Theorem verdict_edges (steps : list StepStats) (e p : Q) :
  (fst (find_saturation_point steps e p) = None /\
   snd (find_saturation_point steps e p) = None <-> steps = []) /\
  (forall s rest, steps = s :: rest ->
     fst (find_saturation_point steps e p) = None ->
     snd (find_saturation_point steps e p) = Some s) /\
  (forall pre s, steps = pre ++ [s] ->
     snd (find_saturation_point steps e p) = None ->
     fst (find_saturation_point steps e p) = Some s).
Proof.
  unfold find_saturation_point.
  destruct (detector_loop e p steps None None) as [Hf Hl].
  unfold first_from, is_first in Hf.
  set (r := fold_left (detector_step e p) steps (None, None)) in *.
  split; [split|split].
  - intros [H1 H2]. rewrite H2 in Hf.
    destruct Hl as [(pre & x & post & _ & _ & _ & Hlo) | [Hall _]];
      [congruence|].
    apply (neither_nil e p); assumption.
  - intros ->. subst r. split; reflexivity.
  - intros s rest -> H1.
    destruct Hl as [(pre & x & post & _ & _ & _ & Hlo) | [Hall _]];
      [congruence|].
    inversion Hall as [|? ? Hs _]; subst.
    destruct (snd r) as [y|].
    + destruct Hf as (pre & post & E & Hy & Hpre).
      destruct pre as [|z pre].
      * simpl in E. congruence.
      * simpl in E. injection E as <- _. inversion Hpre; subst.
        destruct (breaches_or_complies e p s); contradiction.
    + inversion Hf; subst.
      destruct (breaches_or_complies e p s); contradiction.
  - intros pre s -> H2. rewrite H2 in Hf.
    destruct Hl as [(pre' & x & post & E & Hx & Hpost & Hlo) | [Hall _]].
    + rewrite Hlo. f_equal.
      destruct post as [|y post].
      * apply app_inj_tail in E. destruct E as [_ ->]. reflexivity.
      * exfalso. assert (Hy : In y (pre ++ [s]))
          by (rewrite E; apply in_or_app; right; right; left; reflexivity).
        rewrite List.Forall_forall in Hf, Hpost.
        destruct (breaches_or_complies e p y) as [B | C].
        -- exact (Hf y Hy B).
        -- apply (Hpost y); [left; reflexivity | exact C].
    + exfalso. assert (E : pre ++ [s] = []) by
        (apply (neither_nil e p); assumption).
      destruct pre; discriminate.
Qed.

(** The loop over steps that all comply, then over steps that all breach. *)
Lemma detector_all_comply (e p : Q) (l : list StepStats) :
  Forall (Complies e p) l ->
  forall lo fs,
    fold_left (detector_step e p) l (lo, fs) =
    (match hd_error (rev l) with Some x => Some x | None => lo end, fs).
Proof.
  induction 1 as [|x l Hx Hl IH]; intros lo fs; [reflexivity|].
  cbn [fold_left]. unfold detector_step at 2.
  apply saturated_false in Hx. rewrite Hx, IH. simpl rev.
  destruct (rev l) as [|y r]; reflexivity.
Qed.

Lemma detector_all_breach (e p : Q) (l : list StepStats) :
  Forall (Breaches e p) l ->
  forall lo fs,
    fold_left (detector_step e p) l (lo, fs) =
    (lo, match fs with Some f => Some f | None => hd_error l end).
Proof.
  induction 1 as [|x l Hx Hl IH]; intros lo fs;
    [destruct fs; reflexivity|].
  cbn [fold_left]. unfold detector_step at 2.
  apply saturated_true in Hx. rewrite Hx.
  destruct fs as [f|]; rewrite IH; reflexivity.
Qed.

(** X10.  When compliance is monotone (every step of a prefix complies and
  every later step breaches), [last_ok] is the last step of the prefix and
  [first_saturated] the step right after it. *)
Theorem verdict_monotone (pre post : list StepStats) (e p : Q) :
  Forall (Complies e p) pre ->
  Forall (Breaches e p) post ->
  find_saturation_point (pre ++ post) e p
  = (hd_error (rev pre), hd_error post).
Proof.
  intros Hpre Hpost. unfold find_saturation_point.
  rewrite fold_left_app, (detector_all_comply e p pre Hpre),
    (detector_all_breach e p post Hpost).
  destruct (hd_error (rev pre)); reflexivity.
Qed.

Lemma verdict_monotone_witness :
  Forall (Complies 1 1000) [mkStepStats 200 200 10 20 30 0 60 60] /\
  Forall (Breaches 1 1000) [mkStepStats 400 390 10 20 1500 0 117 117] /\
  find_saturation_point
    ([mkStepStats 200 200 10 20 30 0 60 60]
     ++ [mkStepStats 400 390 10 20 1500 0 117 117]) 1 1000
  = (hd_error (rev [mkStepStats 200 200 10 20 30 0 60 60]),
     hd_error [mkStepStats 400 390 10 20 1500 0 117 117]).
Proof.
  assert (H1 : Forall (Complies 1 1000)
                 [mkStepStats 200 200 10 20 30 0 60 60])
    by (repeat constructor).
  assert (H2 : Forall (Breaches 1 1000)
                 [mkStepStats 400 390 10 20 1500 0 117 117])
    by (constructor; [right; discriminate | constructor]).
  split; [exact H1 | split; [exact H2|]].
  exact (verdict_monotone _ _ 1 1000 H1 H2).
Defined.

(** *** The reader: skipped rows and growth *)

Section ReaderMore.

Variable str_strip : string -> string.
Variable float_of_str : string -> option pyfloat.

Lemma not_wanted (metric : string) :
  ~ In metric WANTED -> existsb (String.eqb metric) WANTED = false.
Proof.
  intros Hn. apply not_true_is_false. intros H.
  apply existsb_exists in H. destruct H as (x & Hx & E).
  apply String.eqb_eq in E. subst x. contradiction.
Qed.

Lemma is_wanted (metric : string) :
  existsb (String.eqb metric) WANTED = true <-> In metric WANTED.
Proof.
  split.
  - intros H. apply existsb_exists in H. destruct H as (x & Hx & E).
    apply String.eqb_eq in E. subst x. exact Hx.
  - intros H. apply existsb_exists. exists metric.
    split; [exact H | apply String.eqb_refl].
Qed.

(** What recording does once the second is known never fails. *)
Lemma record_never_raises (by_second : gmap Z (bucket pyfloat))
  (metric : string) (val : pyfloat) (ts_sec : Z) (e : Py.exn) :
  (let b := bucket_at by_second ts_sec in
   if String.eqb metric "http_req_duration" then
     Py.Ok (<[ts_sec := mkBucket (durations b ++ [val]) (failed b)
                          (reqs b)]> by_second)
   else if String.eqb metric "http_req_failed" then
     Py.Ok (<[ts_sec := mkBucket (durations b) (failed b ++ [val])
                          (reqs b)]> by_second)
   else if String.eqb metric "http_reqs" then
     Py.Ok (<[ts_sec := mkBucket (durations b) (failed b)
                          (reqs b + 1)%Z]> by_second)
   else Py.Ok by_second) <> Py.Raise e.
Proof.
  cbv zeta. repeat (destruct (String.eqb _ _); [discriminate|]). discriminate.
Qed.

(** The failures of a row whose metric name is the string [name]. *)
Lemma load_row_named_raises (by_second : gmap Z (bucket pyfloat))
  (row : gmap string (option string)) (name : string) (e : Py.exn) :
  row_get row "metric_name" (VStr "") = VStr name ->
  (load_row str_strip float_of_str by_second row = Py.Raise e <->
   In (str_strip name) WANTED /\
   (exists val,
      py_float float_of_str (row_get row "metric_value" (VInt 0))
        = Some val) /\
   ((e = Py.ValueError /\
     py_float float_of_str (row_get row "timestamp" (VInt 0)) = Some NaN) \/
    (e = Py.OverflowError /\
     py_float float_of_str (row_get row "timestamp" (VInt 0)) = Some Inf))).
Proof.
  intros Hname. unfold load_row. rewrite Hname.
  destruct (existsb (String.eqb (str_strip name)) WANTED) eqn:Hw;
    cbn [negb].
  - apply is_wanted in Hw.
    destruct (py_float float_of_str (row_get row "timestamp" (VInt 0)))
      as [[ts| |]|].
    + split; [|intros (_ & _ & [[_ H]|[_ H]]); discriminate].
      destruct (py_float float_of_str (row_get row "metric_value" (VInt 0)));
        [|discriminate].
      cbn [py_int_float Py.bind]. intros H.
      destruct (record_never_raises _ _ _ _ _ H).
    + destruct (py_float float_of_str (row_get row "metric_value" (VInt 0)))
        as [val|].
      * cbn [py_int_float Py.bind]. split.
        -- intros H. injection H as <-. split; [exact Hw|].
           split; [exists val; reflexivity|]. left. auto.
        -- intros (_ & _ & [[-> _]|[_ H]]); [reflexivity | discriminate].
      * split; [discriminate|]. intros (_ & [val H] & _). discriminate.
    + destruct (py_float float_of_str (row_get row "metric_value" (VInt 0)))
        as [val|].
      * cbn [py_int_float Py.bind]. split.
        -- intros H. injection H as <-. split; [exact Hw|].
           split; [exists val; reflexivity|]. right. auto.
        -- intros (_ & _ & [[_ H]|[-> _]]); [discriminate | reflexivity].
      * split; [discriminate|]. intros (_ & [val H] & _). discriminate.
    + split; [discriminate|].
      intros (_ & _ & [[_ H]|[_ H]]); discriminate.
  - split; [discriminate|]. intros (Hin & _).
    apply is_wanted in Hin. congruence.
Qed.

(** X11.  A row is skipped, leaving the buckets untouched, when its metric is
  not one of the three wanted ones or when its timestamp or value does not
  parse.  A row fails in three ways only: with [AttributeError] when it
  has no field for [metric_name]; and, for a wanted metric whose two
  numbers parse, with [ValueError] when the timestamp is [nan] and with
  [OverflowError] when it is an infinity. *)
Theorem load_row_skips (by_second : gmap Z (bucket pyfloat))
  (row : gmap string (option string)) :
  (forall name,
     row_get row "metric_name" (VStr "") = VStr name ->
     ~ In (str_strip name) WANTED ->
     load_row str_strip float_of_str by_second row = Py.Ok by_second) /\
  (row !! "metric_name"%string <> Some None ->
   py_float float_of_str (row_get row "timestamp" (VInt 0)) = None \/
   py_float float_of_str (row_get row "metric_value" (VInt 0)) = None ->
   load_row str_strip float_of_str by_second row = Py.Ok by_second) /\
  (forall e,
     load_row str_strip float_of_str by_second row = Py.Raise e <->
     (e = Py.AttributeError /\ row !! "metric_name"%string = Some None) \/
     (exists name,
        row_get row "metric_name" (VStr "") = VStr name /\
        In (str_strip name) WANTED /\
        (exists val,
           py_float float_of_str (row_get row "metric_value" (VInt 0))
             = Some val) /\
        ((e = Py.ValueError /\
          py_float float_of_str (row_get row "timestamp" (VInt 0))
            = Some NaN) \/
         (e = Py.OverflowError /\
          py_float float_of_str (row_get row "timestamp" (VInt 0))
            = Some Inf)))).
Proof.
  split; [|split].
  - intros name Hname Hn. unfold load_row. rewrite Hname.
    rewrite (not_wanted _ Hn). reflexivity.
  - intros Hsome Hbad. unfold load_row, row_get at 1.
    destruct (row !! "metric_name"%string) as [[name|]|]; [| congruence |].
    + destruct (negb _); [reflexivity|].
      destruct Hbad as [-> | ->]; [reflexivity|].
      destruct (py_float float_of_str _); reflexivity.
    + destruct (negb _); [reflexivity|].
      destruct Hbad as [-> | ->]; [reflexivity|].
      destruct (py_float float_of_str _); reflexivity.
  - intros e.
    destruct (row_get row "metric_name" (VStr "")) as [name| |z] eqn:Hname.
    + rewrite (load_row_named_raises by_second row name e Hname). split.
      * intros H. right. exists name. split; [reflexivity | exact H].
      * intros [[_ Hnone] | (name' & E & H)].
        -- unfold row_get in Hname. rewrite Hnone in Hname. discriminate.
        -- injection E as <-. exact H.
    + unfold load_row. rewrite Hname. split.
      * intros H. injection H as <-. left. split; [reflexivity|].
        unfold row_get in Hname.
        destruct (row !! "metric_name"%string) as [[?|]|];
          [discriminate | reflexivity | discriminate].
      * intros [[-> _] | (name' & E & _)]; [reflexivity | discriminate].
    + unfold row_get in Hname.
      destruct (row !! "metric_name"%string) as [[?|]|]; discriminate.
Qed.

Lemma grows_refl {A} (b : bucket A) : grows b b.
Proof.
  repeat split; try (exists []; rewrite app_nil_r; reflexivity). lia.
Qed.

Lemma grows_trans {A} (b1 b2 b3 : bucket A) :
  grows b1 b2 -> grows b2 b3 -> grows b1 b3.
Proof.
  intros ([l1 H1] & [m1 K1] & R1) ([l2 H2] & [m2 K2] & R2).
  repeat split.
  - exists (l1 ++ l2). rewrite H2, H1, <- List.app_assoc. reflexivity.
  - exists (m1 ++ m2). rewrite K2, K1, <- List.app_assoc. reflexivity.
  - lia.
Qed.

(** One row changes at most one bucket, and only by adding to it. *)
Lemma load_row_grows (by_second by_second' : gmap Z (bucket pyfloat))
  (row : gmap string (option string)) :
  load_row str_strip float_of_str by_second row = Py.Ok by_second' ->
  by_second' = by_second \/
  exists ts b',
    by_second' = <[ts := b']> by_second /\
    grows (bucket_at by_second ts) b'.
Proof.
  unfold load_row.
  destruct (row_get row "metric_name" (VStr "")) as [name| |];
    [|discriminate|discriminate].
  destruct (negb _); [intros H; injection H as <-; left; reflexivity|].
  destruct (py_float float_of_str (row_get row "timestamp" (VInt 0)))
    as [ts|]; [|intros H; injection H as <-; left; reflexivity].
  destruct (py_float float_of_str (row_get row "metric_value" (VInt 0)))
    as [val|]; [|intros H; injection H as <-; left; reflexivity].
  destruct (py_int_float ts) as [ts_sec|]; [|discriminate].
  cbn [Py.bind].
  destruct (String.eqb _ _);
    [|destruct (String.eqb _ _); [|destruct (String.eqb _ _)]];
    intros H; injection H as <-;
    try (left; reflexivity);
    right; eexists; eexists; (split; [reflexivity|]);
    unfold grows; cbn [durations failed reqs];
    repeat split;
    try (eexists; reflexivity);
    try (exists []; rewrite app_nil_r; reflexivity); lia.
Qed.

Lemma load_rows_grows (rows : list (gmap string (option string))) :
  forall (by_second by_second' : gmap Z (bucket pyfloat)) t b,
    load_rows str_strip float_of_str by_second rows = Py.Ok by_second' ->
    by_second !! t = Some b ->
    exists b', by_second' !! t = Some b' /\ grows b b'.
Proof.
  induction rows as [|row rows IH]; intros by_second by_second' t b Hl Hb.
  - injection Hl as <-. exists b. split; [exact Hb | apply grows_refl].
  - cbn [load_rows] in Hl.
    destruct (load_row str_strip float_of_str by_second row)
      as [mid|] eqn:Hrow; [|discriminate].
    cbn [Py.bind] in Hl.
    assert (Hmid : exists bm, mid !! t = Some bm /\ grows b bm).
    { destruct (load_row_grows _ _ _ Hrow) as [-> | (ts & b' & -> & Hg)].
      - exists b. split; [exact Hb | apply grows_refl].
      - destruct (decide (ts = t)) as [->|Hne].
        + exists b'. rewrite lookup_insert_eq. split; [reflexivity|].
          unfold bucket_at in Hg. rewrite Hb in Hg. exact Hg.
        + exists b. rewrite lookup_insert_ne by exact Hne.
          split; [exact Hb | apply grows_refl]. }
    destruct Hmid as (bm & Hbm & Hg1).
    destruct (IH mid by_second' t bm Hl Hbm) as (b' & Hb' & Hg2).
    exists b'. split; [exact Hb' | eapply grows_trans; eassumption].
Qed.

(** X12.  Reading rows never removes a bucket and never drops or reorders
  what a bucket already holds: each bucket present before is present
  after, with its durations and failure flags as a prefix of the new ones
  and a request count at least as large. *)
Theorem load_rows_only_add (rows : list (gmap string (option string)))
  (by_second by_second' : gmap Z (bucket pyfloat)) (t : Z)
  (b : bucket pyfloat) :
  load_rows str_strip float_of_str by_second rows = Py.Ok by_second' ->
  by_second !! t = Some b ->
  exists b', by_second' !! t = Some b' /\ grows b b'.
Proof. apply load_rows_grows. Qed.

End ReaderMore.

Lemma load_rows_only_add_witness :
  exists by_second',
    load_rows strip_nothing float_of_digits
      (<[100%Z := mkBucket [Finite 7] [] 0]> ∅) [reqs_row]
      = Py.Ok by_second' /\
    (<[100%Z := mkBucket [Finite 7] [] 0]> ∅ : gmap Z (bucket pyfloat))
      !! 100%Z = Some (mkBucket [Finite 7] [] 0) /\
    exists b', by_second' !! 100%Z = Some b' /\
               grows (mkBucket [Finite 7] [] 0) b'.
Proof.
  eexists. split; [vm_compute; reflexivity|].
  split; [reflexivity|].
  apply (load_rows_only_add strip_nothing float_of_digits [reqs_row]
           (<[100%Z := mkBucket [Finite 7] [] 0]> ∅) _ 100%Z
           (mkBucket [Finite 7] [] 0)).
  - vm_compute. reflexivity.
  - reflexivity.
Defined.

(** A wanted row whose timestamp reads as [nan] or as an infinity stops the
  reader. *)
Example load_row_nan_timestamp (by_second : gmap Z (bucket pyfloat))
  (float_of_str : string -> option pyfloat) :
  float_of_str "nan" = Some NaN ->
  float_of_str "inf" = Some Inf ->
  float_of_str "12" = Some (Finite 12) ->
  load_row strip_nothing float_of_str by_second
    (<["timestamp"%string := Some "nan"%string]> row_without_timestamp)
    = Py.Raise Py.ValueError /\
  load_row strip_nothing float_of_str by_second
    (<["timestamp"%string := Some "inf"%string]> row_without_timestamp)
    = Py.Raise Py.OverflowError.
Proof.
  intros Hnan Hinf H12. unfold load_row, row_without_timestamp.
  split; vm_compute; rewrite ?Hnan, ?Hinf, ?H12; reflexivity.
Qed.

Lemma pow10_pos (n : nat) : 0 < pow10 n.
Proof.
  unfold pow10, Qlt. cbn [inject_Z Qnum Qden].
  pose proof (Z.pow_pos_nonneg 10 (Z.of_nat n)). lia.
Qed.

Lemma round_half_even_near (y : Q) :
  y - (1 # 2) <= inject_Z (round_half_even y) /\
  inject_Z (round_half_even y) <= y + (1 # 2).
Proof.
  unfold round_half_even.
  pose proof (Qfloor_le y) as Hlo.
  pose proof (Qlt_floor y) as Hhi.
  rewrite inject_Z_plus in Hhi. change (inject_Z 1) with 1 in Hhi.
  destruct (Qcompare_spec (y - inject_Z (Qfloor y)) (1 # 2)) as [E|L|G].
  - destruct (Z.even (Qfloor y)).
    + split; Lqa.lra.
    + rewrite inject_Z_plus. change (inject_Z 1) with 1. split; Lqa.lra.
  - split; Lqa.lra.
  - rewrite inject_Z_plus. change (inject_Z 1) with 1. split; Lqa.lra.
Qed.

Lemma py_round_near (x : Q) (n : nat) :
  x - (1 # 2) / pow10 n <= py_round x n /\
  py_round x n <= x + (1 # 2) / pow10 n.
Proof.
  unfold py_round. pose proof (pow10_pos n) as HT.
  destruct (round_half_even_near (x * pow10 n)) as [Hlo Hhi].
  set (z := inject_Z (round_half_even (x * pow10 n))) in *.
  split.
  - apply Qle_shift_div_l; [exact HT|].
    assert (E : (x - (1 # 2) / pow10 n) * pow10 n == x * pow10 n - (1 # 2))
      by (field; intros H; rewrite H in HT; discriminate).
    rewrite E. exact Hlo.
  - apply Qle_shift_div_r; [exact HT|].
    assert (E : (x + (1 # 2) / pow10 n) * pow10 n == x * pow10 n + (1 # 2))
      by (field; intros H; rewrite H in HT; discriminate).
    rewrite E. exact Hhi.
Qed.

(** *** The analysis file and the table *)

Lemma half_ulp_1 : (1 # 2) / pow10 1 == 1 # 20.
Proof. reflexivity. Qed.

Lemma half_ulp_2 : (1 # 2) / pow10 2 == 1 # 200.
Proof. reflexivity. Qed.

Lemma half_ulp_4 : (1 # 2) / pow10 4 == 1 # 20000.
Proof. reflexivity. Qed.

Lemma py_round_abs (x h : Q) (n : nat) :
  (1 # 2) / pow10 n == h -> Qabs (py_round x n - x) <= h.
Proof.
  intros Hh. destruct (py_round_near x n) as [Hlo Hhi].
  rewrite Hh in Hlo, Hhi. apply Qabs_Qle_condition. split; Lqa.lra.
Qed.

(** X13.  Each line of the analysis file carries the step's target rate and
  request count unchanged, and each rounded figure differs from the
  statistic by at most half a unit of its last decimal: 0.05 for the real
  rate, 0.005 for the percentiles, 0.00005 for the error percentage. *)
Theorem csv_row_precision (last_ok : option StepStats) (framework : string)
  (e p : Q) (s : StepStats) :
  csv_target_rps (csv_row last_ok framework e p s) = target_rps s /\
  csv_req_count (csv_row last_ok framework e p s) = req_count s /\
  Qabs (csv_rps_real (csv_row last_ok framework e p s) - rps_real s)
    <= 1 # 20 /\
  Qabs (csv_p50_ms (csv_row last_ok framework e p s) - p50_ms s)
    <= 1 # 200 /\
  Qabs (csv_p95_ms (csv_row last_ok framework e p s) - p95_ms s)
    <= 1 # 200 /\
  Qabs (csv_p99_ms (csv_row last_ok framework e p s) - p99_ms s)
    <= 1 # 200 /\
  Qabs (csv_err_pct (csv_row last_ok framework e p s) - err_pct s)
    <= 1 # 20000.
Proof.
  cbn [csv_row csv_target_rps csv_req_count csv_rps_real csv_p50_ms
       csv_p95_ms csv_p99_ms csv_err_pct].
  repeat split;
    first [ apply py_round_abs, half_ulp_1
          | apply py_round_abs, half_ulp_2
          | apply py_round_abs, half_ulp_4 ].
Qed.








End FindSaturationExtFacts.

(** ** More facts about analyze-results.py *)

Module AnalyzeResultsExtFacts.

Import AnalyzeResults AnalyzeResultsSpec AnalyzeResultsExt AnalyzeResultsFacts.

Local Open Scope R_scope.

(** *** Medians: range and order independence *)

Lemma insert_asc_perm (x : R) (l : list R) :
  Permutation (insert_asc x l) (x :: l).
Proof.
  induction l as [|y l IH]; simpl; [apply Permutation_refl|].
  destruct (Rle_dec x y); [apply Permutation_refl|].
  eapply Permutation_trans; [apply perm_skip, IH | apply perm_swap].
Qed.

Lemma sort_asc_perm (l : list R) : Permutation (sort_asc l) l.
Proof.
  induction l as [|x l IH]; simpl; [apply Permutation_refl|].
  eapply Permutation_trans; [apply insert_asc_perm | apply perm_skip, IH].
Qed.

Lemma insert_asc_comm (x y : R) (l : list R) :
  insert_asc x (insert_asc y l) = insert_asc y (insert_asc x l).
Proof.
  induction l as [|z l IH]; simpl.
  - destruct (Rle_dec x y), (Rle_dec y x); try reflexivity.
    + assert (x = y) by lra. subst. reflexivity.
    + lra.
  - destruct (Rle_dec y z), (Rle_dec x z); simpl;
      destruct (Rle_dec x y), (Rle_dec y x); simpl;
      repeat match goal with
             | |- context [Rle_dec ?a ?b] => destruct (Rle_dec a b)
             end;
      try reflexivity; try lra;
      try (assert (x = y) by lra; subst; reflexivity);
      try (rewrite IH; reflexivity).
Qed.

Lemma sort_asc_order (l l' : list R) :
  Permutation l l' -> sort_asc l = sort_asc l'.
Proof.
  induction 1 as [|x l l' _ IH|x y l|l l' l'' _ IH1 _ IH2]; simpl.
  - reflexivity.
  - rewrite IH. reflexivity.
  - apply insert_asc_comm.
  - congruence.
Qed.

Lemma median_order (l l' : list R) :
  Permutation l l' -> median l = median l'.
Proof.
  intros H. unfold median. rewrite (sort_asc_order l l' H). reflexivity.
Qed.

Lemma fold_plus_order (l l' : list R) :
  Permutation l l' ->
  forall a, fold_left Rplus l a = fold_left Rplus l' a.
Proof.
  induction 1 as [|x l l' _ IH|x y l|l l' l'' _ IH1 _ IH2]; intros a; simpl.
  - reflexivity.
  - apply IH.
  - f_equal. ring.
  - rewrite IH1. apply IH2.
Qed.

Lemma rsum_order (l l' : list R) : Permutation l l' -> rsum l = rsum l'.
Proof. intros H. apply fold_plus_order. exact H. Qed.

Lemma mean_order (l l' : list R) : Permutation l l' -> mean l = mean l'.
Proof.
  intros H. unfold mean.
  rewrite (rsum_order l l' H), (Permutation_length H). reflexivity.
Qed.

Lemma sum_sq_dev_order (l l' : list R) :
  Permutation l l' -> sum_sq_dev l = sum_sq_dev l'.
Proof.
  intros H. unfold sum_sq_dev. rewrite (mean_order l l' H).
  apply rsum_order. apply Permutation_map. exact H.
Qed.

Lemma stdev_or_zero_order (l l' : list R) :
  Permutation l l' -> stdev_or_zero l = stdev_or_zero l'.
Proof.
  intros H. unfold stdev_or_zero, stdev.
  rewrite (sum_sq_dev_order l l' H), (Permutation_length H). reflexivity.
Qed.

(** X16.  The median of a non-empty list lies within the range of its
  values; an empty list raises [StatisticsError]. *)
Theorem median_range (l : list R) (lo hi : R) :
  (forall y, In y l -> lo <= y <= hi) ->
  (l = [] -> median l = Py.Raise Py.StatisticsError) /\
  (l <> [] -> exists x, median l = Py.Ok x /\ lo <= x <= hi).
Proof.
  intros Hrange. split; [intros ->; reflexivity|].
  intros Hne. unfold median.
  assert (Hlen : length (sort_asc l) = length l) by apply sort_asc_length.
  assert (Hin : forall i, (i < length l)%nat ->
            lo <= nth i (sort_asc l) 0 <= hi).
  { intros i Hi. apply Hrange.
    apply (Permutation_in _ (sort_asc_perm l)).
    apply nth_In. lia. }
  rewrite Hlen. destruct l as [|y l]; [congruence|].
  set (n := length (y :: l)) in *.
  assert (Hn : (0 < n)%nat) by (unfold n; simpl; lia).
  assert (Hhalf : (n / 2 < n)%nat) by (apply Nat.div_lt; lia).
  cbn [length] in n. change (S (length l)) with n.
  destruct (Nat.odd n).
  - eexists. split; [reflexivity|]. apply Hin. exact Hhalf.
  - eexists. split; [reflexivity|].
    pose proof (Hin (n / 2)%nat Hhalf).
    pose proof (Hin (n / 2 - 1)%nat ltac:(lia)). lra.
Qed.

Lemma median_range_witness :
  (forall y, In y [3; 1; 4; 1] -> 1 <= y <= 4) /\
  exists x, median [3; 1; 4; 1] = Py.Ok x /\ 1 <= x <= 4.
Proof.
  assert (H : forall y, In y [3; 1; 4; 1] -> 1 <= y <= 4).
  { intros y Hy. simpl in Hy.
    destruct Hy as [<- | [<- | [<- | [<- | []]]]]; lra. }
  split; [exact H|].
  apply (proj2 (median_range [3; 1; 4; 1] 1 4 H)). discriminate.
Defined.

(** *** The order of the runs *)

(** X17.  The figures of a variant do not depend on the order of its runs. *)
Theorem variant_metrics_order (runs runs' : list Run.t) (b : R)
  (m : VariantMetrics) :
  Permutation runs runs' ->
  variant_metrics runs b = Py.Ok m ->
  exists m', variant_metrics runs' b = Py.Ok m' /\ same_figures m m'.
Proof.
  intros Hp. unfold variant_metrics.
  rewrite <- (median_order _ _ (Permutation_map Run.rps Hp)).
  rewrite <- (median_order _ _ (Permutation_map Run.p50_ms Hp)).
  rewrite <- (median_order _ _ (Permutation_map Run.p95_ms Hp)).
  rewrite <- (median_order _ _ (Permutation_map Run.p99_ms Hp)).
  rewrite <- (median_order _ _ (Permutation_map Run.power_watts Hp)).
  rewrite <- (median_order _ _ (Permutation_map Run.cpu_pct Hp)).
  rewrite <- (median_order _ _ (Permutation_map Run.mem_mb Hp)).
  rewrite <- (median_order _ _ (Permutation_map Run.error_rate Hp)).
  rewrite <- (stdev_or_zero_order _ _ (Permutation_map Run.rps Hp)).
  rewrite <- (stdev_or_zero_order _ _ (Permutation_map Run.power_watts Hp)).
  rewrite <- (Permutation_length Hp).
  destruct (median (map Run.rps runs)); [|discriminate].
  destruct (median (map Run.p50_ms runs)); [|discriminate].
  destruct (median (map Run.p95_ms runs)); [|discriminate].
  destruct (median (map Run.p99_ms runs)); [|discriminate].
  destruct (median (map Run.power_watts runs)) as [pw|]; [|discriminate].
  destruct (median (map Run.cpu_pct runs)); [|discriminate].
  destruct (median (map Run.mem_mb runs)); [|discriminate].
  destruct (median (map Run.error_rate runs)); [|discriminate].
  destruct (stdev_or_zero (map Run.rps runs)); [|discriminate].
  destruct (stdev_or_zero (map Run.power_watts runs)); [|discriminate].
  cbn [Py.bind]. intros H. injection H as <-.
  eexists. split; [reflexivity|].
  unfold same_figures. cbn.
  repeat split; apply Permutation_map; exact Hp.
Qed.

Lemma variant_metrics_order_witness :
  exists m m',
    variant_metrics
      [Run.mk 1 1 5 8 9 0 0 0 10 50 120; Run.mk 2 3 5 8 9 0 0 0 10 50 120] 0
      = Py.Ok m /\
    variant_metrics
      [Run.mk 2 3 5 8 9 0 0 0 10 50 120; Run.mk 1 1 5 8 9 0 0 0 10 50 120] 0
      = Py.Ok m' /\
    same_figures m m'.
Proof.
  destruct (variant_metrics_ok
              [Run.mk 1 1 5 8 9 0 0 0 10 50 120;
               Run.mk 2 3 5 8 9 0 0 0 10 50 120] 0) as [m Hm];
    [discriminate|].
  destruct (variant_metrics_order _
              [Run.mk 2 3 5 8 9 0 0 0 10 50 120;
               Run.mk 1 1 5 8 9 0 0 0 10 50 120] 0 m
              (perm_swap _ _ []) Hm) as [m' [Hm' Hsame]].
  exists m, m'. auto.
Defined.

(** *** The keys of the result *)

Lemma dict_set_keys {V} (d : list (string * V)) (k : string) (v : V) :
  map fst (dict_set d k v) =
  match dict_get d k with
  | Some _ => map fst d
  | None => map fst d ++ [k]
  end.
Proof.
  induction d as [|[k0 v0] d IH]; simpl; [reflexivity|].
  destruct (String.eqb k k0) eqn:E; simpl; [reflexivity|].
  rewrite IH. destruct (dict_get d k); reflexivity.
Qed.

Lemma dict_get_none {V} (d : list (string * V)) (k : string) :
  ~ In k (map fst d) -> dict_get d k = None.
Proof.
  induction d as [|[k0 v0] d IH]; simpl; [reflexivity|].
  intros H. destruct (String.eqb k k0) eqn:E.
  - apply String.eqb_eq in E. subst. tauto.
  - apply IH. tauto.
Qed.

Lemma dict_get_some {V} (d : list (string * V)) (k : string) :
  In k (map fst d) -> exists v, dict_get d k = Some v.
Proof.
  induction d as [|[k0 v0] d IH]; simpl; [tauto|].
  intros H. destruct (String.eqb k k0) eqn:E; [eauto|].
  apply IH. destruct H as [H|H]; [|exact H].
  subst. rewrite String.eqb_refl in E. discriminate.
Qed.

Lemma dict_get_in {V} (d : list (string * V)) (k : string) (v : V) :
  List.NoDup (map fst d) -> In (k, v) d -> dict_get d k = Some v.
Proof.
  induction d as [|[k0 v0] d IH]; simpl; [tauto|].
  intros Hnd [H|H].
  - injection H as -> ->. rewrite String.eqb_refl. reflexivity.
  - inversion Hnd as [|? ? Hnotin Hnd']; subst.
    destruct (String.eqb k k0) eqn:E.
    + apply String.eqb_eq in E. subst. exfalso. apply Hnotin.
      apply (in_map fst) in H. exact H.
    + apply IH; assumption.
Qed.

(** With distinct names, the loop appends the names in order and stores
  under each name the figures of its runs. *)
Lemma compute_loop_keys (items : list (string * list Run.t)) (b : R) :
  forall metrics0 metrics,
    List.NoDup (map fst metrics0 ++ map fst items) ->
    compute_loop items b metrics0 = Py.Ok metrics ->
    map fst metrics = map fst metrics0 ++ map fst items /\
    (forall fw, In fw (map fst metrics0) ->
       dict_get metrics fw = dict_get metrics0 fw) /\
    (forall fw runs, In (fw, runs) items ->
       exists m, dict_get metrics fw = Some m /\
                 variant_metrics runs b = Py.Ok m).
Proof.
  induction items as [|[fw0 runs0] items IH]; intros metrics0 metrics Hnd Hl.
  - injection Hl as <-. simpl. rewrite List.app_nil_r.
    split; [reflexivity|]. split; [reflexivity | contradiction].
  - cbn [compute_loop] in Hl.
    destruct (variant_metrics runs0 b) as [m0|] eqn:Hm0; [|discriminate].
    cbn [Py.bind] in Hl.
    assert (Hnotin : ~ In fw0 (map fst metrics0)).
    { intros Hin. cbn [map fst] in Hnd.
      apply NoDup_remove_2 in Hnd. apply Hnd.
      apply in_or_app. left. exact Hin. }
    assert (Hkeys : map fst (dict_set metrics0 fw0 m0) =
                    map fst metrics0 ++ [fw0]).
    { rewrite dict_set_keys, (dict_get_none _ _ Hnotin). reflexivity. }
    assert (Hnd' : List.NoDup
                     (map fst (dict_set metrics0 fw0 m0) ++ map fst items)).
    { rewrite Hkeys, <- List.app_assoc. exact Hnd. }
    destruct (IH _ _ Hnd' Hl) as (Hk & Hold & Hnew).
    split; [|split].
    + rewrite Hk, Hkeys, <- List.app_assoc. reflexivity.
    + intros fw Hin. rewrite Hold.
      * rewrite dict_get_set.
        destruct (String.eqb fw fw0) eqn:E; [|reflexivity].
        apply String.eqb_eq in E. subst. contradiction.
      * rewrite Hkeys. apply in_or_app. left. exact Hin.
    + intros fw runs [Hin|Hin].
      * injection Hin as <- <-. exists m0. split; [|exact Hm0].
        rewrite Hold.
        -- rewrite dict_get_set, String.eqb_refl. reflexivity.
        -- rewrite Hkeys. apply in_or_app. right. left. reflexivity.
      * apply Hnew. exact Hin.
Qed.

Lemma compute_loop_ok (items : list (string * list Run.t)) (b : R) :
  Forall (fun p => snd p <> []) items ->
  forall metrics0, exists metrics,
    compute_loop items b metrics0 = Py.Ok metrics.
Proof.
  induction 1 as [|[fw runs] items Hne _ IH]; intros metrics0.
  - eexists. reflexivity.
  - cbn [compute_loop]. destruct (variant_metrics_ok runs b Hne) as [m ->].
    cbn [Py.bind]. apply IH.
Qed.

Lemma variant_metrics_raises (runs : list Run.t) (b : R) (e : Py.exn) :
  variant_metrics runs b = Py.Raise e -> runs = [] /\ e = Py.StatisticsError.
Proof.
  destruct runs as [|r runs].
  - cbn. intros H. injection H as <-. auto.
  - destruct (variant_metrics_ok (r :: runs) b) as [m ->]; discriminate.
Qed.

Lemma compute_loop_raises (items : list (string * list Run.t)) (b : R)
  (e : Py.exn) :
  forall metrics0,
    compute_loop items b metrics0 = Py.Raise e ->
    e = Py.StatisticsError /\ Exists (fun p => snd p = []) items.
Proof.
  induction items as [|[fw runs] items IH]; intros metrics0 H.
  - discriminate.
  - cbn [compute_loop] in H.
    destruct (variant_metrics runs b) as [m|e'] eqn:Hm; cbn [Py.bind] in H.
    + destruct (IH _ H) as [He Hex]. split; [exact He|].
      apply Exists_cons_tl. exact Hex.
    + injection H as <-.
      destruct (variant_metrics_raises runs b e' Hm) as [-> ->].
      split; [reflexivity|]. apply Exists_cons_hd. reflexivity.
Qed.

(** X18.  [compute_metrics] returns a result exactly when every variant has
  at least one run; its only error is [StatisticsError], raised for a
  variant without runs.  The result lists the variants under their names,
  in the order of the input, each with the figures of its own runs. *)
Theorem compute_metrics_total (data : list (string * list Run.t)) (b : R) :
  List.NoDup (map fst data) ->
  (Forall (fun p => snd p <> []) data ->
   exists metrics,
     compute_metrics data b = Py.Ok metrics /\
     map fst metrics = map fst data /\
     (forall fw runs, In (fw, runs) data ->
        exists m, dict_get metrics fw = Some m /\
                  variant_metrics runs b = Py.Ok m)) /\
  (Exists (fun p => snd p = []) data ->
   compute_metrics data b = Py.Raise Py.StatisticsError) /\
  (forall e, compute_metrics data b = Py.Raise e -> e = Py.StatisticsError).
Proof.
  intros Hnd. unfold compute_metrics. split; [|split].
  - intros Hall. destruct (compute_loop_ok data b Hall []) as [metrics Hm].
    exists metrics. split; [exact Hm|].
    destruct (compute_loop_keys data b [] metrics Hnd Hm) as (Hk & _ & Hnew).
    split; [exact Hk | exact Hnew].
  - intros Hex. destruct (compute_loop data b []) as [metrics|e] eqn:Hm.
    + exfalso. apply List.Exists_exists in Hex. destruct Hex as ([fw runs] & Hin & He).
      simpl in He. subst runs.
      destruct (compute_loop_keys data b [] metrics Hnd Hm) as (_ & _ & Hnew).
      destruct (Hnew fw [] Hin) as (m & _ & Hv). discriminate.
    + destruct (compute_loop_raises data b e [] Hm) as [-> _]. reflexivity.
  - intros e He. apply (compute_loop_raises data b e [] He).
Qed.

Lemma compute_metrics_total_witness :
  List.NoDup (map fst three_variants) /\
  exists metrics,
    compute_metrics three_variants 0 = Py.Ok metrics /\
    map fst metrics = map fst three_variants.
Proof.
  assert (Hnd : List.NoDup (map fst three_variants)).
  { repeat constructor; simpl; intuition discriminate. }
  split; [exact Hnd|].
  destruct (compute_metrics_total three_variants 0 Hnd) as [Hok _].
  destruct Hok as (metrics & Hm & Hk & _).
  - repeat constructor; discriminate.
  - exists metrics. auto.
Defined.

(** *** The floor under net power *)

(** X19.  Net power never falls below 0.001 W, so throughput per watt is at
  most a thousand times the median throughput; it is exactly that when
  the measured median power is nonzero and does not exceed the baseline
  by more than 0.001 W. *)
Theorem net_power_floor (data : list (string * list Run.t)) (b : R)
  (metrics : list (string * VariantMetrics)) (fw : string)
  (m : VariantMetrics) :
  compute_metrics data b = Py.Ok metrics ->
  dict_get metrics fw = Some m ->
  0.001 <= net_power_w m /\
  (0 <= rps_median m -> 0 <= rps_per_watt m <= 1000 * rps_median m) /\
  (power_watts m <> 0 -> power_watts m - b <= 0.001 ->
   net_power_w m = 0.001 /\ rps_per_watt m = 1000 * rps_median m).
Proof.
  intros Hc Hget.
  destruct (compute_metrics_get data b metrics fw m Hc Hget)
    as (runs & Hin & Hm).
  destruct (variant_metrics_inv runs b m Hm)
    as (_ & _ & _ & _ & _ & _ & _ & _ & Hnet & _ & Hw & _ & _).
  assert (Hfloor : 0.001 <= net_power_w m).
  { rewrite Hnet. destruct (Req_dec_T (power_watts m) 0); apply Rmax_r. }
  split; [exact Hfloor|]. split.
  - intros Hpos. rewrite Hw.
    assert (Hinv : 0 < / net_power_w m) by (apply Rinv_0_lt_compat; lra).
    assert (Hle : / net_power_w m <= 1000).
    { replace 1000 with (/ 0.001) by lra.
      apply Rinv_le_contravar; lra. }
    unfold Rdiv. split.
    + apply Rmult_le_pos; lra.
    + rewrite (Rmult_comm 1000). apply Rmult_le_compat_l; lra.
  - intros Hnz Hle. assert (E : net_power_w m = 0.001).
    { rewrite Hnet. destruct (Req_dec_T (power_watts m) 0); [contradiction|].
      apply Rmax_right. exact Hle. }
    split; [exact E|]. rewrite Hw, E. lra.
Qed.

Lemma net_power_floor_witness :
  exists metrics m,
    compute_metrics one_variant 0 = Py.Ok metrics /\
    dict_get metrics "express" = Some m /\
    0.001 <= net_power_w m /\
    (0 <= rps_median m -> 0 <= rps_per_watt m <= 1000 * rps_median m) /\
    (power_watts m <> 0 -> power_watts m - 0 <= 0.001 ->
     net_power_w m = 0.001 /\ rps_per_watt m = 1000 * rps_median m).
Proof.
  eexists. eexists. split; [reflexivity|]. split; [reflexivity|].
  apply (net_power_floor one_variant 0 _ "express" _ eq_refl eq_refl).
Defined.

(** *** Rankings *)

Lemma insert_desc_perm {A} (key : A -> R) (x : A) (l : list A) :
  Permutation (insert_desc key x l) (x :: l).
Proof.
  induction l as [|y l IH]; simpl; [apply Permutation_refl|].
  destruct (Rle_dec (key y) (key x)); [apply Permutation_refl|].
  eapply Permutation_trans; [apply perm_skip, IH | apply perm_swap].
Qed.

Lemma sort_desc_perm {A} (key : A -> R) (l : list A) :
  Permutation (sort_desc key l) l.
Proof.
  induction l as [|x l IH]; simpl; [apply Permutation_refl|].
  eapply Permutation_trans; [apply insert_desc_perm | apply perm_skip, IH].
Qed.

Lemma insert_desc_sorted {A} (key : A -> R) (x : A) (l : list A) :
  StronglySorted (fun a b => key b <= key a) l ->
  StronglySorted (fun a b => key b <= key a) (insert_desc key x l).
Proof.
  induction 1 as [|y l Hs IH Hall]; simpl.
  - constructor; constructor.
  - destruct (Rle_dec (key y) (key x)) as [Hle|Hgt].
    + constructor; [constructor; assumption|].
      constructor; [exact Hle|].
      eapply List.Forall_impl; [|exact Hall]. intros z Hz. simpl in Hz. lra.
    + constructor; [exact IH|].
      apply (Permutation_Forall (Permutation_sym (insert_desc_perm key x l))).
      constructor; [lra | exact Hall].
Qed.

Lemma sort_desc_sorted {A} (key : A -> R) (l : list A) :
  StronglySorted (fun a b => key b <= key a) (sort_desc key l).
Proof.
  induction l as [|x l IH]; simpl; [constructor|].
  apply insert_desc_sorted. exact IH.
Qed.

(** X20.  A ranking lists every variant exactly once, from the highest value
  of the key to the lowest. *)
Theorem rank_descending (metrics : list (string * VariantMetrics))
  (key : VariantMetrics -> R) :
  Permutation (rank metrics key) (map fst metrics) /\
  StronglySorted
    (fun a b => metric_of metrics key b <= metric_of metrics key a)
    (rank metrics key).
Proof.
  unfold rank. split; [apply sort_desc_perm | apply sort_desc_sorted].
Qed.

Lemma insert_desc_tied {A} (key : A -> R) (v : R) (x : A) (l : list A) :
  List.filter (tied key v) (insert_desc key x l) =
  List.filter (tied key v) (x :: l).
Proof.
  induction l as [|y l IH]; [reflexivity|].
  cbn [insert_desc]. destruct (Rle_dec (key y) (key x)) as [Hle|Hgt];
    [reflexivity|].
  cbn [List.filter] in *. rewrite IH.
  unfold tied. destruct (Req_dec_T (key x) v), (Req_dec_T (key y) v);
    try reflexivity.
  exfalso. lra.
Qed.

(** X21.  Variants with equal values of the key keep, in a ranking, the order
  they have in [metrics]. *)
Theorem rank_ties_keep_order (metrics : list (string * VariantMetrics))
  (key : VariantMetrics -> R) (v : R) :
  List.filter (tied (metric_of metrics key) v) (rank metrics key) =
  List.filter (tied (metric_of metrics key) v) (map fst metrics).
Proof.
  unfold rank. induction (map fst metrics) as [|x l IH]; [reflexivity|].
  cbn [sort_desc]. rewrite insert_desc_tied.
  cbn [List.filter]. rewrite IH. reflexivity.
Qed.

(** *** Rankings of variants under the same load *)

Lemma insert_desc_ext {A} (key key' : A -> R) (x : A) (l : list A) :
  (forall y, In y l -> key y <= key x <-> key' y <= key' x) ->
  insert_desc key x l = insert_desc key' x l.
Proof.
  induction l as [|y l IH]; intros H; [reflexivity|].
  cbn [insert_desc].
  pose proof (H y (or_introl eq_refl)) as Hy.
  destruct (Rle_dec (key y) (key x)), (Rle_dec (key' y) (key' x));
    try tauto; try reflexivity.
  rewrite IH; [reflexivity|]. intros z Hz. apply H. right. exact Hz.
Qed.

Lemma sort_desc_ext {A} (key key' : A -> R) (l : list A) :
  (forall x y, In x l -> In y l -> key y <= key x <-> key' y <= key' x) ->
  sort_desc key l = sort_desc key' l.
Proof.
  induction l as [|x l IH]; intros H; [reflexivity|].
  cbn [sort_desc]. rewrite <- IH.
  - apply insert_desc_ext. intros y Hy. apply H; [left; reflexivity|].
    right. apply (Permutation_in _ (sort_desc_perm key l)). exact Hy.
  - intros a c Ha Hc. apply H; right; assumption.
Qed.

(** X22.  When every variant has the same median power and the same median
  CPU load, both efficiency rankings equal the throughput ranking, and the
  report does not confirm the hypothesis. *)
Theorem same_load_same_rankings (data : list (string * list Run.t)) (b : R)
  (metrics : list (string * VariantMetrics)) (p c : R) :
  compute_metrics data b = Py.Ok metrics ->
  (forall fw m, dict_get metrics fw = Some m ->
     power_watts m = p /\ cpu_pct m = c) ->
  rank metrics rps_per_watt = rank metrics rps_median /\
  rank metrics rps_per_usd = rank metrics rps_median /\
  hypothesis_confirmed metrics = false.
Proof.
  intros Hc Hsame.
  set (w := if Req_dec_T p 0 then Rmax (c * 0.01 * 1.0) 0.001
            else Rmax (p - b) 0.001).
  assert (Hw : 0.001 <= w)
    by (unfold w; destruct (Req_dec_T p 0); apply Rmax_r).
  set (g := if Rlt_dec 0 c then 100.0 / c else 1).
  assert (Hg : 0 < g).
  { unfold g. destruct (Rlt_dec 0 c); [|lra].
    apply Rdiv_lt_0_compat; lra. }
  assert (Hfig : forall fw, In fw (map fst metrics) ->
            metric_of metrics rps_per_watt fw =
              metric_of metrics rps_median fw / w /\
            metric_of metrics rps_per_usd fw =
              metric_of metrics rps_median fw * g
              / AWS_T3_MEDIUM_USD_PER_HOUR).
  { intros fw Hin. destruct (dict_get_some metrics fw Hin) as [m Hget].
    unfold metric_of. rewrite Hget.
    destruct (Hsame fw m Hget) as [Hp Hcpu].
    destruct (compute_metrics_get data b metrics fw m Hc Hget)
      as (runs & _ & Hm).
    destruct (variant_metrics_inv runs b m Hm)
      as (_ & _ & _ & _ & _ & _ & _ & _ & Hnet & _ & Hpw & Hex & Hu).
    rewrite Hp, Hcpu in Hnet. rewrite Hcpu in Hex.
    split.
    - rewrite Hpw, Hnet. reflexivity.
    - rewrite Hu, Hex. unfold g. destruct (Rlt_dec 0 c); f_equal; lra. }
  assert (Hwatt : rank metrics rps_per_watt = rank metrics rps_median).
  { unfold rank. apply sort_desc_ext. intros x y Hx Hy.
    rewrite (proj1 (Hfig x Hx)), (proj1 (Hfig y Hy)).
    assert (Hinv : 0 < / w) by (apply Rinv_0_lt_compat; lra).
    unfold Rdiv. split; intros H.
    - apply (Rmult_le_reg_r (/ w)); assumption.
    - apply Rmult_le_compat_r; lra. }
  assert (Husd : rank metrics rps_per_usd = rank metrics rps_median).
  { unfold rank. apply sort_desc_ext. intros x y Hx Hy.
    rewrite (proj2 (Hfig x Hx)), (proj2 (Hfig y Hy)).
    unfold AWS_T3_MEDIUM_USD_PER_HOUR.
    assert (Hk : 0 < g / 0.0416) by (apply Rdiv_lt_0_compat; lra).
    replace (metric_of metrics rps_median y * g / 0.0416)
      with (metric_of metrics rps_median y * (g / 0.0416))
      by (unfold Rdiv; ring).
    replace (metric_of metrics rps_median x * g / 0.0416)
      with (metric_of metrics rps_median x * (g / 0.0416))
      by (unfold Rdiv; ring).
    split; intros H.
    - apply (Rmult_le_reg_r (g / 0.0416)); assumption.
    - apply Rmult_le_compat_r; lra. }
  split; [exact Hwatt|]. split; [exact Husd|].
  unfold hypothesis_confirmed. cbv zeta. rewrite Hwatt, Husd.
  apply orb_false_iff. split; apply bool_decide_eq_false; tauto.
Qed.

Lemma same_load_metrics :
  exists ma mb,
    compute_metrics same_load 0 =
      Py.Ok [("express"%string, ma); ("gin"%string, mb)] /\
    power_watts ma = 10 /\ cpu_pct ma = 50 /\
    power_watts mb = 10 /\ cpu_pct mb = 50 /\
    rps_median ma = 100 /\ rps_median mb = 300.
Proof.
  eexists. eexists. split; [reflexivity|]. repeat split; reflexivity.
Qed.

Lemma same_load_same_rankings_witness :
  exists metrics,
    compute_metrics same_load 0 = Py.Ok metrics /\
    (forall fw m, dict_get metrics fw = Some m ->
       power_watts m = 10 /\ cpu_pct m = 50) /\
    rank metrics rps_per_watt = rank metrics rps_median /\
    rank metrics rps_per_usd = rank metrics rps_median /\
    hypothesis_confirmed metrics = false.
Proof.
  destruct same_load_metrics as (ma & mb & Hc & Hpa & Hca & Hpb & Hcb & _).
  assert (Hsame : forall fw m,
            dict_get [("express"%string, ma); ("gin"%string, mb)] fw = Some m ->
            power_watts m = 10 /\ cpu_pct m = 50).
  { intros fw m Hget. cbn [dict_get] in Hget.
    destruct (String.eqb fw "express");
      [injection Hget as <-; split; assumption|].
    destruct (String.eqb fw "gin");
      [injection Hget as <-; split; assumption | discriminate]. }
  exists [("express"%string, ma); ("gin"%string, mb)].
  split; [exact Hc|]. split; [exact Hsame|].
  exact (same_load_same_rankings same_load 0 _ 10 50 Hc Hsame).
Defined.

(** *** Reading the summary *)

Lemma seen_In (k : option string) (seen : list (option string)) :
  existsb (fun k' => bool_decide (k = k')) seen = true <-> In k seen.
Proof.
  rewrite existsb_exists. split.
  - intros (k' & Hin & E). apply bool_decide_eq_true in E. subst. exact Hin.
  - intros Hin. exists k. split; [exact Hin|].
    apply bool_decide_eq_true. reflexivity.
Qed.

Lemma first_seen_snoc (l : list (option string)) (k : option string) :
  first_seen (l ++ [k]) =
  if existsb (fun k' => bool_decide (k = k')) (first_seen l)
  then first_seen l else first_seen l ++ [k].
Proof. unfold first_seen. rewrite fold_left_app. reflexivity. Qed.

Lemma first_seen_In (l : list (option string)) (k : option string) :
  In k (first_seen l) <-> In k l.
Proof.
  induction l as [|x l IH] using rev_ind; [reflexivity|].
  rewrite first_seen_snoc, in_app_iff.
  destruct (existsb (fun k' => bool_decide (x = k')) (first_seen l)) eqn:E.
  - apply seen_In in E. rewrite IH in *. simpl. intuition (subst; auto).
  - rewrite in_app_iff, IH. reflexivity.
Qed.

Lemma first_seen_NoDup (l : list (option string)) :
  List.NoDup (first_seen l).
Proof.
  induction l as [|x l IH] using rev_ind; [constructor|].
  rewrite first_seen_snoc.
  destruct (existsb (fun k' => bool_decide (x = k')) (first_seen l)) eqn:E;
    [exact IH|].
  apply List.NoDup_app; [exact IH | repeat constructor; simpl; tauto |].
  intros y Hy [<-|[]]. apply seen_In in Hy. congruence.
Qed.

Lemma runs_of_snoc (k fw : option string) (run : Run.t)
  (parsed : list (option string * Run.t)) :
  runs_of k (parsed ++ [(fw, run)]) =
  runs_of k parsed ++ (if bool_decide (fw = k) then [run] else []).
Proof.
  unfold runs_of. rewrite List.filter_app, map_app. cbn [List.filter fst].
  destruct (bool_decide (fw = k)); reflexivity.
Qed.

Lemma runs_of_absent (k : option string)
  (parsed : list (option string * Run.t)) :
  ~ In k (map fst parsed) -> runs_of k parsed = [].
Proof.
  unfold runs_of. induction parsed as [|[k0 r] parsed IH]; [reflexivity|].
  cbn [map fst List.filter]. intros H.
  destruct (bool_decide (k0 = k)) eqn:E.
  - apply bool_decide_eq_true in E. subst. exfalso. apply H. left. reflexivity.
  - apply IH. intros Hin. apply H. right. exact Hin.
Qed.

Lemma append_run_keys (data : list (option string * list Run.t))
  (fw : option string) (run : Run.t) :
  map fst (append_run data fw run) =
  if existsb (fun k' => bool_decide (fw = k')) (map fst data)
  then map fst data else map fst data ++ [fw].
Proof.
  induction data as [|[k runs] data IH]; [reflexivity|].
  cbn [append_run map fst existsb].
  destruct (bool_decide (fw = k)); [reflexivity|].
  cbn [orb map fst]. rewrite IH.
  destruct (existsb _ (map fst data)); reflexivity.
Qed.

Lemma append_run_In (data : list (option string * list Run.t))
  (fw : option string) (run : Run.t) (k : option string)
  (runs' : list Run.t) :
  List.NoDup (map fst data) ->
  In (k, runs') (append_run data fw run) ->
  (k <> fw /\ In (k, runs') data) \/
  (k = fw /\
   ((exists runs, In (fw, runs) data /\ runs' = runs ++ [run]) \/
    (~ In fw (map fst data) /\ runs' = [run]))).
Proof.
  induction data as [|[k0 runs0] data IH]; intros Hnd Hin.
  - destruct Hin as [E|[]]. injection E as <- <-.
    right. split; [reflexivity|]. right. split; [simpl; tauto | reflexivity].
  - cbn [append_run] in Hin. inversion Hnd as [|? ? Hnotin Hnd']; subst.
    destruct (bool_decide (fw = k0)) eqn:E.
    + apply bool_decide_eq_true in E. subst k0.
      destruct Hin as [E|Hin].
      * injection E as <- <-. right. split; [reflexivity|]. left.
        exists runs0. split; [left; reflexivity | reflexivity].
      * left. split; [|right; exact Hin].
        intros ->. apply Hnotin. apply (in_map fst) in Hin. exact Hin.
    + apply bool_decide_eq_false in E.
      destruct Hin as [E'|Hin].
      * injection E' as <- <-. left. split; [congruence | left; reflexivity].
      * destruct (IH Hnd' Hin) as [[Hne H]|[-> [(runs & H & ->)|[Hn ->]]]].
        -- left. split; [exact Hne | right; exact H].
        -- right. split; [reflexivity|]. left. exists runs.
           split; [right; exact H | reflexivity].
        -- right. split; [reflexivity|]. right. split; [|reflexivity].
           simpl. intros [->|H]; [congruence | contradiction].
Qed.

Section SummaryFacts.

Variable int_of_str : string -> option Z.
Variable float_of_str : string -> option R.

Lemma grouped_step (data : list (option string * list Run.t))
  (parsed : list (option string * Run.t)) (fw : option string)
  (run : Run.t) :
  grouped data parsed ->
  grouped (append_run data fw run) (parsed ++ [(fw, run)]).
Proof.
  intros [Hk Hr]. split.
  - rewrite append_run_keys, map_app. cbn [map fst].
    rewrite first_seen_snoc, Hk. reflexivity.
  - intros k runs' Hin.
    assert (Hnd : List.NoDup (map fst data))
      by (rewrite Hk; apply first_seen_NoDup).
    rewrite runs_of_snoc.
    destruct (append_run_In data fw run k runs' Hnd Hin)
      as [[Hne H]|[-> [(runs & H & ->)|[Hn ->]]]].
    + destruct (Hr k runs' H) as [Hnil ->]. split; [exact Hnil|].
      rewrite bool_decide_eq_false_2 by congruence.
      rewrite List.app_nil_r. reflexivity.
    + destruct (Hr fw runs H) as [_ ->].
      rewrite bool_decide_eq_true_2 by reflexivity.
      split; [|reflexivity]. intros E. apply app_eq_nil in E.
      destruct E as [_ E]. discriminate.
    + rewrite bool_decide_eq_true_2 by reflexivity.
      rewrite runs_of_absent; [split; [discriminate | reflexivity]|].
      rewrite Hk, first_seen_In in Hn. exact Hn.
Qed.

Lemma summary_rows_grouped (rows : list (gmap string (option string))) :
  forall data parsed0 result,
    grouped data parsed0 ->
    summary_rows int_of_str float_of_str data rows = Loaded result ->
    exists parsed,
      Forall2 (fun row p => load_run int_of_str float_of_str row = Loaded p)
        rows parsed /\
      grouped result (parsed0 ++ parsed).
Proof.
  induction rows as [|row rows IH]; intros data parsed0 result Hg Hl.
  - injection Hl as <-. exists []. split; [constructor|].
    rewrite List.app_nil_r. exact Hg.
  - cbn [summary_rows] in Hl.
    destruct (load_run int_of_str float_of_str row) as [[fw run]| |] eqn:Hrow;
      try discriminate.
    cbn [loaded_bind fst snd] in Hl.
    destruct (IH _ _ _ (grouped_step _ _ fw run Hg) Hl) as (parsed & Hf & Hres).
    exists ((fw, run) :: parsed). split; [constructor; assumption|].
    rewrite <- List.app_assoc in Hres. exact Hres.
Qed.

Lemma bind_no_exit {A B} (r : loaded A) (k : A -> loaded B) :
  (forall status, r <> SysExit status) ->
  (forall a status, k a <> SysExit status) ->
  forall status, loaded_bind r k <> SysExit status.
Proof.
  intros Hr Hk status. destruct r as [a|e|st]; cbn [loaded_bind].
  - apply Hk.
  - discriminate.
  - exfalso. exact (Hr st eq_refl).
Qed.

Lemma item_no_exit (row : gmap string (option string)) (k : string)
  (status : Z) : item row k <> SysExit status.
Proof. unfold item. destruct (row !! k); discriminate. Qed.

Lemma convert_no_exit {A} (of_str : string -> option A) (v : option string)
  (status : Z) : convert of_str v <> SysExit status.
Proof.
  unfold convert. destruct v as [s|]; [|discriminate].
  destruct (of_str s); discriminate.
Qed.

Lemma load_run_no_exit (row : gmap string (option string)) (status : Z) :
  load_run int_of_str float_of_str row <> SysExit status.
Proof.
  revert status. unfold load_run, int_item, float_item.
  repeat (apply bind_no_exit;
          [first [ apply item_no_exit
                 | apply bind_no_exit;
                   [apply item_no_exit | intros ?; apply convert_no_exit] ]
          | intros ?]).
  discriminate.
Qed.

Lemma summary_rows_fails (rows : list (gmap string (option string))) :
  forall data,
    (forall status,
       summary_rows int_of_str float_of_str data rows <> SysExit status) /\
    (forall e,
       summary_rows int_of_str float_of_str data rows = Fails e ->
       exists row, In row rows /\
         load_run int_of_str float_of_str row = Fails e).
Proof.
  induction rows as [|row rows IH]; intros data.
  - split; [discriminate | discriminate].
  - cbn [summary_rows].
    destruct (load_run int_of_str float_of_str row) as [p|e0|st] eqn:Hrow;
      cbn [loaded_bind].
    + destruct (IH (append_run data (fst p) (snd p))) as [H1 H2].
      split; [exact H1|]. intros e He.
      destruct (H2 e He) as (r & Hin & Hr). exists r.
      split; [right; exact Hin | exact Hr].
    + split; [discriminate|]. intros e He. injection He as <-.
      exists row. split; [left; reflexivity | exact Hrow].
    + exfalso. exact (load_run_no_exit row st Hrow).
Qed.

(** X23.  When [load_summary] returns, every line of the file was read; the
  result has one entry per name, in the order the names first appear,
  and each entry holds, in file order, the runs of the lines with that
  name: no entry is empty.  A missing file ends the program with status
  1; otherwise the only failures are those of a line. *)
Theorem load_summary_groups
  (file : option (list (gmap string (option string)))) :
  (file = None -> load_summary int_of_str float_of_str file = SysExit 1) /\
  (forall rows data,
     file = Some rows ->
     load_summary int_of_str float_of_str file = Loaded data ->
     exists parsed,
       Forall2 (fun row p => load_run int_of_str float_of_str row = Loaded p)
         rows parsed /\
       map fst data = first_seen (map fst parsed) /\
       List.NoDup (map fst data) /\
       forall fw runs, In (fw, runs) data ->
         runs <> [] /\ runs = runs_of fw parsed) /\
  (forall rows e,
     file = Some rows ->
     load_summary int_of_str float_of_str file = Fails e ->
     exists row, In row rows /\
       load_run int_of_str float_of_str row = Fails e).
Proof.
  split; [intros ->; reflexivity|]. split.
  - intros rows data -> Hl. cbn [load_summary] in Hl.
    assert (Hg0 : grouped [] []) by (split; [reflexivity | contradiction]).
    destruct (summary_rows_grouped rows [] [] data Hg0 Hl)
      as (parsed & Hf & Hk & Hr).
    exists parsed. split; [exact Hf|]. split; [exact Hk|].
    split; [rewrite Hk; apply first_seen_NoDup | exact Hr].
  - intros rows e -> Hl. cbn [load_summary] in Hl.
    apply (proj2 (summary_rows_fails rows []) e Hl).
Qed.

End SummaryFacts.

(** *** Rounding *)

Lemma round_half_even_real_near (x : R) :
  Rabs (IZR (round_half_even_real x) - x) <= / 2.
Proof.
  unfold round_half_even_real.
  destruct (base_Int_part x) as [Hlo Hhi].
  set (f := Int_part x) in *.
  destruct (Rlt_dec (x - IZR f) (1 / 2)).
  - apply Rabs_le. lra.
  - destruct (Rlt_dec (1 / 2) (x - IZR f)).
    + rewrite plus_IZR. apply Rabs_le. lra.
    + destruct (Z.even f); [|rewrite plus_IZR]; apply Rabs_le; lra.
Qed.

Lemma py_round_real_near (x : R) (ndigits : nat) :
  rounded_to ndigits x (py_round_real x ndigits).
Proof.
  unfold rounded_to, py_round_real.
  assert (Hp : 0 < 10 ^ ndigits) by (apply pow_lt; lra).
  pose proof (round_half_even_real_near (x * 10 ^ ndigits)) as H.
  replace (IZR (round_half_even_real (x * 10 ^ ndigits)) / 10 ^ ndigits - x)
    with ((IZR (round_half_even_real (x * 10 ^ ndigits)) - x * 10 ^ ndigits)
          * / 10 ^ ndigits) by (field; lra).
  rewrite Rabs_mult, (Rabs_right (/ 10 ^ ndigits)).
  - apply Rmult_le_compat_r; [|exact H].
    apply Rlt_le, Rinv_0_lt_compat. exact Hp.
  - apply Rle_ge, Rlt_le, Rinv_0_lt_compat. exact Hp.
Qed.

(** *** Positions in a ranking *)

Lemma list_index_spec (l : list string) (x : string) :
  In x l ->
  exists i, list_index l x = Py.Ok i /\ nth_error l i = Some x /\
            (i < length l)%nat.
Proof.
  induction l as [|y l IH]; [contradiction|]. intros Hin.
  cbn [list_index]. destruct (String.eqb x y) eqn:E.
  - apply String.eqb_eq in E. subst. exists O.
    split; [reflexivity|]. split; [reflexivity | simpl; lia].
  - destruct IH as (i & Hi & Hn & Hlt).
    + destruct Hin as [->|Hin]; [|exact Hin].
      rewrite String.eqb_refl in E. discriminate.
    + exists (S i). rewrite Hi. split; [reflexivity|].
      split; [exact Hn | simpl; lia].
Qed.

Lemma list_index_inv (l : list string) (x : string) (i : nat) :
  list_index l x = Py.Ok i -> nth_error l i = Some x /\ (i < length l)%nat.
Proof.
  revert i. induction l as [|y l IH]; intros i; [discriminate|].
  cbn [list_index]. destruct (String.eqb x y) eqn:E.
  - intros H. injection H as <-. apply String.eqb_eq in E. subst.
    split; [reflexivity | simpl; lia].
  - destruct (list_index l x) as [j|]; [|discriminate].
    cbn [Py.bind]. intros H. injection H as <-.
    destruct (IH j eq_refl) as [Hn Hlt].
    split; [exact Hn | simpl; lia].
Qed.

Lemma strongly_sorted_nth_error {A} (R : A -> A -> Prop) (l : list A) :
  StronglySorted R l ->
  forall i j x y, (i < j)%nat ->
    nth_error l i = Some x -> nth_error l j = Some y -> R x y.
Proof.
  induction 1 as [|a l Hs IH Hall]; intros i j x y Hij Hi Hj.
  - destruct i; discriminate.
  - destruct j as [|j]; [lia|]. cbn [nth_error] in Hj.
    destruct i as [|i].
    + injection Hi as <-. apply nth_error_In in Hj.
      rewrite List.Forall_forall in Hall. apply Hall. exact Hj.
    + cbn [nth_error] in Hi. apply (IH i j); [lia | assumption..].
Qed.

Lemma rank_length (metrics : list (string * VariantMetrics))
  (key : VariantMetrics -> R) :
  length (rank metrics key) = length metrics.
Proof.
  unfold rank. rewrite (Permutation_length (sort_desc_perm _ _)).
  apply length_map.
Qed.

Lemma rank_In (metrics : list (string * VariantMetrics))
  (key : VariantMetrics -> R) (fw : string) (m : VariantMetrics) :
  dict_get metrics fw = Some m -> In fw (rank metrics key).
Proof.
  intros Hget. unfold rank.
  apply (Permutation_in _ (Permutation_sym (sort_desc_perm _ _))).
  induction metrics as [|[k v] metrics IH]; [discriminate|].
  cbn [dict_get] in Hget. cbn [map fst].
  destruct (String.eqb fw k) eqn:E.
  - apply String.eqb_eq in E. left. congruence.
  - right. apply IH. exact Hget.
Qed.

(** A higher value of the key gives an earlier position. *)
Lemma rank_position_order (metrics : list (string * VariantMetrics))
  (key : VariantMetrics -> R) (i j : nat) (x y : string) :
  nth_error (rank metrics key) i = Some x ->
  nth_error (rank metrics key) j = Some y ->
  metric_of metrics key y < metric_of metrics key x ->
  (i < j)%nat.
Proof.
  intros Hi Hj Hlt.
  destruct (Nat.lt_trichotomy i j) as [H|[H|H]]; [exact H | exfalso..].
  - subst j. rewrite Hi in Hj. injection Hj as ->. lra.
  - pose proof (strongly_sorted_nth_error _ _
                  (sort_desc_sorted (metric_of metrics key) (map fst metrics))
                  j i y x H Hj Hi) as Hle.
    simpl in Hle. lra.
Qed.

(** *** The rows of the final CSV *)

Lemma final_row_ok (metrics : list (string * VariantMetrics))
  (fw : string) (m : VariantMetrics) :
  dict_get metrics fw = Some m ->
  exists row,
    final_row (rank metrics rps_median) (rank metrics rps_per_watt)
      (rank metrics rps_per_usd) fw m = Py.Ok row /\
    out_framework row = fw /\ row_figures m row /\ row_ranks metrics row.
Proof.
  intros Hget. unfold final_row.
  destruct (list_index_spec _ fw (rank_In metrics rps_median fw m Hget))
    as (i1 & -> & Hn1 & Hl1).
  destruct (list_index_spec _ fw (rank_In metrics rps_per_watt fw m Hget))
    as (i2 & -> & Hn2 & Hl2).
  destruct (list_index_spec _ fw (rank_In metrics rps_per_usd fw m Hget))
    as (i3 & -> & Hn3 & Hl3).
  cbn [Py.bind]. eexists. split; [reflexivity|].
  split; [reflexivity|]. split.
  - unfold row_figures. cbn.
    repeat split; apply py_round_real_near.
  - unfold row_ranks. cbn.
    rewrite rank_length in Hl1, Hl2, Hl3.
    replace (i1 + 1 - 1)%nat with i1 by lia.
    replace (i2 + 1 - 1)%nat with i2 by lia.
    replace (i3 + 1 - 1)%nat with i3 by lia.
    repeat split; try assumption; lia.
Qed.

Lemma final_rows_ok (metrics : list (string * VariantMetrics))
  (fws : list string) :
  exists rows,
    final_rows metrics (rank metrics rps_median) (rank metrics rps_per_watt)
      (rank metrics rps_per_usd) fws = Py.Ok rows /\
    map out_framework rows = List.filter (has_data metrics) fws /\
    Forall (fun row =>
              exists m, dict_get metrics (out_framework row) = Some m /\
                        row_figures m row /\ row_ranks metrics row) rows.
Proof.
  induction fws as [|fw fws (rows & Hrows & Hnames & Hall)].
  - exists []. split; [reflexivity|]. split; [reflexivity | constructor].
  - cbn [final_rows List.filter]. unfold has_data at 1.
    destruct (dict_get metrics fw) as [m|] eqn:Hget.
    + destruct (final_row_ok metrics fw m Hget)
        as (row & -> & Hfw & Hfig & Hrk).
      cbn [Py.bind]. rewrite Hrows. cbn [Py.bind].
      exists (row :: rows). split; [reflexivity|]. split.
      * cbn [map]. rewrite Hfw, Hnames. reflexivity.
      * constructor; [|exact Hall]. exists m. rewrite Hfw. auto.
    + exists rows. auto.
Qed.

(** X24.  [write_final_csv] never fails looking up a rank.  It writes one
  row for each of the five known names that has data, in the order of
  [FRAMEWORKS], and none for any other name; every figure of a row is the
  variant's figure rounded to the digits of its column, and each rank
  column is the position of the name in the ranking, counted from 1 among
  all the variants of [metrics]. *)
Theorem write_final_csv_rows (metrics : list (string * VariantMetrics)) :
  exists rows,
    write_final_csv metrics = Py.Ok rows /\
    map out_framework rows = List.filter (has_data metrics) FRAMEWORKS /\
    Forall (fun row =>
              exists m, dict_get metrics (out_framework row) = Some m /\
                        row_figures m row /\ row_ranks metrics row) rows.
Proof. apply final_rows_ok. Qed.

(** X25.  In the final CSV, a variant with a strictly higher value of a
  ranking key has a strictly smaller rank number in that key's column, and
  two rows with the same rank number are rows of the same variant. *)
Theorem final_ranks_follow_keys (metrics : list (string * VariantMetrics))
  (rows : list FinalRow) (r r' : FinalRow) :
  write_final_csv metrics = Py.Ok rows ->
  In r rows -> In r' rows ->
  (metric_of metrics rps_median (out_framework r')
     < metric_of metrics rps_median (out_framework r) ->
   (out_rank_rps r < out_rank_rps r')%nat) /\
  (metric_of metrics rps_per_watt (out_framework r')
     < metric_of metrics rps_per_watt (out_framework r) ->
   (out_rank_rps_per_watt r < out_rank_rps_per_watt r')%nat) /\
  (metric_of metrics rps_per_usd (out_framework r')
     < metric_of metrics rps_per_usd (out_framework r) ->
   (out_rank_rps_per_usd r < out_rank_rps_per_usd r')%nat) /\
  (out_rank_rps r = out_rank_rps r' -> out_framework r = out_framework r').
Proof.
  intros Hw Hr Hr'.
  destruct (final_rows_ok metrics FRAMEWORKS) as (rows0 & Hw0 & _ & Hall).
  unfold write_final_csv in Hw. rewrite Hw in Hw0. injection Hw0 as <-.
  rewrite List.Forall_forall in Hall.
  destruct (Hall r Hr) as (m & _ & _ & Ha1 & Ha2 & Ha3 & Hb1 & Hb2 & Hb3).
  destruct (Hall r' Hr') as (m' & _ & _ & Hc1 & Hc2 & Hc3 & Hd1 & Hd2 & Hd3).
  repeat split.
  - intros Hlt.
    pose proof (rank_position_order metrics rps_median _ _ _ _ Ha1 Hc1 Hlt).
    lia.
  - intros Hlt.
    pose proof (rank_position_order metrics rps_per_watt _ _ _ _ Ha2 Hc2 Hlt).
    lia.
  - intros Hlt.
    pose proof (rank_position_order metrics rps_per_usd _ _ _ _ Ha3 Hc3 Hlt).
    lia.
  - intros E. rewrite E in Ha1. congruence.
Qed.

Lemma final_ranks_follow_keys_witness :
  exists metrics rows r r',
    write_final_csv metrics = Py.Ok rows /\
    In r rows /\ In r' rows /\
    out_framework r = "gin"%string /\ out_framework r' = "express"%string /\
    (out_rank_rps r < out_rank_rps r')%nat.
Proof.
  destruct same_load_metrics
    as (ma & mb & _ & _ & _ & _ & _ & Hra & Hrb).
  set (metrics := [("express"%string, ma); ("gin"%string, mb)]).
  destruct (final_rows_ok metrics FRAMEWORKS) as (rows & Hw & Hnames & _).
  cbn in Hnames.
  destruct rows as [|r' [|r [|? ?]]]; try discriminate Hnames.
  injection Hnames as Hn' Hn.
  exists metrics, [r'; r], r, r'.
  split; [exact Hw|]. split; [simpl; tauto|]. split; [simpl; tauto|].
  split; [exact Hn|]. split; [exact Hn'|].
  apply (final_ranks_follow_keys metrics [r'; r] r r' Hw);
    [simpl; tauto | simpl; tauto |].
  rewrite Hn, Hn'. unfold metric_of, metrics. cbn [dict_get String.eqb].
  cbn. rewrite Hra, Hrb. lra.
Defined.

(** *** The report *)

Lemma compute_metrics_first (fw0 : string) (runs0 : list Run.t)
  (rest : list (string * list Run.t)) (b : R)
  (metrics : list (string * VariantMetrics)) :
  List.NoDup (map fst ((fw0, runs0) :: rest)) ->
  compute_metrics ((fw0, runs0) :: rest) b = Py.Ok metrics ->
  exists m tail,
    metrics = (fw0, m) :: tail /\ variant_metrics runs0 b = Py.Ok m.
Proof.
  intros Hnd Hc.
  destruct (compute_loop_keys _ b [] metrics Hnd Hc) as (Hkeys & _ & Hnew).
  destruct (Hnew fw0 runs0 (or_introl eq_refl)) as (m & Hget & Hvm).
  destruct metrics as [|[k v] tail]; [discriminate|].
  cbn [map fst app] in Hkeys. injection Hkeys as -> _.
  cbn [dict_get] in Hget. rewrite String.eqb_refl in Hget.
  injection Hget as ->. exists m, tail. split; [reflexivity | exact Hvm].
Qed.

(** X26.  The note about missing RAPL readings in the report looks at one
  variant only, the first of the summary file: it is printed exactly when
  the median power of that variant's runs is 0, whatever the other
  variants measured.  On metrics with no variant at all, [format_table]
  raises IndexError. *)
Theorem format_table_rapl_note (data : list (string * list Run.t)) (b : R)
  (metrics : list (string * VariantMetrics)) :
  List.NoDup (map fst data) ->
  compute_metrics data b = Py.Ok metrics ->
  match data with
  | [] => format_table metrics = Py.Raise Py.IndexError
  | (_, runs0) :: _ =>
      exists t p,
        format_table metrics = Py.Ok t /\
        median (map Run.power_watts runs0) = Py.Ok p /\
        (table_rapl_note t = true <-> p = 0)
  end.
Proof.
  intros Hnd Hc. destruct data as [|[fw0 runs0] rest].
  - injection Hc as <-. reflexivity.
  - destruct (compute_metrics_first fw0 runs0 rest b metrics Hnd Hc)
      as (m & tail & -> & Hvm).
    destruct (variant_metrics_inv runs0 b m Hvm)
      as (_ & Hp & _ & _ & _ & _ & _ & _ & _ & Hrapl & _).
    eexists. exists (power_watts m). split; [reflexivity|].
    split; [exact Hp|]. cbn [table_rapl_note]. rewrite Hrapl.
    destruct (Req_dec_T (power_watts m) 0) as [E|E]; cbn [negb].
    + split; [intros _; exact E | reflexivity].
    + split; [discriminate | intros E'; contradiction].
Qed.

Lemma format_table_rapl_note_witness :
  exists metrics t p,
    List.NoDup (map fst same_load) /\
    compute_metrics same_load 0 = Py.Ok metrics /\
    format_table metrics = Py.Ok t /\
    median (map Run.power_watts
              (match same_load with [] => [] | (_, runs0) :: _ => runs0 end))
      = Py.Ok p /\
    (table_rapl_note t = true <-> p = 0).
Proof.
  destruct same_load_metrics as (ma & mb & Hc & _).
  assert (Hnd : List.NoDup (map fst same_load)).
  { cbn. repeat constructor; simpl; intuition discriminate. }
  pose proof (format_table_rapl_note same_load 0 _ Hnd Hc) as H.
  cbn [same_load] in H. destruct H as (t & p & Ht & Hp & Hiff).
  exists [("express"%string, ma); ("gin"%string, mb)], t, p.
  split; [exact Hnd|]. split; [exact Hc|]. split; [exact Ht|].
  split; [exact Hp | exact Hiff].
Defined.

Lemma line_of_figures (metrics : list (string * VariantMetrics))
  (fws : list string) (fw : string) (m : VariantMetrics) :
  In (Figures fw m) (map (line_of metrics) fws) <->
  In fw fws /\ dict_get metrics fw = Some m.
Proof.
  rewrite in_map_iff. unfold line_of. split.
  - intros (k & Hk & Hin). destruct (dict_get metrics k) eqn:E;
      [|discriminate]. injection Hk as -> ->. auto.
  - intros [Hin Hget]. exists fw. rewrite Hget. auto.
Qed.

Lemma line_of_no_data (metrics : list (string * VariantMetrics))
  (fws : list string) (fw : string) :
  In (NoData fw) (map (line_of metrics) fws) <->
  In fw fws /\ dict_get metrics fw = None.
Proof.
  rewrite in_map_iff. unfold line_of. split.
  - intros (k & Hk & Hin). destruct (dict_get metrics k) eqn:E;
      [discriminate|]. injection Hk as ->. auto.
  - intros [Hin Hget]. exists fw. rewrite Hget. auto.
Qed.

(** X27.  The body of the report has exactly one line for each of the five
  known names, with the variant's figures or the remark that there is no
  data, and no line for a variant of any other name; such a variant is
  still placed in each of the three rankings printed below the table. *)
Theorem format_table_lines (metrics : list (string * VariantMetrics)) :
  metrics <> [] ->
  exists t,
    format_table metrics = Py.Ok t /\
    length (table_lines t) = 5%nat /\
    (forall fw m, In (Figures fw m) (table_lines t) <->
                  In fw FRAMEWORKS /\ dict_get metrics fw = Some m) /\
    (forall fw, In (NoData fw) (table_lines t) <->
                In fw FRAMEWORKS /\ dict_get metrics fw = None) /\
    (forall fw, In fw (map fst metrics) ->
       In fw (table_rank_rps t) /\ In fw (table_rank_rpsw t) /\
       In fw (table_rank_rpsusd t)).
Proof.
  intros Hne. destruct metrics as [|[k v] tail]; [contradiction|].
  eexists. split; [reflexivity|]. cbn [table_lines table_rank_rps
    table_rank_rpsw table_rank_rpsusd].
  split; [reflexivity|].
  split; [intros fw m; apply line_of_figures|].
  split; [intros fw; apply line_of_no_data|].
  intros fw Hin. unfold rank.
  repeat split;
    apply (Permutation_in _ (Permutation_sym (sort_desc_perm _ _))); exact Hin.
Qed.

Lemma format_table_lines_witness :
  exists metrics t,
    metrics <> [] /\
    format_table metrics = Py.Ok t /\
    length (table_lines t) = 5%nat /\
    (forall fw m, In (Figures fw m) (table_lines t) <->
                  In fw FRAMEWORKS /\ dict_get metrics fw = Some m) /\
    (forall fw, In (NoData fw) (table_lines t) <->
                In fw FRAMEWORKS /\ dict_get metrics fw = None) /\
    (forall fw, In fw (map fst metrics) ->
       In fw (table_rank_rps t) /\ In fw (table_rank_rpsw t) /\
       In fw (table_rank_rpsusd t)).
Proof.
  destruct same_load_metrics as (ma & mb & _).
  assert (Hne : [("express"%string, ma); ("gin"%string, mb)] <> [])
    by discriminate.
  destruct (format_table_lines _ Hne) as (t & H).
  exists [("express"%string, ma); ("gin"%string, mb)], t.
  split; [exact Hne | exact H].
Defined.

End AnalyzeResultsExtFacts.
